(** * Timetable engine of adaptive-learning-agent, shallow embedding

    Sources: src/backend/timetable/{utils,models,scoring,scheduler}.py.

    Conventions of the embedding:
    - a [datetime.date] is its proleptic ordinal ([date.toordinal()]), a [Z]
      in [1, MAXORD]; arithmetic that leaves this range raises
      [OverflowError], as CPython's [date + timedelta] does;
    - a [datetime.time] keeps hour, minute and second (microseconds are
      never produced or read by the engine);
    - Python floats are modelled as exact rationals [Q] where the code only
      adds, multiplies, compares and truncates them, and as reals [R] in the
      urgency scorer, which takes a square root;
    - raised exceptions are the [Err] branch of a small result monad;
      mutable objects of the scheduler live in an explicit state threaded
      through a state-and-error monad. *)

From Stdlib Require Import ZArith QArith Qround Qminmax Qreals Reals Lra Lia.
From Stdlib Require Import Bool List Ascii String Permutation Sorted.
From stdpp Require Import gmap strings list.

Open Scope Z_scope.

(** ** Exceptions *)

Inductive py_error := ValueError | OverflowError | KeyError.

Inductive result (A : Type) : Type :=
| Ok (a : A)
| Err (e : py_error).
Arguments Ok {A} a.
Arguments Err {A} e.

Definition bind_r {A B} (m : result A) (f : A -> result B) : result B :=
  match m with Ok a => f a | Err e => Err e end.

Notation "'let!' x ':=' m 'in' f" := (bind_r m (fun x => f))
  (at level 200, x name, m at level 100, f at level 200).

(** [dict.get(key, default)] on a key that is present or absent. *)
Definition get {A} (o : option A) (default : A) : A :=
  match o with Some v => v | None => default end.

(** ** Python numeric helpers *)

(** [int(x)] on a float: truncation toward zero. *)
Definition py_int_of_Q (q : Q) : Z :=
  if Qle_bool 0 q then Qfloor q else - Qfloor (- q).

Definition Qltb (a b : Q) : bool := negb (Qle_bool b a).

(** [clamp] of utils.py: [max(min_val, min(max_val, value))]. *)
Definition clamp_Q (value min_val max_val : Q) : Q :=
  Qmax min_val (Qmin max_val value).

Definition clamp_R (value min_val max_val : R) : R :=
  Rmax min_val (Rmin max_val value).

(** [str(n)] and [f"{n:04d}"] for integers. *)
Fixpoint digits_fuel (fuel : nat) (n : Z) (acc : string) : string :=
  match fuel with
  | O => acc
  | S f =>
      let acc' := String (ascii_of_nat (48 + Z.to_nat (n mod 10))) acc in
      if n <? 10 then acc' else digits_fuel f (n / 10) acc'
  end.

Definition py_str_Z (n : Z) : string :=
  let a := Z.abs n in
  let s := digits_fuel (S (Z.to_nat (Z.log2 a))) a EmptyString in
  if n <? 0 then String "-" s else s.

Fixpoint zeros (k : nat) : string :=
  match k with O => EmptyString | S k' => String "0" (zeros k') end.

Definition zero_pad4 (n : Z) : string :=
  let s := py_str_Z n in
  if n <? 0 then s else append (zeros (4 - String.length s)) s.

(** [str.lower()] on the ASCII range. *)
Definition lower_ascii (c : ascii) : ascii :=
  let n := nat_of_ascii c in
  if (65 <=? n)%nat && (n <=? 90)%nat then ascii_of_nat (n + 32) else c.

Fixpoint py_lower (s : string) : string :=
  match s with
  | EmptyString => EmptyString
  | String c r => String (lower_ascii c) (py_lower r)
  end.

(** [str.split(sep)] with a one-character separator. *)
Fixpoint py_split (sep : ascii) (s : string) : list string :=
  match s with
  | EmptyString => [EmptyString]
  | String c r =>
      let parts := py_split sep r in
      if Ascii.eqb c sep then EmptyString :: parts
      else match parts with
           | p :: ps => String c p :: ps
           | [] => [String c EmptyString]
           end
  end.

(** ** utils.py: DateTimeUtils *)

Module DateTimeUtils.

Definition date := Z.

Definition is_leap (y : Z) : bool :=
  (y mod 4 =? 0) && (negb (y mod 100 =? 0) || (y mod 400 =? 0)).

Definition days_in_month (y m : Z) : Z :=
  if m =? 2 then (if is_leap y then 29 else 28)
  else if (m =? 4) || (m =? 6) || (m =? 9) || (m =? 11) then 30
  else 31.

Fixpoint days_before_month_aux (y : Z) (k : nat) : Z :=
  match k with
  | O => 0
  | S k' => days_before_month_aux y k' + days_in_month y (Z.of_nat k)
  end.

Definition days_before_month (y m : Z) : Z :=
  days_before_month_aux y (Z.to_nat (m - 1)).

Definition days_before_year (y : Z) : Z :=
  let y' := y - 1 in y' * 365 + y' / 4 - y' / 100 + y' / 400.

(** CPython's [_ymd2ord]. *)
Definition ymd2ord (y m d : Z) : date :=
  days_before_year y + days_before_month y m + d.

Definition MAXORD : date := 3652059.

(** The [date(y, m, d)] constructor. *)
Definition py_date (y m d : Z) : result date :=
  if (1 <=? y) && (y <=? 9999) && (1 <=? m) && (m <=? 12)
     && (1 <=? d) && (d <=? days_in_month y m)
  then Ok (ymd2ord y m d) else Err ValueError.

(** [date + timedelta(days=n)]. *)
Definition date_add (d : date) (n : Z) : result date :=
  let r := d + n in
  if (1 <=? r) && (r <=? MAXORD) then Ok r else Err OverflowError.

(** [date.weekday()]: Monday is 0; ordinal 1 (0001-01-01) is a Monday. *)
Definition weekday (d : date) : Z := (d + 6) mod 7.

Record time := mk_time { hour : Z; minute : Z; second : Z }.

(** The [time(h, m, s)] constructor. *)
Definition py_time (h m s : Z) : result time :=
  if (0 <=? h) && (h <? 24) && (0 <=? m) && (m <? 60) && (0 <=? s) && (s <? 60)
  then Ok (mk_time h m s) else Err ValueError.

(** Raw values that reach [parse_date] / [parse_time]: absent or [None],
    a string, an already-built object, or any other JSON value. *)
Inductive date_input := DI_None | DI_str (s : string) | DI_date (y m d : Z) | DI_other.
Inductive time_input := TI_None | TI_str (s : string) | TI_time (h m s : Z) | TI_other.

Section Parsing.
(** The library parsers the code calls: [date.fromisoformat],
    [datetime.strptime(s, fmt)], [time.fromisoformat] and [int(str)], seen
    as producing the components they pass to the validating constructor;
    [date.today()]. *)
Variable date_fromisoformat : string -> option (Z * Z * Z).
Variable strptime : string -> string -> option (Z * Z * Z).
Variable time_fromisoformat : string -> option (Z * Z * Z).
Variable py_int_str : string -> option Z.
Variable today : date.

Definition ymd_to_date (o : option (Z * Z * Z)) : option date :=
  match o with
  | Some (y, m, d) => match py_date y m d with Ok r => Some r | Err _ => None end
  | None => None
  end.

Definition fallback_formats : list string :=
  ["%Y/%m/%d"; "%d-%m-%Y"; "%d/%m/%Y"; "%m-%d-%Y"; "%m/%d/%Y"]%string.

Fixpoint try_formats (formats : list string) (s : string) : option date :=
  match formats with
  | [] => None
  | fmt :: rest =>
      match ymd_to_date (strptime s fmt) with
      | Some d => Some d
      | None => try_formats rest s
      end
  end.

Definition parse_date (date_input : date_input) (default : option date) : result date :=
  match date_input with
  | DI_None => match default with Some d => Ok d | None => Ok today end
  | DI_date y m d => py_date y m d
  | DI_str s =>
      match ymd_to_date (date_fromisoformat s) with
      | Some d => Ok d
      | None =>
          match try_formats fallback_formats s with
          | Some d => Ok d
          | None => Err ValueError
          end
      end
  | DI_other => Err ValueError
  end.

Definition parse_time (time_input : time_input) (default : option time) : result time :=
  match time_input with
  | TI_None => match default with Some t => Ok t | None => Ok (mk_time 9 0 0) end
  | TI_time h m s => py_time h m s
  | TI_str s =>
      match match time_fromisoformat s with
            | Some (h, m, sec) => py_time h m sec
            | None => Err ValueError
            end with
      | Ok t => Ok t
      | Err _ =>
          let parts := py_split ":" s in
          if (2 <=? length parts)%nat then
            match py_int_str (nth 0 parts EmptyString),
                  py_int_str (nth 1 parts EmptyString) with
            | Some h, Some m =>
                match py_time h m 0 with Ok t => Ok t | Err _ => Err ValueError end
            | _, _ => Err ValueError
            end
          else Err ValueError
      end
  | TI_other => Err ValueError
  end.

End Parsing.

(** [date_range(start, end)] consumed to the end: the generator yields
    [start .. end] and then evaluates [current += timedelta(days=1)] on
    [end], which overflows when [end] is the last representable date. *)
Definition zseq (start stop : Z) : list Z :=
  map (fun k => start + Z.of_nat k) (seq 0 (Z.to_nat (stop - start + 1))).

Definition date_range (start_date end_date : date) : result (list date) :=
  if start_date <=? end_date then
    if end_date <? MAXORD then Ok (zseq start_date end_date) else Err OverflowError
  else Ok [].

Definition days_between (start_date end_date : date) : Z := end_date - start_date.

Definition add_days (base_date : date) (days : Z) : result date := date_add base_date days.

Definition time_to_minutes (t : time) : Z := hour t * 60 + minute t.

Definition add_minutes_to_time (base_time : time) (minutes : Z) : time :=
  let total_minutes := hour base_time * 60 + minute base_time + minutes in
  if 24 * 60 <=? total_minutes then mk_time 23 59 0
  else if total_minutes <? 0 then mk_time 0 0 0
  else mk_time (total_minutes / 60) (total_minutes mod 60) 0.

Definition find_latest_date (dates : list date) : option date :=
  match dates with
  | [] => None
  | d :: ds => Some (fold_left Z.max ds d)
  end.

(** [get_spaced_repetition_dates]: [initial_date + timedelta(days=i)] is
    evaluated for every interval before the comparison with [end_date]. *)
Fixpoint get_spaced_repetition_dates (initial_date end_date : date)
    (intervals : list Z) : result (list date) :=
  match intervals with
  | [] => Ok []
  | interval :: rest =>
      let! rep_date := date_add initial_date interval in
      let! dates := get_spaced_repetition_dates initial_date end_date rest in
      Ok (if rep_date <=? end_date then rep_date :: dates else dates)
  end.

Definition hours_to_minutes (hours : Q) : Z := py_int_of_Q (hours * 60).

(** [minutes_to_time]: clamped to [00:00] and [23:59]. *)
Definition minutes_to_time (minutes : Z) : time :=
  if minutes <? 0 then mk_time 0 0 0
  else if 24 * 60 <=? minutes then mk_time 23 59 0
  else mk_time (minutes / 60) (minutes mod 60) 0.

Definition minutes_between_times (start_time end_time : time) : Z :=
  let start_minutes := hour start_time * 60 + minute start_time in
  let end_minutes := hour end_time * 60 + minute end_time in
  end_minutes - start_minutes.

(** [format_duration]: [//] and [%] by 60 are [Z.div] and [Z.modulo]
    (both round toward minus infinity). *)
Definition format_duration (minutes : Z) : string :=
  if minutes <? 60 then append (py_str_Z minutes) "m"
  else
    let hours := minutes / 60 in
    let remaining_mins := minutes mod 60 in
    if remaining_mins =? 0 then append (py_str_Z hours) "h"
    else append (py_str_Z hours) (append "h " (append (py_str_Z remaining_mins) "m")).

Definition find_earliest_date (dates : list date) : option date :=
  match dates with
  | [] => None
  | d :: ds => Some (fold_left Z.min ds d)
  end.

Definition is_weekend (target_date : date) : bool := 5 <=? weekday target_date.

Definition is_weekday (target_date : date) : bool := weekday target_date <? 5.

(** [days[target_date.weekday()]]; an index outside the list would raise
    [IndexError] ([None]). *)
Definition get_day_name (target_date : date) : option string :=
  nth_error ["Monday"; "Tuesday"; "Wednesday"; "Thursday"; "Friday"; "Saturday"; "Sunday"]%string
    (Z.to_nat (weekday target_date)).

End DateTimeUtils.

(** ** Models of the library parsers (used to run the code on inputs)

    [date.fromisoformat] on its calendar forms [YYYY-MM-DD] and
    [YYYYMMDD]; [datetime.strptime] on formats made of [%Y] (four digits),
    [%m] and [%d] (two digits, else one) and literal characters, the whole
    string being consumed; [time.fromisoformat] on [HH], [HH:MM] and
    [HH:MM:SS]; [int(str)] on an optional sign followed by digits. *)
Module PyLib.

Definition digit (c : ascii) : option Z :=
  let n := nat_of_ascii c in
  if (48 <=? n)%nat && (n <=? 57)%nat then Some (Z.of_nat (n - 48)) else None.

Fixpoint take_digits (n : nat) (s : string) (acc : Z) : option (Z * string) :=
  match n with
  | O => Some (acc, s)
  | S n' =>
      match s with
      | String c r =>
          match digit c with
          | Some v => take_digits n' r (acc * 10 + v)
          | None => None
          end
      | EmptyString => None
      end
  end.

Fixpoint match_format (fmt s : string) (y m d : Z) : option (Z * Z * Z) :=
  match fmt with
  | EmptyString => match s with EmptyString => Some (y, m, d) | _ => None end
  | String "%" (String c rest) =>
      if Ascii.eqb c "Y" then
        match take_digits 4 s 0 with
        | Some (v, s') => match_format rest s' v m d
        | None => None
        end
      else if Ascii.eqb c "m" then
        let one := match take_digits 1 s 0 with
                   | Some (v, s') => if 1 <=? v then match_format rest s' y v d else None
                   | None => None
                   end in
        match take_digits 2 s 0 with
        | Some (v, s') =>
            if (1 <=? v) && (v <=? 12) then
              match match_format rest s' y v d with Some r => Some r | None => one end
            else one
        | None => one
        end
      else if Ascii.eqb c "d" then
        let one := match take_digits 1 s 0 with
                   | Some (v, s') => if 1 <=? v then match_format rest s' y m v else None
                   | None => None
                   end in
        match take_digits 2 s 0 with
        | Some (v, s') =>
            if (1 <=? v) && (v <=? 31) then
              match match_format rest s' y m v with Some r => Some r | None => one end
            else one
        | None => one
        end
      else None
  | String c rest =>
      match s with
      | String c' r => if Ascii.eqb c c' then match_format rest r y m d else None
      | EmptyString => None
      end
  end.

Definition strptime (s fmt : string) : option (Z * Z * Z) := match_format fmt s 0 0 0.

Definition date_fromisoformat (s : string) : option (Z * Z * Z) :=
  match match_format "%Y-%m-%d" s 0 0 0 with
  | Some r => if (String.length s =? 10)%nat then Some r else None
  | None =>
      match take_digits 4 s 0 with
      | Some (y, r1) =>
          match take_digits 2 r1 0 with
          | Some (m, r2) =>
              match take_digits 2 r2 0 with
              | Some (d, EmptyString) => Some (y, m, d)
              | _ => None
              end
          | None => None
          end
      | None => None
      end
  end.

Definition time_fromisoformat (s : string) : option (Z * Z * Z) :=
  match take_digits 2 s 0 with
  | Some (h, EmptyString) => Some (h, 0, 0)
  | Some (h, String ":" r1) =>
      match take_digits 2 r1 0 with
      | Some (m, EmptyString) => Some (h, m, 0)
      | Some (m, String ":" r2) =>
          match take_digits 2 r2 0 with
          | Some (sec, EmptyString) => Some (h, m, sec)
          | _ => None
          end
      | _ => None
      end
  | _ => None
  end.

Fixpoint digits_value (s : string) (acc : Z) : option Z :=
  match s with
  | EmptyString => Some acc
  | String c r => match digit c with Some v => digits_value r (acc * 10 + v) | None => None end
  end.

Definition py_int_str (s : string) : option Z :=
  match s with
  | EmptyString => None
  | String "-" EmptyString | String "+" EmptyString => None
  | String "-" r => option_map Z.opp (digits_value r 0)
  | String "+" r => digits_value r 0
  | _ => digits_value s 0
  end.

End PyLib.

(** ** models.py *)

Import DateTimeUtils.

Inductive EventType := EXAM | ASSIGNMENT | DEADLINE | LECTURE | LAB.

(** [EventType(value)]: the enum lookup by value. *)
Definition EventType_of_value (s : string) : option EventType :=
  if String.eqb s "exam" then Some EXAM
  else if String.eqb s "assignment" then Some ASSIGNMENT
  else if String.eqb s "deadline" then Some DEADLINE
  else if String.eqb s "lecture" then Some LECTURE
  else if String.eqb s "lab" then Some LAB
  else None.

Definition EventType_value (e : EventType) : string :=
  match e with
  | EXAM => "exam" | ASSIGNMENT => "assignment" | DEADLINE => "deadline"
  | LECTURE => "lecture" | LAB => "lab"
  end.

Inductive TaskStatus := PENDING | SCHEDULED | IN_PROGRESS | COMPLETED | MISSED | RESCHEDULED.

Definition TaskStatus_eqb (a b : TaskStatus) : bool :=
  match a, b with
  | PENDING, PENDING | SCHEDULED, SCHEDULED | IN_PROGRESS, IN_PROGRESS
  | COMPLETED, COMPLETED | MISSED, MISSED | RESCHEDULED, RESCHEDULED => true
  | _, _ => false
  end.

Inductive TaskType := INITIAL_LEARNING | REVISION | PRACTICE | EXAM_PREP.

Definition TaskType_eqb (a b : TaskType) : bool :=
  match a, b with
  | INITIAL_LEARNING, INITIAL_LEARNING | REVISION, REVISION
  | PRACTICE, PRACTICE | EXAM_PREP, EXAM_PREP => true
  | _, _ => false
  end.

Module FixedEvent.
Record t := mk {
  id : string;
  event_type : EventType;
  subject : string;
  topic : option string;
  target_date : date;
  priority_level : Z;
  estimated_effort_hours : Q;
  description : string }.

(** The dataclass constructor with its [__post_init__] checks. *)
Definition make id event_type subject topic target_date priority_level
    estimated_effort_hours description : result t :=
  if negb ((1 <=? priority_level) && (priority_level <=? 10)) then Err ValueError
  else if Qltb estimated_effort_hours 0 then Err ValueError
  else Ok (mk id event_type subject topic target_date priority_level
             estimated_effort_hours description).
End FixedEvent.

Module DailyAvailability.
Record t := mk {
  weekday_hours : Q;
  weekend_hours : Q;
  start_time : time;
  end_time : time;
  excluded_dates : list date }.

Definition get_hours_for_date (self : t) (target_date : date) : Q :=
  if existsb (Z.eqb target_date) (excluded_dates self) then 0
  else if weekday target_date <? 5 then weekday_hours self
  else weekend_hours self.
End DailyAvailability.

Module StudyPreferences.
Record t := mk {
  session_length_minutes : Z;
  break_length_minutes : Z;
  max_sessions_per_day : Z;
  max_subjects_per_day : Z;
  buffer_percentage : Q;
  prefer_morning : bool;
  min_session_gap_minutes : Z }.

Definition make session_length_minutes break_length_minutes max_sessions_per_day
    max_subjects_per_day buffer_percentage prefer_morning min_session_gap_minutes
    : result t :=
  if session_length_minutes <? 15 then Err ValueError
  else if break_length_minutes <? 0 then Err ValueError
  else if negb (Qle_bool (1 # 10) buffer_percentage && Qle_bool buffer_percentage (3 # 10))
  then Err ValueError
  else Ok (mk session_length_minutes break_length_minutes max_sessions_per_day
             max_subjects_per_day buffer_percentage prefer_morning min_session_gap_minutes).
End StudyPreferences.

Module LearningTopic.
Record t := mk {
  id : string;
  subject : string;
  topic : string;
  difficulty_score : Q;
  confidence_score : Q;
  prerequisites : list string;
  estimated_hours : Q;
  is_concept_heavy : bool }.

Definition make id subject topic difficulty_score confidence_score prerequisites
    estimated_hours is_concept_heavy : result t :=
  if negb (Qle_bool 0 difficulty_score && Qle_bool difficulty_score 1) then Err ValueError
  else if negb (Qle_bool 0 confidence_score && Qle_bool confidence_score 1) then Err ValueError
  else Ok (mk id subject topic difficulty_score confidence_score prerequisites
             estimated_hours is_concept_heavy).
End LearningTopic.

Module StudyTask.
Record t := mk {
  task_id : string;
  subject : string;
  topic : string;
  deadline : date;
  required_minutes : Z;
  priority : Z;
  difficulty_score : Q;
  confidence_score : Q;
  status : TaskStatus;
  task_type : TaskType;
  parent_task_id : option string;
  source_event_id : option string;
  source_topic_id : option string;
  scheduled_date : option date;
  scheduled_slot : option Z;
  revision_iteration : Z }.

(** The constructor with the dataclass defaults. *)
Definition new task_id subject topic deadline required_minutes priority
    difficulty_score confidence_score task_type parent_task_id source_event_id
    source_topic_id revision_iteration : t :=
  mk task_id subject topic deadline required_minutes priority difficulty_score
     confidence_score PENDING task_type parent_task_id source_event_id
     source_topic_id None None revision_iteration.

Definition mark_scheduled (self : t) (scheduled_date : date) (slot : Z) : t :=
  mk (task_id self) (subject self) (topic self) (deadline self) (required_minutes self)
     (priority self) (difficulty_score self) (confidence_score self) SCHEDULED
     (task_type self) (parent_task_id self) (source_event_id self)
     (source_topic_id self) (Some scheduled_date) (Some slot) (revision_iteration self).

(** The same task with one field changed (used to compare two tasks that
    differ in that field only). *)
Definition with_priority (self : t) (p : Z) : t :=
  mk (task_id self) (subject self) (topic self) (deadline self) (required_minutes self)
     p (difficulty_score self) (confidence_score self) (status self)
     (task_type self) (parent_task_id self) (source_event_id self)
     (source_topic_id self) (scheduled_date self) (scheduled_slot self)
     (revision_iteration self).

Definition with_confidence (self : t) (c : Q) : t :=
  mk (task_id self) (subject self) (topic self) (deadline self) (required_minutes self)
     (priority self) (difficulty_score self) c (status self)
     (task_type self) (parent_task_id self) (source_event_id self)
     (source_topic_id self) (scheduled_date self) (scheduled_slot self)
     (revision_iteration self).

Definition mark_completed (self : t) : t :=
  mk (task_id self) (subject self) (topic self) (deadline self) (required_minutes self)
     (priority self) (difficulty_score self) (confidence_score self) COMPLETED
     (task_type self) (parent_task_id self) (source_event_id self)
     (source_topic_id self) (scheduled_date self) (scheduled_slot self) (revision_iteration self).

Definition mark_missed (self : t) : t :=
  mk (task_id self) (subject self) (topic self) (deadline self) (required_minutes self)
     (priority self) (difficulty_score self) (confidence_score self) MISSED
     (task_type self) (parent_task_id self) (source_event_id self)
     (source_topic_id self) (scheduled_date self) (scheduled_slot self) (revision_iteration self).

Definition clone_for_reschedule (self : t) (new_task_id : string) : t :=
  new new_task_id (subject self) (topic self) (deadline self) (required_minutes self)
    (Z.min 10 (priority self + 1)) (difficulty_score self) (confidence_score self)
    (task_type self) (Some (task_id self)) (source_event_id self) (source_topic_id self) 0.
End StudyTask.

Module TimeSlot.
Record t := mk {
  start_time : time;
  end_time : time;
  subject : string;
  topic : string;
  task_id : string;
  task_type : TaskType;
  is_break : bool }.
End TimeSlot.

Module DaySchedule.
Record t := mk {
  date : DateTimeUtils.date;
  slots : list TimeSlot.t;
  total_study_minutes : Z;
  subjects_covered : gset string;
  capacity_used : Q }.

Definition new (d : DateTimeUtils.date) : t := mk d [] 0 ∅ 0.

Definition add_slot (self : t) (slot : TimeSlot.t) : t :=
  let slots' := slots self ++ [slot] in
  if negb (TimeSlot.is_break slot) then
    let start_minutes := hour (TimeSlot.start_time slot) * 60 + minute (TimeSlot.start_time slot) in
    let end_minutes := hour (TimeSlot.end_time slot) * 60 + minute (TimeSlot.end_time slot) in
    mk (date self) slots' (total_study_minutes self + (end_minutes - start_minutes))
       ({[TimeSlot.subject slot]} ∪ subjects_covered self) (capacity_used self)
  else mk (date self) slots' (total_study_minutes self) (subjects_covered self)
          (capacity_used self).

Definition set_capacity_used (self : t) (c : Q) : t :=
  mk (date self) (slots self) (total_study_minutes self) (subjects_covered self) c.

Definition get_session_count (self : t) : nat :=
  length (filter (fun s => negb (TimeSlot.is_break s)) (slots self)).
End DaySchedule.

Module CapacityWarning.
Record t := mk {
  date : DateTimeUtils.date;
  message : string;
  affected_tasks : list string;
  severity : string }.
End CapacityWarning.

(** ** scoring.py *)

Module Scoring.
Local Open Scope R_scope.

Record ScoreWeights := mkWeights {
  priority_weight : R;
  difficulty_weight : R;
  deadline_weight : R;
  confidence_weight : R;
  type_weight : R }.

(** [ScoreWeights()]: the defaults, whose sum (1.0) passes [__post_init__]. *)
Definition default_weights : ScoreWeights :=
  mkWeights (25 / 100) (15 / 100) (35 / 100) (15 / 100) (10 / 100).

(** [ScoreBreakdown]; the informational [explanation] string is not
    modelled (it is never read by the engine). *)
Record ScoreBreakdown := mkBreakdown {
  bd_task_id : string;
  total_score : R;
  priority_component : R;
  difficulty_component : R;
  deadline_component : R;
  confidence_component : R;
  type_component : R;
  days_until_deadline : Z }.

Definition TYPE_BONUSES (task_type : TaskType) : R :=
  match task_type with
  | EXAM_PREP => 15 / 100
  | REVISION => 8 / 100
  | INITIAL_LEARNING => 5 / 100
  | PRACTICE => 2 / 100
  end.

Definition _calculate_priority_component (priority : Z) : R :=
  clamp_R (IZR priority) 1 10 / 10.

Definition _calculate_difficulty_component (difficulty_score : Q) : R :=
  clamp_R (Q2R difficulty_score) 0 1.

Definition decay_factor : R := 1 / 2.

(** [normalized_days ** decay_factor] is the real power [Rpower]. *)
Definition _calculate_deadline_component (days_remaining planning_horizon_days : Z) : R :=
  if (days_remaining <=? 0)%Z then 1
  else if (planning_horizon_days <=? days_remaining)%Z then 1 / 10
  else
    let normalized_days := IZR days_remaining / IZR planning_horizon_days in
    let urgency := 1 - Rpower normalized_days decay_factor in
    Rmax (1 / 10) urgency.

Definition _calculate_confidence_component (confidence_score : Q) : R :=
  let confidence := clamp_R (Q2R confidence_score) 0 1 in
  1 - confidence.

Definition _calculate_type_component (task_type : TaskType) : R := TYPE_BONUSES task_type.

Definition calculate_score_with_breakdown (weights : ScoreWeights) (task : StudyTask.t)
    (current_date : date) (planning_horizon_days : Z) : ScoreBreakdown :=
  let priority_component := _calculate_priority_component (StudyTask.priority task) in
  let difficulty_component := _calculate_difficulty_component (StudyTask.difficulty_score task) in
  let days_remaining := days_between current_date (StudyTask.deadline task) in
  let deadline_component := _calculate_deadline_component days_remaining planning_horizon_days in
  let confidence_component := _calculate_confidence_component (StudyTask.confidence_score task) in
  let type_component := _calculate_type_component (StudyTask.task_type task) in
  let total_score :=
    priority_component * priority_weight weights +
    difficulty_component * difficulty_weight weights +
    deadline_component * deadline_weight weights +
    confidence_component * confidence_weight weights +
    type_component * type_weight weights in
  let total_score := clamp_R total_score 0 1 in
  mkBreakdown (StudyTask.task_id task) total_score priority_component difficulty_component
    deadline_component confidence_component type_component days_remaining.

Definition calculate_score (weights : ScoreWeights) (task : StudyTask.t)
    (current_date : date) (planning_horizon_days : Z) : R :=
  total_score (calculate_score_with_breakdown weights task current_date planning_horizon_days).

(** Python's [list.sort(key=...)] is stable: its result is the insertion
    sort below, which puts an element after every earlier element whose
    key is not strictly greater. *)
Section StableSort.
Context {A K : Type} (key : A -> K) (key_lt : K -> K -> bool).

Fixpoint insert_sorted (x : A) (l : list A) : list A :=
  match l with
  | [] => [x]
  | y :: l' => if key_lt (key x) (key y) then x :: l else y :: insert_sorted x l'
  end.

Definition stable_sort (l : list A) : list A :=
  fold_left (fun acc x => insert_sorted x acc) l [].
End StableSort.

(** Tuple comparison [(a1, d1) < (a2, d2)]: the first components decide
    unless they are equal. *)
Definition key_lt (k1 k2 : R * Z) : bool :=
  let (a1, d1) := k1 in
  let (a2, d2) := k2 in
  if Req_EM_T a1 a2 then (d1 <? d2)%Z
  else if Rlt_dec a1 a2 then true else false.

(** [rank_tasks] on a list of elements that each denote a task ([task_of]);
    the scheduler ranks task objects, identified by their position. *)
Definition rank_tasks_of {A : Type} (task_of : A -> StudyTask.t) (weights : ScoreWeights)
    (tasks : list A) (current_date : date) (planning_horizon_days : Z)
    : list (A * R * ScoreBreakdown) :=
  let scored_tasks :=
    map (fun x =>
           let breakdown := calculate_score_with_breakdown weights (task_of x)
                              current_date planning_horizon_days in
           (x, total_score breakdown, breakdown)) tasks in
  stable_sort (fun e : A * R * ScoreBreakdown =>
                 let '(x, s, _) := e in (- s, StudyTask.deadline (task_of x)))
              key_lt scored_tasks.

Definition rank_tasks (weights : ScoreWeights) (tasks : list StudyTask.t)
    (current_date : date) (planning_horizon_days : Z)
    : list (StudyTask.t * R * ScoreBreakdown) :=
  rank_tasks_of (fun t => t) weights tasks current_date planning_horizon_days.

(** [filter_schedulable_tasks]: the loop with its two [continue]s keeps a
    task unless it is [COMPLETED] or its deadline is more than one day
    past. *)
Definition filter_schedulable_tasks (tasks : list StudyTask.t) (current_date : date)
    : list StudyTask.t :=
  List.filter (fun task =>
                 negb (TaskStatus_eqb (StudyTask.status task) COMPLETED)
                 && negb (days_between current_date (StudyTask.deadline task) <? -1)%Z)
              tasks.

(** [compute_task_urgency_batch]: a dict comprehension, so a later task
    with the same id overwrites an earlier one; [weights or ScoreWeights()]. *)
Definition compute_task_urgency_batch (tasks : list StudyTask.t) (current_date : date)
    (weights : option ScoreWeights) (planning_horizon_days : Z) : gmap string R :=
  let w := match weights with Some w => w | None => default_weights end in
  fold_left (fun m task =>
               <[StudyTask.task_id task := calculate_score w task current_date planning_horizon_days]> m)
            tasks ∅.

End Scoring.

(** ** scheduler.py *)

Module DayCapacity.
Record t := mk {
  date : DateTimeUtils.date;
  total_minutes : Z;
  available_minutes : Z;
  max_sessions : Z;
  sessions_used : Z;
  subjects_used : gset string;
  last_topic : option string;
  next_available_time : time }.

Definition can_fit_session (self : t) (minutes : Z) (subject topic : string)
    (max_subjects : Z) : bool :=
  if available_minutes self <? minutes then false
  else if max_sessions self <=? sessions_used self then false
  else if negb (bool_decide (subject ∈ subjects_used self))
          && (max_subjects <=? Z.of_nat (size (subjects_used self))) then false
  else if match last_topic self with Some l => String.eqb l topic | None => false end
          && (0 <? sessions_used self) then false
  else true.

Definition allocate (self : t) (minutes : Z) (subject topic : string) : t :=
  mk (date self) (total_minutes self) (available_minutes self - minutes) (max_sessions self)
     (sessions_used self + 1) ({[subject]} ∪ subjects_used self) (Some topic)
     (next_available_time self).

Definition set_next_available_time (self : t) (tm : time) : t :=
  mk (date self) (total_minutes self) (available_minutes self) (max_sessions self)
     (sessions_used self) (subjects_used self) (last_topic self) tm.
End DayCapacity.

(** [range(n)] and [range(a, b)] *)
Definition py_range (n : Z) : list Z := zseq 0 (n - 1).
Definition py_range_from (a b : Z) : list Z := zseq a (b - 1).

Module TaskDecomposer.

(** [_next_task_id]: the decomposer's counter is threaded explicitly. *)
Definition _next_task_id (prefix : string) (counter : Z) : string * Z :=
  let c := counter + 1 in (append prefix (append "_" (zero_pad4 c)), c).

(** [event.topic or f"{event.event_type.value} preparation"] *)
Definition event_topic (event : FixedEvent.t) : string :=
  let fallback := append (EventType_value (FixedEvent.event_type event)) " preparation" in
  match FixedEvent.topic event with
  | Some s => if String.eqb s "" then fallback else s
  | None => fallback
  end.

Definition decompose_event (session_length counter : Z) (event : FixedEvent.t)
    : list StudyTask.t * Z :=
  let total_minutes := hours_to_minutes (FixedEvent.estimated_effort_hours event) in
  let task_type := match FixedEvent.event_type event with
                   | EXAM => EXAM_PREP | _ => INITIAL_LEARNING end in
  let num_sessions := Z.max 1 ((total_minutes + session_length - 1) / session_length) in
  let minutes_per_session := total_minutes / num_sessions in
  let remainder := total_minutes mod num_sessions in
  fold_left
    (fun (acc : list StudyTask.t * Z) (i : Z) =>
       let (tasks, c) := acc in
       let session_minutes := minutes_per_session + (if i <? remainder then 1 else 0) in
       let session_minutes := Z.min session_minutes session_length in
       let (tid, c') := _next_task_id "event" c in
       let task := StudyTask.new tid (FixedEvent.subject event) (event_topic event)
                     (FixedEvent.target_date event) session_minutes
                     (FixedEvent.priority_level event) (1 # 2) (1 # 2) task_type
                     None (Some (FixedEvent.id event)) None 0 in
       (tasks ++ [task], c'))
    (py_range num_sessions) ([], counter).

Definition _calculate_topic_priority (topic : LearningTopic.t) : Z :=
  let priority_score := ((LearningTopic.difficulty_score topic
                         + (1 - LearningTopic.confidence_score topic)) / 2)%Q in
  py_int_of_Q (clamp_Q (priority_score * 10) 1 10)%Q.

(** The intermediate quantities of [decompose_topic]. *)
Definition topic_adjusted_minutes (topic : LearningTopic.t) : Z :=
  let base_minutes := hours_to_minutes (LearningTopic.estimated_hours topic) in
  let difficulty_multiplier := (1 + LearningTopic.difficulty_score topic * (1 # 2))%Q in
  let confidence_multiplier := (1 + (1 - LearningTopic.confidence_score topic) * (1 # 2))%Q in
  py_int_of_Q (inject_Z base_minutes * difficulty_multiplier * confidence_multiplier)%Q.

Definition topic_is_hard (topic : LearningTopic.t) : bool :=
  Qltb (7 # 10) (LearningTopic.difficulty_score topic)
  || Qltb (LearningTopic.confidence_score topic) (3 # 10).

Definition topic_effective_session_length (session_length : Z) (topic : LearningTopic.t) : Z :=
  if topic_is_hard topic then Z.min session_length 30 else session_length.

Definition decompose_topic (session_length counter : Z) (topic : LearningTopic.t)
    (deadline : date) : list StudyTask.t * Z :=
  let adjusted_minutes := topic_adjusted_minutes topic in
  let effective_session_length := topic_effective_session_length session_length topic in
  let num_sessions := Z.max 1 ((adjusted_minutes + effective_session_length - 1)
                               / effective_session_length) in
  let num_sessions := Z.min num_sessions 10 in
  let minutes_per_session := adjusted_minutes / num_sessions in
  let remainder := adjusted_minutes mod num_sessions in
  fold_left
    (fun (acc : list StudyTask.t * Z) (i : Z) =>
       let (tasks, c) := acc in
       let session_minutes := minutes_per_session + (if i <? remainder then 1 else 0) in
       let session_minutes := Z.min (Z.max session_minutes 15) session_length in
       let (tid, c') := _next_task_id "topic" c in
       let task := StudyTask.new tid (LearningTopic.subject topic) (LearningTopic.topic topic)
                     deadline session_minutes (_calculate_topic_priority topic)
                     (LearningTopic.difficulty_score topic)
                     (LearningTopic.confidence_score topic) INITIAL_LEARNING
                     None None (Some (LearningTopic.id topic)) 0 in
       (tasks ++ [task], c'))
    (py_range num_sessions) ([], counter).

Definition create_revision_task (counter : Z) (original_task : StudyTask.t)
    (revision_date : date) (iteration : Z) : StudyTask.t * Z :=
  let revision_minutes := Z.max 15 (StudyTask.required_minutes original_task / 2) in
  let (tid, c') := _next_task_id "revision" counter in
  (StudyTask.new tid (StudyTask.subject original_task) (StudyTask.topic original_task)
     revision_date revision_minutes (Z.max 1 (StudyTask.priority original_task - 1))
     (StudyTask.difficulty_score original_task)
     (Qmin 1 (StudyTask.confidence_score original_task + (1 # 10) * inject_Z iteration))%Q
     REVISION (Some (StudyTask.task_id original_task)) None
     (StudyTask.source_topic_id original_task) iteration, c').

End TaskDecomposer.

Module CapacityPlanner.

Definition day_capacity (availability : DailyAvailability.t)
    (preferences : StudyPreferences.t) (current_date : date) : DayCapacity.t :=
  let raw_hours := DailyAvailability.get_hours_for_date availability current_date in
  let raw_minutes := hours_to_minutes raw_hours in
  let buffer := py_int_of_Q (inject_Z raw_minutes * StudyPreferences.buffer_percentage preferences)%Q in
  let available_minutes := raw_minutes - buffer in
  DayCapacity.mk current_date raw_minutes available_minutes
    (StudyPreferences.max_sessions_per_day preferences) 0 ∅ None
    (DailyAvailability.start_time availability).

Definition build_capacity_map (availability : DailyAvailability.t)
    (preferences : StudyPreferences.t) (start_date end_date : date)
    : result (gmap Z DayCapacity.t) :=
  let! dates := date_range start_date end_date in
  Ok (fold_left (fun m d => <[d := day_capacity availability preferences d]> m) dates ∅).


(** Sums over the values of the map; integer addition does not depend on
    the iteration order. *)
Definition get_total_capacity (capacity_map : gmap Z DayCapacity.t) : Z :=
  map_fold (fun _ cap acc => DayCapacity.available_minutes cap + acc) 0 capacity_map.

Definition get_remaining_capacity (capacity_map : gmap Z DayCapacity.t) : Z :=
  map_fold (fun _ cap acc => DayCapacity.available_minutes cap + acc) 0 capacity_map.

End CapacityPlanner.

Module TimetableOutput.
Record Metadata := mkMetadata {
  generated_at : date;
  horizon_end : date;
  total_tasks : nat;
  scheduled_tasks : nat;
  total_events : nat;
  total_topics : nat }.

(** [TimetableOutput]; [to_dict] renders these fields one for one. *)
Record t := mk {
  schedule : gmap Z DaySchedule.t;
  tasks : list StudyTask.t;
  warnings : list CapacityWarning.t;
  metadata : Metadata }.

Definition get_unscheduled_tasks (self : t) : list StudyTask.t :=
  List.filter (fun tk => TaskStatus_eqb (StudyTask.status tk) PENDING) (tasks self).

Definition get_scheduled_tasks (self : t) : list StudyTask.t :=
  List.filter (fun tk => TaskStatus_eqb (StudyTask.status tk) SCHEDULED) (tasks self).

(** [self.schedule.get(target_date.isoformat())] *)
Definition get_schedule_for_date (self : t) (target_date : date) : option DaySchedule.t :=
  schedule self !! target_date.
End TimetableOutput.

Module TimetableScheduler.

(** The normalized inputs held by a scheduler object. *)
Record t := mk {
  current_date : date;
  events : list FixedEvent.t;
  availability : DailyAvailability.t;
  preferences : StudyPreferences.t;
  topics : list LearningTopic.t }.

(** The mutable part of one [generate()] run: [self.tasks],
    [self.warnings], [self.schedule], the local [capacity_map] (whose
    [DayCapacity] objects are mutated in place) and the decomposer's task
    counter. Tasks are objects shared between [self.tasks] and the ranked
    list; they are identified by their position in [self.tasks]. *)
Record State := mkState {
  tasks : list StudyTask.t;
  warnings : list CapacityWarning.t;
  schedule : gmap Z DaySchedule.t;
  capacity_map : gmap Z DayCapacity.t;
  task_counter : Z }.

Definition M (A : Type) : Type := State -> result (A * State).

Definition ret {A} (a : A) : M A := fun s => Ok (a, s).

Definition bind {A B} (m : M A) (f : A -> M B) : M B :=
  fun s => match m s with Ok (a, s') => f a s' | Err e => Err e end.

Notation "'let%' x ':=' m 'in' f" := (bind m (fun x => f))
  (at level 200, x name, m at level 100, f at level 200).

Definition lift {A} (r : result A) : M A :=
  fun s => match r with Ok a => Ok (a, s) | Err e => Err e end.

Definition set_tasks (s : State) (ts : list StudyTask.t) : State :=
  mkState ts (warnings s) (schedule s) (capacity_map s) (task_counter s).
Definition set_warnings (s : State) (ws : list CapacityWarning.t) : State :=
  mkState (tasks s) ws (schedule s) (capacity_map s) (task_counter s).
Definition set_schedule (s : State) (sc : gmap Z DaySchedule.t) : State :=
  mkState (tasks s) (warnings s) sc (capacity_map s) (task_counter s).
Definition set_capacity_map (s : State) (cm : gmap Z DayCapacity.t) : State :=
  mkState (tasks s) (warnings s) (schedule s) cm (task_counter s).
Definition set_task_counter (s : State) (c : Z) : State :=
  mkState (tasks s) (warnings s) (schedule s) (capacity_map s) c.

Definition _determine_horizon (self : t) : result date :=
  let deadlines := map FixedEvent.target_date (events self) in
  match find_latest_date deadlines with
  | None => add_days (current_date self) 30
  | Some latest => add_days latest 3
  end.

Definition topic_deadline (self : t) (end_date : date) : date :=
  match find_latest_date (map FixedEvent.target_date (events self)) with
  | Some latest => latest
  | None => end_date
  end.

Definition _decompose_all (self : t) (end_date : date) : M unit :=
  fun s =>
    let L := StudyPreferences.session_length_minutes (preferences self) in
    let '(ts1, c1) :=
      fold_left (fun (acc : list StudyTask.t * Z) event =>
                   let (ts, c) := acc in
                   let (new, c') := TaskDecomposer.decompose_event L c event in
                   (ts ++ new, c'))
                (events self) (tasks s, task_counter s) in
    let deadline := topic_deadline self end_date in
    let '(ts2, c2) :=
      fold_left (fun (acc : list StudyTask.t * Z) topic =>
                   let (ts, c) := acc in
                   let (new, c') := TaskDecomposer.decompose_topic L c topic deadline in
                   (ts ++ new, c'))
                (topics self) (ts1, c1) in
    Ok (tt, set_task_counter (set_tasks s ts2) c2).

Definition _initialize_schedule (start_date end_date : date) : M unit :=
  let% dates := lift (date_range start_date end_date) in
  fun s => Ok (tt, set_schedule s (fold_left (fun m d => <[d := DaySchedule.new d]> m)
                                             dates (schedule s))).

Definition _add_task_to_schedule (self : t) (idx : nat) (task : StudyTask.t)
    (capacity : DayCapacity.t) (target_date : date) : M unit :=
  fun s =>
    match schedule s !! target_date with
    | None => Err KeyError
    | Some day_schedule =>
        let start_time := DayCapacity.next_available_time capacity in
        let end_time := add_minutes_to_time start_time (StudyTask.required_minutes task) in
        let slot := TimeSlot.mk start_time end_time (StudyTask.subject task)
                      (StudyTask.topic task) (StudyTask.task_id task)
                      (StudyTask.task_type task) false in
        let day_schedule := DaySchedule.add_slot day_schedule slot in
        let tasks' := alter (fun tk => StudyTask.mark_scheduled tk target_date
                                (Z.of_nat (length (DaySchedule.slots day_schedule)) - 1))
                            idx (tasks s) in
        let capacity := DayCapacity.allocate capacity (StudyTask.required_minutes task)
                          (StudyTask.subject task) (StudyTask.topic task) in
        let total_minutes := StudyTask.required_minutes task
                             + StudyPreferences.break_length_minutes (preferences self) in
        let capacity := DayCapacity.set_next_available_time capacity
                          (add_minutes_to_time start_time total_minutes) in
        let day_schedule :=
          if 0 <? DayCapacity.total_minutes capacity then
            let used := DayCapacity.total_minutes capacity - DayCapacity.available_minutes capacity in
            DaySchedule.set_capacity_used day_schedule
              (inject_Z used / inject_Z (DayCapacity.total_minutes capacity))%Q
          else day_schedule in
        Ok (tt, mkState tasks' (warnings s) (<[target_date := day_schedule]> (schedule s))
                  (<[target_date := capacity]> (capacity_map s)) (task_counter s))
    end.

Definition can_fit (self : t) (capacity : DayCapacity.t) (task : StudyTask.t) : bool :=
  DayCapacity.can_fit_session capacity (StudyTask.required_minutes task)
    (StudyTask.subject task) (StudyTask.topic task)
    (StudyPreferences.max_subjects_per_day (preferences self)).

(** The first loop of [_allocate_task]: dates from [current_date] to the
    deadline. *)
Fixpoint _try_dates (self : t) (idx : nat) (task : StudyTask.t) (dates : list date) : M bool :=
  match dates with
  | [] => ret false
  | target_date :: rest =>
      fun s =>
        match capacity_map s !! target_date with
        | None => _try_dates self idx task rest s
        | Some capacity =>
            if can_fit self capacity task then
              (let% _ := _add_task_to_schedule self idx task capacity target_date in ret true) s
            else _try_dates self idx task rest s
        end
  end.

Definition pushed_warning (task : StudyTask.t) (fallback_date : date) : CapacityWarning.t :=
  CapacityWarning.mk fallback_date
    (append "Task '" (append (StudyTask.topic task) "' pushed past deadline"))
    [StudyTask.task_id task] "warning".

(** The second loop of [_allocate_task]: offsets 1, 2, 3 past the deadline. *)
Fixpoint _try_fallback (self : t) (idx : nat) (task : StudyTask.t) (offsets : list Z) : M bool :=
  match offsets with
  | [] => ret false
  | offset :: rest =>
      let% fallback_date := lift (add_days (StudyTask.deadline task) offset) in
      fun s =>
        match capacity_map s !! fallback_date with
        | None => _try_fallback self idx task rest s
        | Some capacity =>
            if can_fit self capacity task then
              (let% _ := _add_task_to_schedule self idx task capacity fallback_date in
               fun s' => Ok (true, set_warnings s' (warnings s' ++ [pushed_warning task fallback_date]))) s
            else _try_fallback self idx task rest s
        end
  end.

Definition _allocate_task (self : t) (idx : nat) (task : StudyTask.t) : M bool :=
  let% valid_dates := lift (date_range (current_date self) (StudyTask.deadline task)) in
  let% placed := _try_dates self idx task valid_dates in
  if placed then ret true
  else if StudyTask.priority task <=? 5 then _try_fallback self idx task (py_range_from 1 4)
  else ret false.

Fixpoint allocate_all (self : t) (ranked : list (nat * StudyTask.t)) : M unit :=
  match ranked with
  | [] => ret tt
  | (idx, task) :: rest =>
      let% _ := _allocate_task self idx task in allocate_all self rest
  end.

Definition indexed {A} (l : list A) : list (nat * A) := combine (seq 0 (length l)) l.

Definition _schedule_tasks (self : t) (end_date : date) : M unit :=
  fun s =>
    let pending_tasks :=
      filter (fun e : nat * StudyTask.t => TaskStatus_eqb (StudyTask.status (snd e)) PENDING)
             (indexed (tasks s)) in
    let horizon_days := days_between (current_date self) end_date in
    let ranked_tasks := Scoring.rank_tasks_of snd Scoring.default_weights pending_tasks
                          (current_date self) horizon_days in
    allocate_all self (map (fun e : nat * StudyTask.t * R * Scoring.ScoreBreakdown =>
                              fst (fst e)) ranked_tasks) s.

Definition REVISION_INTERVALS : list Z := [1; 3; 7].

(** [t.source_topic_id in concept_topic_ids] for an optional id. *)
Definition in_ids (ids : gset string) (o : option string) : bool :=
  match o with Some s => bool_decide (s ∈ ids) | None => false end.

(** [dict] with insertion order, as an association list: assignment to an
    existing key keeps its position. *)
Fixpoint assoc_get {V} (k : string) (l : list (string * V)) : option V :=
  match l with
  | [] => None
  | (k', v) :: r => if String.eqb k k' then Some v else assoc_get k r
  end.

Fixpoint assoc_set {V} (k : string) (v : V) (l : list (string * V)) : list (string * V) :=
  match l with
  | [] => [(k, v)]
  | (k', v') :: r => if String.eqb k k' then (k', v) :: r else (k', v') :: assoc_set k v r
  end.

(** The grouping loop of [_add_spaced_repetition]; [if task.source_topic_id:]
    is Python truthiness, false on [None] and on the empty string. *)
Definition group_earliest (initial_tasks : list StudyTask.t) : list (string * StudyTask.t) :=
  fold_left
    (fun topic_tasks task =>
       match StudyTask.source_topic_id task with
       | Some tid =>
           if String.eqb tid "" then topic_tasks
           else
             match assoc_get tid topic_tasks with
             | None => assoc_set tid task topic_tasks
             | Some existing =>
                 match StudyTask.scheduled_date task, StudyTask.scheduled_date existing with
                 | Some a, Some b => if a <? b then assoc_set tid task topic_tasks else topic_tasks
                 | _, _ => topic_tasks
                 end
             end
       | None => topic_tasks
       end)
    initial_tasks [].

Definition concept_topic_ids (self : t) : gset string :=
  list_to_set (map LearningTopic.id (filter LearningTopic.is_concept_heavy (topics self))).

Definition initial_tasks_of (self : t) (ts : list StudyTask.t) : list StudyTask.t :=
  filter (fun tk => TaskStatus_eqb (StudyTask.status tk) SCHEDULED
                    && TaskType_eqb (StudyTask.task_type tk) INITIAL_LEARNING
                    && in_ids (concept_topic_ids self) (StudyTask.source_topic_id tk)
                    && match StudyTask.scheduled_date tk with Some _ => true | None => false end) ts.

(** One revision candidate: the task is created (advancing the counter)
    and placed only if its day has capacity. *)
Definition try_revision (self : t) (source_task : StudyTask.t) (rev_date : date)
    (i : Z) : M unit :=
  fun s =>
    let (revision_task, c') := TaskDecomposer.create_revision_task (task_counter s)
                                 source_task rev_date i in
    let s := set_task_counter s c' in
    match capacity_map s !! rev_date with
    | Some capacity =>
        if can_fit self capacity revision_task then
          _add_task_to_schedule self (length (tasks s)) revision_task capacity rev_date
            (set_tasks s (tasks s ++ [revision_task]))
        else Ok (tt, s)
    | None => Ok (tt, s)
    end.

Fixpoint revise_dates (self : t) (source_task : StudyTask.t) (dates : list date) (i : Z) : M unit :=
  match dates with
  | [] => ret tt
  | rev_date :: rest =>
      let% _ := try_revision self source_task rev_date i in
      revise_dates self source_task rest (i + 1)
  end.

Fixpoint revise_all (self : t) (end_date : date) (sources : list (string * StudyTask.t)) : M unit :=
  match sources with
  | [] => ret tt
  | (_, source_task) :: rest =>
      match StudyTask.scheduled_date source_task with
      | None => revise_all self end_date rest
      | Some sd =>
          let% revision_dates := lift (get_spaced_repetition_dates sd end_date REVISION_INTERVALS) in
          let% _ := revise_dates self source_task revision_dates 1 in
          revise_all self end_date rest
      end
  end.

Definition _add_spaced_repetition (self : t) (end_date : date) : M unit :=
  fun s => revise_all self end_date (group_earliest (initial_tasks_of self (tasks s))) s.

(** [by_deadline]: a dict keyed by deadline, in first-seen order. *)
Fixpoint group_by_deadline (ts : list StudyTask.t) (acc : list (date * list StudyTask.t))
    : list (date * list StudyTask.t) :=
  match ts with
  | [] => acc
  | tk :: r =>
      let d := StudyTask.deadline tk in
      let acc' :=
        if existsb (fun e => fst e =? d) acc
        then map (fun e => if fst e =? d then (fst e, snd e ++ [tk]) else e) acc
        else acc ++ [(d, [tk])] in
      group_by_deadline r acc'
  end.

Definition completeness_warning (group : date * list StudyTask.t) : CapacityWarning.t :=
  let (deadline, ts) := group in
  let severity := if existsb (fun tk => 8 <=? StudyTask.priority tk) ts
                  then "critical" else "warning" in
  CapacityWarning.mk deadline
    (append "Could not schedule " (append (py_str_Z (Z.of_nat (length ts)))
                                          " task(s) before deadline"))
    (map StudyTask.task_id ts) severity.

Definition _check_completeness : M unit :=
  fun s =>
    let unscheduled := filter (fun tk => TaskStatus_eqb (StudyTask.status tk) PENDING) (tasks s) in
    Ok (tt, set_warnings s (warnings s ++ map completeness_warning (group_by_deadline unscheduled []))).

Definition initial_state : State := mkState [] [] ∅ ∅ 0.

(** [generate()] on a freshly constructed scheduler (its lists and its
    decomposer counter are empty). *)
Definition generate (self : t) : result TimetableOutput.t :=
  let! end_date := _determine_horizon self in
  let run : M unit :=
    let% _ := _decompose_all self end_date in
    let% capacity_map := lift (CapacityPlanner.build_capacity_map (availability self)
                                 (preferences self) (current_date self) end_date) in
    let% _ := (fun s => Ok (tt, set_capacity_map s capacity_map)) in
    let% _ := _initialize_schedule (current_date self) end_date in
    let% _ := _schedule_tasks self end_date in
    let% _ := _add_spaced_repetition self end_date in
    _check_completeness in
  match run initial_state with
  | Err e => Err e
  | Ok (_, s) =>
      Ok (TimetableOutput.mk (schedule s) (tasks s) (warnings s)
            (TimetableOutput.mkMetadata (current_date self) end_date (length (tasks s))
               (length (filter (fun tk => TaskStatus_eqb (StudyTask.status tk) SCHEDULED) (tasks s)))
               (length (events self)) (length (topics self))))
  end.

End TimetableScheduler.

(** ** scheduler.py: the adaptivity helpers

    Both mutate the timetable passed to them; the updated timetable is
    returned alongside the result. *)

Definition handle_missed_session (timetable : TimetableOutput.t) (task_id : string)
    (current_date : date) : TimetableOutput.t :=
  match list_find (fun tk => StudyTask.task_id tk = task_id) (TimetableOutput.tasks timetable) with
  | None => timetable
  | Some (i, task) =>
      let task := StudyTask.mark_missed task in
      let rescheduled := StudyTask.clone_for_reschedule task (append task_id "_reschedule") in
      let tasks := <[i := task]> (TimetableOutput.tasks timetable) ++ [rescheduled] in
      let warning := CapacityWarning.mk current_date
                       (append "Task '" (append (StudyTask.topic task) "' was missed and needs rescheduling"))
                       [task_id; StudyTask.task_id rescheduled] "warning" in
      TimetableOutput.mk (TimetableOutput.schedule timetable) tasks
        (TimetableOutput.warnings timetable ++ [warning]) (TimetableOutput.metadata timetable)
  end.

(** The loop of [update_confidence]: matching tasks get the new
    confidence; the first one whose confidence dropped by more than 0.2
    yields a revision task and ends the loop ([break]). *)
Fixpoint update_confidence_loop (topic_id : string) (new_confidence : Q)
    (tasks : list StudyTask.t) : list StudyTask.t * list StudyTask.t :=
  match tasks with
  | [] => ([], [])
  | task :: rest =>
      if bool_decide (StudyTask.source_topic_id task = Some topic_id) then
        let old_confidence := StudyTask.confidence_score task in
        let task' := StudyTask.with_confidence task new_confidence in
        if Qltb new_confidence (old_confidence - (2 # 10))%Q then
          let revision :=
            StudyTask.new (append (StudyTask.task_id task) "_confidence_revision")
              (StudyTask.subject task) (StudyTask.topic task) (StudyTask.deadline task)
              (Z.max 15 (StudyTask.required_minutes task / 2))
              (Z.min 10 (StudyTask.priority task + 2)) (StudyTask.difficulty_score task)
              new_confidence REVISION (Some (StudyTask.task_id task)) None (Some topic_id) 0 in
          (task' :: rest, [revision])
        else
          let (rest', new_tasks) := update_confidence_loop topic_id new_confidence rest in
          (task' :: rest', new_tasks)
      else
        let (rest', new_tasks) := update_confidence_loop topic_id new_confidence rest in
        (task :: rest', new_tasks)
  end.

Definition update_confidence (timetable : TimetableOutput.t) (topic_id : string)
    (new_confidence : Q) : TimetableOutput.t * list StudyTask.t :=
  let new_confidence := clamp_Q new_confidence 0 1 in
  let (tasks, new_tasks) := update_confidence_loop topic_id new_confidence
                              (TimetableOutput.tasks timetable) in
  (TimetableOutput.mk (TimetableOutput.schedule timetable) tasks
     (TimetableOutput.warnings timetable) (TimetableOutput.metadata timetable), new_tasks).

(** ** scheduler.py: InputNormalizer and [TimetableScheduler.__init__]

    A raw input dict is a record with one optional field per key the code
    reads ([None] = key absent). *)

Module RawEvent.
Record t := mk {
  id : option string;
  event_type : option string;
  type_ : option string;
  subject : option string;
  topic : option string;
  target_date : option date_input;
  date : option date_input;
  deadline : option date_input;
  priority_level : option Q;
  priority : option Q;
  estimated_effort_hours : option Q;
  effort_hours : option Q;
  description : option string }.
End RawEvent.

Module RawAvailability.
Record t := mk {
  weekday_hours : option Q;
  weekend_hours : option Q;
  start_time : option time_input;
  end_time : option time_input;
  excluded_dates : option (list date_input) }.
End RawAvailability.

Module RawPreferences.
Record t := mk {
  session_length_minutes : option Q;
  break_length_minutes : option Q;
  max_sessions_per_day : option Q;
  max_subjects_per_day : option Q;
  buffer_percentage : option Q;
  prefer_morning : option bool;
  min_session_gap_minutes : option Q }.
End RawPreferences.

Module RawTopic.
Record t := mk {
  id : option string;
  subject : option string;
  topic : option string;
  name : option string;
  difficulty_score : option Q;
  difficulty : option Q;
  confidence_score : option Q;
  confidence : option Q;
  prerequisites : option (list string);
  estimated_hours : option Q;
  is_concept_heavy : option bool }.
End RawTopic.

Module InputNormalizer.
Section Normalize.
Variable date_fromisoformat : string -> option (Z * Z * Z).
Variable strptime : string -> string -> option (Z * Z * Z).
Variable time_fromisoformat : string -> option (Z * Z * Z).
Variable py_int_str : string -> option Z.
Variable today : date.
(** [str(uuid.uuid4())] at its k-th call. *)
Variable uuid4 : nat -> string.

Definition parse_date' := parse_date date_fromisoformat strptime today.
Definition parse_time' := parse_time time_fromisoformat py_int_str.

Definition normalize_event (k : nat) (data : RawEvent.t) : result FixedEvent.t :=
  let event_type_str := get (RawEvent.event_type data) (get (RawEvent.type_ data) "deadline") in
  let event_type := get (EventType_of_value (py_lower event_type_str)) DEADLINE in
  let! target_date := parse_date' (get (RawEvent.target_date data)
                                     (get (RawEvent.date data)
                                        (get (RawEvent.deadline data) DI_None))) None in
  FixedEvent.make (get (RawEvent.id data) (uuid4 k)) event_type
    (get (RawEvent.subject data) "Unknown") (RawEvent.topic data) target_date
    (py_int_of_Q (clamp_Q (get (RawEvent.priority_level data) (get (RawEvent.priority data) 5%Q)) 1%Q 10%Q))
    (get (RawEvent.estimated_effort_hours data) (get (RawEvent.effort_hours data) 2%Q))
    (get (RawEvent.description data) "").

Fixpoint normalize_events_from (k : nat) (events_data : list RawEvent.t)
    : result (list FixedEvent.t) :=
  match events_data with
  | [] => Ok []
  | data :: rest =>
      let! event := normalize_event k data in
      let! events := normalize_events_from (S k) rest in
      Ok (event :: events)
  end.

Definition normalize_events (events_data : list RawEvent.t) : result (list FixedEvent.t) :=
  normalize_events_from 0 events_data.

(** The [excluded_dates] loop: [except ValueError: continue]. *)
Fixpoint parse_excluded (ds : list date_input) : list date :=
  match ds with
  | [] => []
  | d :: rest =>
      match parse_date' d None with
      | Ok x => x :: parse_excluded rest
      | Err ValueError => parse_excluded rest
      | Err _ => parse_excluded rest
      end
  end.

Definition normalize_availability (availability_data : RawAvailability.t)
    : result DailyAvailability.t :=
  let excluded_dates := parse_excluded (get (RawAvailability.excluded_dates availability_data) []) in
  let weekday_hours := get (RawAvailability.weekday_hours availability_data) 4%Q in
  let weekend_hours := get (RawAvailability.weekend_hours availability_data) 6%Q in
  let! start_time := parse_time' (get (RawAvailability.start_time availability_data) TI_None)
                       (Some (mk_time 9 0 0)) in
  let! end_time := parse_time' (get (RawAvailability.end_time availability_data) TI_None)
                     (Some (mk_time 21 0 0)) in
  Ok (DailyAvailability.mk weekday_hours weekend_hours start_time end_time excluded_dates).

Definition normalize_preferences (preferences_data : RawPreferences.t)
    : result StudyPreferences.t :=
  StudyPreferences.make
    (py_int_of_Q (get (RawPreferences.session_length_minutes preferences_data) 45%Q))
    (py_int_of_Q (get (RawPreferences.break_length_minutes preferences_data) 15%Q))
    (py_int_of_Q (get (RawPreferences.max_sessions_per_day preferences_data) 6%Q))
    (py_int_of_Q (get (RawPreferences.max_subjects_per_day preferences_data) 3%Q))
    (clamp_Q (get (RawPreferences.buffer_percentage preferences_data) (15 # 100)) (1 # 10) (3 # 10))
    (get (RawPreferences.prefer_morning preferences_data) true)
    (py_int_of_Q (get (RawPreferences.min_session_gap_minutes preferences_data) 5%Q)).

Definition normalize_topic (i : nat) (data : RawTopic.t) : result LearningTopic.t :=
  let istr := py_str_Z (Z.of_nat i) in
  LearningTopic.make
    (get (RawTopic.id data) (append "topic_" istr))
    (get (RawTopic.subject data) "Unknown")
    (get (RawTopic.topic data) (get (RawTopic.name data) (append "Topic " istr)))
    (clamp_Q (get (RawTopic.difficulty_score data) (get (RawTopic.difficulty data) (1 # 2))) 0%Q 1%Q)
    (clamp_Q (get (RawTopic.confidence_score data) (get (RawTopic.confidence data) (1 # 2))) 0%Q 1%Q)
    (get (RawTopic.prerequisites data) [])
    (get (RawTopic.estimated_hours data) 2%Q)
    (get (RawTopic.is_concept_heavy data) false).

Fixpoint normalize_topics_from (i : nat) (topics_data : list RawTopic.t)
    : result (list LearningTopic.t) :=
  match topics_data with
  | [] => Ok []
  | data :: rest =>
      let! topic := normalize_topic i data in
      let! topics := normalize_topics_from (S i) rest in
      Ok (topic :: topics)
  end.

Definition normalize_topics (topics_data : list RawTopic.t) : result (list LearningTopic.t) :=
  normalize_topics_from 0 topics_data.

(** [TimetableScheduler.__init__]: parse the current date, then normalize
    events, availability, preferences and topics in this order. *)
Definition init (events : list RawEvent.t) (availability : RawAvailability.t)
    (preferences : RawPreferences.t) (topics : list RawTopic.t) (current_date : date_input)
    : result TimetableScheduler.t :=
  let! cd := parse_date' current_date None in
  let! evs := normalize_events events in
  let! av := normalize_availability availability in
  let! pr := normalize_preferences preferences in
  let! tps := normalize_topics topics in
  Ok (TimetableScheduler.mk cd evs av pr tps).

End Normalize.
End InputNormalizer.

(** [TimetableScheduler(events, availability, preferences, topics,
    current_date).generate()], with the library parsers of [PyLib]. *)
Definition scheduler_generate (today : date) (uuid4 : nat -> string)
    (events : list RawEvent.t) (availability : RawAvailability.t)
    (preferences : RawPreferences.t) (topics : list RawTopic.t) (current_date : date_input)
    : result TimetableOutput.t :=
  let! self := InputNormalizer.init PyLib.date_fromisoformat PyLib.strptime
                 PyLib.time_fromisoformat PyLib.py_int_str today uuid4
                 events availability preferences topics current_date in
  TimetableScheduler.generate self.

(** * Notions used by the statements *)

(** An entry [(task, score, breakdown)] of [rank_tasks]. *)
Definition entry_score (e : StudyTask.t * R * Scoring.ScoreBreakdown) : R := snd (fst e).
Definition entry_deadline (e : StudyTask.t * R * Scoring.ScoreBreakdown) : Z :=
  StudyTask.deadline (fst (fst e)).

(** [e] is ranked before [e']: a strictly higher score, or the same score
    and a deadline no later. *)
Definition ranked_before (e e' : StudyTask.t * R * Scoring.ScoreBreakdown) : Prop :=
  (entry_score e' < entry_score e)%R
  \/ (entry_score e = entry_score e' /\ entry_deadline e <= entry_deadline e').

(** The entries with score [s] and deadline [d]. *)
Definition same_rank_key (s : R) (d : Z) (e : StudyTask.t * R * Scoring.ScoreBreakdown) : bool :=
  if Req_EM_T (entry_score e) s then entry_deadline e =? d else false.


Definition sum_Z (l : list Z) : Z := fold_right Z.add 0 l.

(** [n] is [max(1, ceil(total / L))]: the least positive [n] with
    [total <= n * L]. *)
Definition is_session_count (total L n : Z) : Prop :=
  1 <= n /\ total <= n * L /\ (n = 1 \/ (n - 1) * L < total).

(** The hard-topic test of the specification: difficulty above 0.7 or
    confidence below 0.3. *)
Definition hard_topic (topic : LearningTopic.t) : Prop :=
  (7 # 10 < LearningTopic.difficulty_score topic)%Q
  \/ (LearningTopic.confidence_score topic < 3 # 10)%Q.

(** Concrete inputs. 2024-01-15 is ordinal 738900. *)
Definition ten_hour_exam : FixedEvent.t :=
  FixedEvent.mk "exam_1" EXAM "Math" (Some "Calculus") 738900 5 10 "".

(** An effort of 0.5 minute, and one of 45.5 minutes. *)
Definition half_minute_event : FixedEvent.t :=
  FixedEvent.mk "ev_1" DEADLINE "Math" None 738900 5 (1 # 120) "".
Definition minutes_45_5_event : FixedEvent.t :=
  FixedEvent.mk "ev_2" DEADLINE "Math" None 738900 5 (91 # 120) "".

(** One exam-preparation task due 2024-01-15. *)
Definition sample_task : StudyTask.t :=
  StudyTask.new "event_0001" "Math" "Calculus" 738900 45 5 (1 # 2) (1 # 2) EXAM_PREP
    None (Some "exam_1") None 0.

(** A hard topic (difficulty 0.8) of ten hours. *)
Definition hard_long_topic : LearningTopic.t :=
  LearningTopic.mk "topic_0" "Physics" "Quantum mechanics" (8 # 10) (1 # 2) [] 10 true.

(** Raw inputs: no availability at all, default preferences, and a
    quarter-hour topic. *)
Definition zero_availability : RawAvailability.t :=
  RawAvailability.mk (Some 0%Q) (Some 0%Q) None None None.
Definition default_preferences : RawPreferences.t :=
  RawPreferences.mk None None None None None None None.
Definition quarter_hour_topic : RawTopic.t :=
  RawTopic.mk (Some "t1") (Some "Math") (Some "Limits") None None None None None None
    (Some (1 # 4)) None.

(** Availability whose only excluded date is the string "next week". *)
Definition vague_exclusion_availability : RawAvailability.t :=
  RawAvailability.mk None None None None (Some [DI_str "next week"]).

(** [x] may precede [y] in a list sorted by the strict order [lt] on keys. *)
Definition key_le {A K : Type} (key : A -> K) (lt : K -> K -> bool) (x y : A) : Prop :=
  lt (key y) (key x) = false.

(** Equality of ranking keys [(-score, deadline)]. *)
Definition rank_key_eqb (k1 k2 : R * Z) : bool :=
  if Req_EM_T (fst k1) (fst k2) then (snd k1 =? snd k2) else false.

(** A state invariant kept by a computation of the scheduler's monad. *)
Definition preserves {A : Type} (P : TimetableScheduler.State -> Prop)
    (m : TimetableScheduler.M A) : Prop :=
  forall s a s', P s -> m s = Ok (a, s') -> P s'.

(** Every slot of every day is a study slot, not a break. *)
Definition no_break_slots (sched : gmap Z DaySchedule.t) : Prop :=
  forall d ds, sched !! d = Some ds ->
  Forall (fun sl => TimeSlot.is_break sl = false) (DaySchedule.slots ds).

(** A scheduler on 2024-01-15 with the default availability and
    preferences and one 15-minute topic. *)
Definition one_topic_scheduler : TimetableScheduler.t :=
  TimetableScheduler.mk 738900 []
    (DailyAvailability.mk 4 6 (mk_time 9 0 0) (mk_time 21 0 0) [])
    (StudyPreferences.mk 45 15 6 3 (15 # 100) true 5)
    [LearningTopic.mk "t1" "Math" "Limits" (1 # 2) (1 # 2) [] (1 # 4) false].

(** The bookkeeping of one day's [DayCapacity] during a run: its subject
    set within the limit (read as 0 when negative), a start time not
    before midnight, its total from the availability, and its remaining
    minutes not above the total. *)
Definition cap_ok (self : TimetableScheduler.t) (d : date) (cap : DayCapacity.t) : Prop :=
  Z.of_nat (size (DayCapacity.subjects_used cap))
    <= Z.max 0 (StudyPreferences.max_subjects_per_day (TimetableScheduler.preferences self))
  /\ 0 <= time_to_minutes (DayCapacity.next_available_time cap)
  /\ DayCapacity.total_minutes cap
     = hours_to_minutes (DailyAvailability.get_hours_for_date (TimetableScheduler.availability self) d)
  /\ DayCapacity.available_minutes cap <= Z.max 0 (DayCapacity.total_minutes cap).

(** A day's schedule against its capacity: studied plus remaining minutes
    within the total, and every slot's subject recorded as used. *)
Definition day_ok (ds : DaySchedule.t) (cap : DayCapacity.t) : Prop :=
  DaySchedule.total_study_minutes ds + DayCapacity.available_minutes cap
    <= Z.max 0 (DayCapacity.total_minutes cap)
  /\ (0 <= DayCapacity.available_minutes cap \/ DaySchedule.total_study_minutes ds <= 0)
  /\ (forall sl, In sl (DaySchedule.slots ds) -> TimeSlot.subject sl ∈ DayCapacity.subjects_used cap).

Definition capacity_inv (self : TimetableScheduler.t) (s : TimetableScheduler.State) : Prop :=
  (forall d cap, TimetableScheduler.capacity_map s !! d = Some cap -> cap_ok self d cap)
  /\ (forall d ds, TimetableScheduler.schedule s !! d = Some ds ->
        exists cap, TimetableScheduler.capacity_map s !! d = Some cap /\ day_ok ds cap)
  /\ Forall (fun tk => 0 <= StudyTask.required_minutes tk) (TimetableScheduler.tasks s).

(** The distinct subjects of a day's slots. *)
Definition slot_subjects (ds : DaySchedule.t) : gset string :=
  list_to_set (map TimeSlot.subject (DaySchedule.slots ds)).

(** An availability of -1 hours on every day; [DailyAvailability]
    accepts it. *)
Definition negative_hours_availability : RawAvailability.t :=
  RawAvailability.mk (Some (-1)%Q) (Some (-1)%Q) None None None.

(** [t.scheduled_date <= t'.scheduled_date], both dates being set. *)
Definition sched_le (t t' : StudyTask.t) : Prop :=
  match StudyTask.scheduled_date t, StudyTask.scheduled_date t' with
  | Some a, Some b => a <= b
  | _, _ => False
  end.

(** [one_topic_scheduler] with its topic made concept-heavy, under the
    given id. *)
Definition concept_topic_scheduler (tid : string) : TimetableScheduler.t :=
  TimetableScheduler.mk 738900 []
    (DailyAvailability.mk 4 6 (mk_time 9 0 0) (mk_time 21 0 0) [])
    (StudyPreferences.mk 45 15 6 3 (15 # 100) true 5)
    [LearningTopic.mk tid "Math" "Limits" (1 # 2) (1 # 2) [] (1 # 4) true].

(** The grouping table of [_add_spaced_repetition] after reading the
    tasks [l]: one entry per key; an entry [k |-> t] has a non-empty key
    and a task [t] of [l] with id [k] and the earliest date among them;
    every non-empty id of [l] has an entry. *)
Definition earliest_table (l : list StudyTask.t) (acc : list (string * StudyTask.t)) : Prop :=
  List.NoDup (map fst acc)
  /\ (forall k t, TimetableScheduler.assoc_get k acc = Some t ->
        k <> "" /\ In t l /\ StudyTask.source_topic_id t = Some k
        /\ forall t', In t' l -> StudyTask.source_topic_id t' = Some k -> sched_le t t')
  /\ (forall t k, In t l -> StudyTask.source_topic_id t = Some k -> k <> "" ->
        exists t0, TimetableScheduler.assoc_get k acc = Some t0).

(** A fresh day of 240 minutes with 204 available. *)
Definition sample_capacity : DayCapacity.t :=
  DayCapacity.mk 738900 240 204 6 0 ∅ None (mk_time 9 0 0).

(** The default availability with 2024-01-16 excluded. *)
Definition one_excluded_availability : DailyAvailability.t :=
  DailyAvailability.mk 4 6 (mk_time 9 0 0) (mk_time 21 0 0) [738901].

Definition default_study_preferences : StudyPreferences.t :=
  StudyPreferences.mk 45 15 6 3 (15 # 100) true 5.

(** A state with one exam-preparation task, the day 2024-01-15 in the
    schedule and [sample_capacity] as its capacity. *)
Definition one_day_state : TimetableScheduler.State :=
  TimetableScheduler.mkState [sample_task] [] {[738900 := DaySchedule.new 738900]}
    {[738900 := sample_capacity]} 1.

(** What a phase of [generate()] does to the task ids: the ids already
    there stay, in order, and every new one is a [revision_] id numbered
    by a fresh value of the decomposer's counter. *)
Definition ids_grow (s s' : TimetableScheduler.State) : Prop :=
  TimetableScheduler.task_counter s <= TimetableScheduler.task_counter s'
  /\ exists ks : list Z,
       map StudyTask.task_id (TimetableScheduler.tasks s')
         = map StudyTask.task_id (TimetableScheduler.tasks s)
           ++ map (fun k => fst (TaskDecomposer._next_task_id "revision" k)) ks
       /\ List.Forall (fun k => TimetableScheduler.task_counter s <= k
                                < TimetableScheduler.task_counter s') ks
       /\ List.NoDup ks.

(** A computation of the scheduler's monad whose runs all grow the ids so. *)
Definition grows_ids {A : Type} (m : TimetableScheduler.M A) : Prop :=
  forall s a s', m s = Ok (a, s') -> ids_grow s s'.

(** A task that is [SCHEDULED] with [scheduled_date] the given day. *)
Definition scheduled_on (d : date) (tk : StudyTask.t) : bool :=
  TaskStatus_eqb (StudyTask.status tk) SCHEDULED
  && match StudyTask.scheduled_date tk with Some d' => d' =? d | None => false end.

(** A task is still pending, or it is scheduled on a day of the schedule
    and its [scheduled_slot] is the index of a slot of that day that
    carries its id. *)
Definition task_slot_ok (sched : gmap Z DaySchedule.t) (tk : StudyTask.t) : Prop :=
  StudyTask.status tk = PENDING
  \/ (StudyTask.status tk = SCHEDULED
      /\ exists d k ds sl,
           StudyTask.scheduled_date tk = Some d /\ StudyTask.scheduled_slot tk = Some k
           /\ 0 <= k /\ sched !! d = Some ds
           /\ nth_error (DaySchedule.slots ds) (Z.to_nat k) = Some sl
           /\ TimeSlot.task_id sl = StudyTask.task_id tk).

(** The schedule and the task list agree: every task points at its slot,
    and every day has as many sessions as tasks scheduled on it. *)
Definition slots_match (sched : gmap Z DaySchedule.t) (ts : list StudyTask.t) : Prop :=
  List.Forall (task_slot_ok sched) ts
  /\ forall d ds, sched !! d = Some ds ->
       DaySchedule.get_session_count ds = length (List.filter (scheduled_on d) ts).

(** A quarter-hour topic "t1", concept-heavy when [b] is. *)
Definition optics_topic (b : bool) : RawTopic.t :=
  RawTopic.mk (Some "t1") (Some "Physics") (Some "Optics") None None None None None None
    (Some (1 # 4)) (Some b).

(** Default availability in the year 9999 with the last day [last] of
    month [m - 1] and the days 1 to 24 of month [m] excluded, as date
    objects. *)
Definition busy_availability (m last : Z) : RawAvailability.t :=
  RawAvailability.mk None None None None
    (Some (DI_date 9999 (m - 1) last :: map (fun k => DI_date 9999 m (Z.of_nat k)) (seq 1 24))).

(** The type, status and date of each output task. *)
Definition task_days (out : TimetableOutput.t) : list (TaskType * TaskStatus * option date) :=
  map (fun tk => (StudyTask.task_type tk, StudyTask.status tk, StudyTask.scheduled_date tk))
      (TimetableOutput.tasks out).

(** * Proofs *)

(** ** Arithmetic and list helpers *)

Lemma sum_Z_app (l1 l2 : list Z) : sum_Z (l1 ++ l2) = sum_Z l1 + sum_Z l2.
Proof. induction l1 as [|x l1 IH]; simpl; [reflexivity | rewrite IH; lia]. Qed.

Lemma zseq_0 (n : Z) : 0 <= n -> zseq 0 (n - 1) = map Z.of_nat (seq 0 (Z.to_nat n)).
Proof.
  intros Hn. unfold zseq. replace (n - 1 - 0 + 1) with n by lia.
  apply map_ext. intros; lia.
Qed.

Lemma sum_indicator (n : nat) (base r : Z) : 0 <= r ->
  sum_Z (map (fun i => base + (if i <? r then 1 else 0)) (map Z.of_nat (seq 0 n)))
  = Z.of_nat n * base + Z.min r (Z.of_nat n).
Proof.
  intros Hr. induction n as [|n IH].
  - simpl. lia.
  - rewrite seq_S, !map_app, sum_Z_app, IH. simpl.
    destruct (Z.ltb_spec (Z.of_nat n) r); lia.
Qed.

(** A loop that appends one element per iteration and bumps a counter. *)
Lemma fold_append_Forall2 {A B : Type} (F : list A * Z -> B -> list A * Z)
    (Rel : B -> A -> Prop) (l : list B) :
  (forall ts c i, In i l -> exists a, F (ts, c) i = (ts ++ [a], c + 1) /\ Rel i a) ->
  forall ts c, exists ts', fold_left F l (ts, c) = (ts ++ ts', c + Z.of_nat (length l))
                         /\ Forall2 Rel l ts'.
Proof.
  induction l as [|i l IH]; intros HF ts c.
  - exists []. simpl. split; [rewrite app_nil_r; f_equal; lia | constructor].
  - destruct (HF ts c i (or_introl eq_refl)) as [a [Ha HR]].
    simpl. rewrite Ha.
    destruct (IH (fun ts c j Hj => HF ts c j (or_intror Hj)) (ts ++ [a]) (c + 1))
      as [ts' [Hf H2]].
    exists (a :: ts'). rewrite Hf. split.
    + rewrite <- app_assoc. simpl. f_equal. lia.
    + constructor; assumption.
Qed.

Lemma Forall2_map_eq {A B : Type} (f : A -> Z) (g : B -> Z) (l : list A) (l' : list B) :
  Forall2 (fun a b => g b = f a) l l' -> map g l' = map f l.
Proof. induction 1; simpl; congruence. Qed.

Lemma Forall2_in_r {A B : Type} (Rel : A -> B -> Prop) (l : list A) (l' : list B) (b : B) :
  Forall2 Rel l l' -> In b l' -> exists a, In a l /\ Rel a b.
Proof.
  induction 1 as [|a b' l l' Hab H IH]; simpl; [tauto|].
  intros [<- | Hin]; [exists a; auto|].
  destruct (IH Hin) as [x [Hx Hr]]. exists x; auto.
Qed.

Lemma in_zseq_0 (n i : Z) : 0 <= n -> In i (zseq 0 (n - 1)) -> 0 <= i < n.
Proof.
  intros Hn. rewrite zseq_0 by lia. rewrite in_map_iff.
  intros [k [<- Hk]]. apply in_seq in Hk. lia.
Qed.

Lemma length_zseq_0 (n : Z) : 0 <= n -> length (zseq 0 (n - 1)) = Z.to_nat n.
Proof. intros Hn. rewrite zseq_0 by lia. rewrite length_map, length_seq. reflexivity. Qed.

(** [max(1, (total + L - 1) // L)] is the session count. *)
Lemma session_count_ok (total L : Z) : 1 <= L ->
  is_session_count total L (Z.max 1 ((total + L - 1) / L)).
Proof.
  intros HL. unfold is_session_count.
  pose proof (Z.div_mod (total + L - 1) L ltac:(lia)) as Hd.
  pose proof (Z.mod_pos_bound (total + L - 1) L ltac:(lia)) as Hm.
  set (q := (total + L - 1) / L) in *. set (m := (total + L - 1) mod L) in *.
  split; [lia|]. split.
  - destruct (Z.max_spec 1 q) as [[? E]|[? E]]; rewrite E; nia.
  - destruct (Z.max_spec 1 q) as [[? E]|[? E]]; rewrite E; [right; nia | left; reflexivity].
Qed.

Lemma Qfloor_bounds (q : Q) : (inject_Z (Qfloor q) <= q < inject_Z (Qfloor q) + 1)%Q.
Proof.
  split; [apply Qfloor_le|].
  pose proof (Qlt_floor q) as H. rewrite inject_Z_plus in H. exact H.
Qed.

Lemma py_int_of_Q_nonneg (q : Q) : (0 <= q)%Q -> py_int_of_Q q = Qfloor q.
Proof.
  intros H. unfold py_int_of_Q. apply Qle_bool_iff in H. rewrite H. reflexivity.
Qed.

Lemma hours_to_minutes_nonneg (h : Q) : (0 <= h)%Q ->
  hours_to_minutes h = Qfloor (h * 60) /\ 0 <= hours_to_minutes h.
Proof.
  intros Hh. unfold hours_to_minutes.
  assert (H60 : (0 <= h * 60)%Q).
  { apply (Qmult_le_0_compat h 60); [exact Hh | discriminate]. }
  rewrite py_int_of_Q_nonneg by exact H60. split; [reflexivity|].
  apply (Qfloor_resp_le 0 (h * 60)) in H60. exact H60.
Qed.

(** Splitting [total] minutes into [n] sessions of [total // n] minutes,
    the first [total % n] of them one minute longer. *)
Lemma split_minutes_bound (total L n i : Z) : 0 <= total -> 1 <= L ->
  is_session_count total L n -> 0 <= i < n ->
  0 <= total / n + (if i <? total mod n then 1 else 0) <= L.
Proof.
  intros Ht HL [Hn1 [Hle _]] Hi.
  pose proof (Z.div_mod total n ltac:(lia)) as Hd.
  pose proof (Z.mod_pos_bound total n ltac:(lia)) as Hm.
  set (q := total / n) in *. set (r := total mod n) in *.
  assert (0 <= q) by nia.
  destruct (Z.ltb_spec i r); nia.
Qed.

Lemma split_minutes_sum (total n : Z) : 0 <= total -> 1 <= n ->
  sum_Z (map (fun i => total / n + (if i <? total mod n then 1 else 0)) (zseq 0 (n - 1)))
  = total.
Proof.
  intros Ht Hn. rewrite zseq_0 by lia.
  pose proof (Z.div_mod total n ltac:(lia)) as Hd.
  pose proof (Z.mod_pos_bound total n ltac:(lia)) as Hm.
  rewrite sum_indicator by lia. rewrite Z2Nat.id by lia. lia.
Qed.

Lemma decompose_event_sessions (L c : Z) (event : FixedEvent.t) :
  let total := hours_to_minutes (FixedEvent.estimated_effort_hours event) in
  let n := Z.max 1 ((total + L - 1) / L) in
  Forall2 (fun i t => StudyTask.required_minutes t
                      = Z.min (total / n + (if i <? total mod n then 1 else 0)) L)
          (zseq 0 (n - 1)) (fst (TaskDecomposer.decompose_event L c event)).
Proof.
  intros total n. unfold TaskDecomposer.decompose_event.
  fold total. fold n.
  edestruct (fold_append_Forall2
    (fun (acc : list StudyTask.t * Z) (i : Z) =>
       let (tasks, c) := acc in
       let session_minutes := total / n + (if i <? total mod n then 1 else 0) in
       let session_minutes := Z.min session_minutes L in
       let (tid, c') := TaskDecomposer._next_task_id "event" c in
       let task := StudyTask.new tid (FixedEvent.subject event)
                     (TaskDecomposer.event_topic event)
                     (FixedEvent.target_date event) session_minutes
                     (FixedEvent.priority_level event) (1 # 2) (1 # 2)
                     (match FixedEvent.event_type event with
                      | EXAM => EXAM_PREP | _ => INITIAL_LEARNING end)
                     None (Some (FixedEvent.id event)) None 0 in
       (tasks ++ [task], c'))
    (fun i t => StudyTask.required_minutes t
                = Z.min (total / n + (if i <? total mod n then 1 else 0)) L)
    (py_range n)) as [ts' [Hf H2]].
  - intros ts c0 i _. eexists. split; reflexivity.
  - unfold py_range. rewrite Hf. exact H2.
Qed.

(** ** C1: decomposition of a fixed event *)

(** C1 (amended). For a session length [L >= 1] and an event whose effort
    [h] is not negative (as [FixedEvent] enforces), let
    [total = int(h * 60)], the whole minutes of the effort. Then
    [decompose_event] produces [max(1, ceil(total / L))] tasks, each of
    [0 .. L] minutes; task [i] gets [total // n] minutes plus one when
    [i < total % n]; and the minutes sum to exactly [total]. Since
    [total] is [h * 60] rounded down, the sum equals [h * 60] only when
    [h * 60] is a whole number. *)
Theorem decompose_event_exact (L c : Z) (event : FixedEvent.t)
    (HL : 1 <= L) (Hh : (0 <= FixedEvent.estimated_effort_hours event)%Q) :
  let total := hours_to_minutes (FixedEvent.estimated_effort_hours event) in
  let tasks := fst (TaskDecomposer.decompose_event L c event) in
  let n := Z.of_nat (length tasks) in
  (inject_Z total <= FixedEvent.estimated_effort_hours event * 60 < inject_Z total + 1)%Q
  /\ is_session_count total L n
  /\ Forall (fun t => 0 <= StudyTask.required_minutes t <= L) tasks
  /\ map StudyTask.required_minutes tasks
     = map (fun i => total / n + (if i <? total mod n then 1 else 0)) (zseq 0 (n - 1))
  /\ sum_Z (map StudyTask.required_minutes tasks) = total.
Proof.
  intros total tasks n.
  destruct (hours_to_minutes_nonneg _ Hh) as [Htot Ht0]. fold total in Htot, Ht0.
  pose proof (decompose_event_sessions L c event) as H2.
  cbv zeta in H2. fold total in H2. fold tasks in H2.
  set (n0 := Z.max 1 ((total + L - 1) / L)) in H2.
  assert (Hc : is_session_count total L n0) by (apply session_count_ok; exact HL).
  assert (Hn : n = n0).
  { unfold n. pose proof H2 as Hlen. apply Forall2_length in Hlen.
    rewrite <- Hlen, length_zseq_0 by lia. lia. }
  rewrite Hn.
  assert (Hmap : map StudyTask.required_minutes tasks
                 = map (fun i => total / n0 + (if i <? total mod n0 then 1 else 0))
                       (zseq 0 (n0 - 1))).
  { rewrite (Forall2_map_eq (fun i => Z.min (total / n0 + (if i <? total mod n0 then 1 else 0)) L)
               StudyTask.required_minutes _ _ H2).
    apply map_ext_in. intros i Hi. apply in_zseq_0 in Hi; [|lia].
    pose proof (split_minutes_bound total L n0 i Ht0 HL Hc Hi). lia. }
  split; [rewrite Htot; apply Qfloor_bounds|].
  split; [exact Hc|]. split; [|split; [exact Hmap|]].
  - apply List.Forall_forall. intros t Ht.
    destruct (Forall2_in_r _ _ _ _ H2 Ht) as [i [Hi Heq]].
    apply in_zseq_0 in Hi; [|lia].
    pose proof (split_minutes_bound total L n0 i Ht0 HL Hc Hi). lia.
  - rewrite Hmap. apply split_minutes_sum; [lia | destruct Hc; lia].
Qed.

Lemma decompose_event_exact_witness :
  let tasks := fst (TaskDecomposer.decompose_event 45 0 ten_hour_exam) in
  (Z.of_nat (length tasks) = 14 /\ sum_Z (map StudyTask.required_minutes tasks) = 600)
  /\ (let total := hours_to_minutes (FixedEvent.estimated_effort_hours ten_hour_exam) in
      let n := Z.of_nat (length tasks) in
      (inject_Z total <= FixedEvent.estimated_effort_hours ten_hour_exam * 60 < inject_Z total + 1)%Q
      /\ is_session_count total 45 n
      /\ Forall (fun t => 0 <= StudyTask.required_minutes t <= 45) tasks
      /\ map StudyTask.required_minutes tasks
         = map (fun i => total / n + (if i <? total mod n then 1 else 0)) (zseq 0 (n - 1))
      /\ sum_Z (map StudyTask.required_minutes tasks) = total).
Proof.
  split.
  - vm_compute. split; reflexivity.
  - apply (decompose_event_exact 45 0 ten_hour_exam); [lia | apply Qle_bool_iff; reflexivity].
Defined.

(** C1, as stated, fails: an effort of 1/120 hour is half a minute, but
    its single task has 0 minutes; an effort of 45.5 minutes gives one
    task, not [ceil(45.5 / 45) = 2]. *)
Lemma decompose_event_exact_counterexample :
  Qeq_bool (inject_Z (sum_Z (map StudyTask.required_minutes
                               (fst (TaskDecomposer.decompose_event 45 0 half_minute_event)))))
           (FixedEvent.estimated_effort_hours half_minute_event * 60) = false
  /\ length (fst (TaskDecomposer.decompose_event 45 0 minutes_45_5_event)) = 1%nat
  /\ Qltb 45 (FixedEvent.estimated_effort_hours minutes_45_5_event * 60) = true.
Proof. vm_compute. auto. Qed.

(** ** C2: the deadline component *)

(** C2. For a horizon [h > 0], with [days] the deadline minus the current
    date, the deadline component of a task's score breakdown is 1.0 when
    [days <= 0], 0.1 when [days >= h], and [max(0.1, 1 - (days/h)^0.5)]
    otherwise; a task whose deadline is before the current date has
    deadline component exactly 1.0. *)
Theorem deadline_component_spec (weights : Scoring.ScoreWeights) (task : StudyTask.t)
    (current_date : date) (h : Z) (Hh : 0 < h) :
  let days := StudyTask.deadline task - current_date in
  let bd := Scoring.calculate_score_with_breakdown weights task current_date h in
  Scoring.deadline_component bd
  = (if days <=? 0 then 1
     else if h <=? days then 1 / 10
     else Rmax (1 / 10) (1 - sqrt (IZR days / IZR h)))%R
  /\ (StudyTask.deadline task < current_date -> Scoring.deadline_component bd = 1%R).
Proof.
  intros days bd.
  assert (Hd : Scoring.deadline_component bd
               = Scoring._calculate_deadline_component days h) by reflexivity.
  rewrite Hd. unfold Scoring._calculate_deadline_component.
  split.
  - destruct (Z.leb_spec days 0); [reflexivity|].
    destruct (Z.leb_spec h days); [reflexivity|].
    unfold Scoring.decay_factor. replace (1 / 2)%R with (/ 2)%R by field.
    rewrite Rpower_sqrt; [reflexivity|].
    apply Rdiv_lt_0_compat; apply IZR_lt; lia.
  - intros Hlt. destruct (Z.leb_spec days 0); [reflexivity | unfold days in *; lia].
Qed.

Lemma deadline_component_spec_witness :
  0 < 30 /\
  (let days := StudyTask.deadline sample_task - 738890 in
   let bd := Scoring.calculate_score_with_breakdown Scoring.default_weights
               sample_task 738890 30 in
   Scoring.deadline_component bd
   = (if days <=? 0 then 1
      else if 30 <=? days then 1 / 10
      else Rmax (1 / 10) (1 - sqrt (IZR days / IZR 30)))%R
   /\ (StudyTask.deadline sample_task
       < 738890 -> Scoring.deadline_component bd = 1%R)).
Proof. split; [lia | apply deadline_component_spec; lia]. Defined.

(** ** C8: monotonicity of the urgency score *)

Lemma Rmin_mono_r (c a b : R) : (a <= b)%R -> (Rmin c a <= Rmin c b)%R.
Proof.
  intros H. unfold Rmin.
  destruct (Rle_dec c a) as [?|?%Rnot_le_lt]; destruct (Rle_dec c b) as [?|?%Rnot_le_lt]; lra.
Qed.

Lemma Rmax_mono_r (c a b : R) : (a <= b)%R -> (Rmax c a <= Rmax c b)%R.
Proof.
  intros H. unfold Rmax.
  destruct (Rle_dec c a) as [?|?%Rnot_le_lt]; destruct (Rle_dec c b) as [?|?%Rnot_le_lt]; lra.
Qed.

Lemma clamp_R_mono (a b lo hi : R) : (a <= b)%R -> (clamp_R a lo hi <= clamp_R b lo hi)%R.
Proof. intros H. unfold clamp_R. apply Rmax_mono_r, Rmin_mono_r, H. Qed.

Lemma score_mono_priority (w : Scoring.ScoreWeights) (task : StudyTask.t) (cd : date) (h p1 p2 : Z) :
  (0 <= Scoring.priority_weight w)%R -> p1 <= p2 ->
  (Scoring.calculate_score w (StudyTask.with_priority task p1) cd h
   <= Scoring.calculate_score w (StudyTask.with_priority task p2) cd h)%R.
Proof.
  intros Hw Hp. unfold Scoring.calculate_score, Scoring.calculate_score_with_breakdown. simpl.
  apply clamp_R_mono.
  assert (Hc : (Scoring._calculate_priority_component p1 <= Scoring._calculate_priority_component p2)%R).
  { unfold Scoring._calculate_priority_component. unfold Rdiv.
    apply Rmult_le_compat_r; [lra|]. apply clamp_R_mono, IZR_le, Hp. }
  apply Rplus_le_compat_r, Rplus_le_compat_r, Rplus_le_compat_r, Rplus_le_compat_r.
  apply Rmult_le_compat_r; assumption.
Qed.

Lemma score_mono_confidence (w : Scoring.ScoreWeights) (task : StudyTask.t) (cd : date) (h : Z) (c1 c2 : Q) :
  (0 <= Scoring.confidence_weight w)%R -> (c2 <= c1)%Q ->
  (Scoring.calculate_score w (StudyTask.with_confidence task c1) cd h
   <= Scoring.calculate_score w (StudyTask.with_confidence task c2) cd h)%R.
Proof.
  intros Hw Hc. unfold Scoring.calculate_score, Scoring.calculate_score_with_breakdown. simpl.
  apply clamp_R_mono.
  assert (Hcc : (Scoring._calculate_confidence_component c1 <= Scoring._calculate_confidence_component c2)%R).
  { unfold Scoring._calculate_confidence_component.
    pose proof (clamp_R_mono (Q2R c2) (Q2R c1) 0 1 (Qle_Rle _ _ Hc)). lra. }
  apply Rplus_le_compat_r, Rplus_le_compat_l.
  apply Rmult_le_compat_r; assumption.
Qed.

(** C8. With the weights of the scheduler's scorer ([UrgencyScorer()], the
    defaults), of two tasks equal in every field but the priority, the one
    with the higher priority never gets a strictly lower score; of two
    tasks equal in every field but the confidence, the one with the lower
    confidence never gets a strictly lower score. (The argument uses only
    that the priority and confidence weights are not negative.) *)
Theorem score_monotone (task : StudyTask.t) (current_date : date) (h p1 p2 : Z) (c1 c2 : Q) :
  (p1 <= p2 ->
   (Scoring.calculate_score Scoring.default_weights (StudyTask.with_priority task p1) current_date h
    <= Scoring.calculate_score Scoring.default_weights (StudyTask.with_priority task p2) current_date h)%R)
  /\ ((c2 <= c1)%Q ->
   (Scoring.calculate_score Scoring.default_weights (StudyTask.with_confidence task c1) current_date h
    <= Scoring.calculate_score Scoring.default_weights (StudyTask.with_confidence task c2) current_date h)%R).
Proof.
  split; intros H.
  - apply score_mono_priority; [simpl; lra | exact H].
  - apply score_mono_confidence; [simpl; lra | exact H].
Qed.

Lemma score_monotone_witness :
  (3 <= 7 /\ (1 # 5 <= 4 # 5)%Q) /\
  (Scoring.calculate_score Scoring.default_weights (StudyTask.with_priority sample_task 3) 738890%Z 30%Z
   <= Scoring.calculate_score Scoring.default_weights (StudyTask.with_priority sample_task 7%Z) 738890%Z 30%Z)%R
  /\ (Scoring.calculate_score Scoring.default_weights (StudyTask.with_confidence sample_task (4 # 5)) 738890%Z 30%Z
   <= Scoring.calculate_score Scoring.default_weights (StudyTask.with_confidence sample_task (1 # 5)) 738890%Z 30%Z)%R.
Proof.
  assert (Hp : 3 <= 7) by lia.
  assert (Hc : (1 # 5 <= 4 # 5)%Q) by (apply Qle_bool_iff; reflexivity).
  split; [split; assumption|].
  split; [apply (score_monotone sample_task 738890 30 3 7 (4 # 5) (1 # 5)); exact Hp
         | apply (score_monotone sample_task 738890 30 3 7 (4 # 5) (1 # 5)); exact Hc].
Defined.

(** ** C5: decomposition of a learning topic *)

Lemma Qltb_iff (a b : Q) : Qltb a b = true <-> (a < b)%Q.
Proof.
  unfold Qltb. rewrite negb_true_iff. split.
  - intros H. apply Qnot_le_lt. intros Hle. apply Qle_bool_iff in Hle. congruence.
  - intros H. destruct (Qle_bool b a) eqn:E; [|reflexivity].
    apply Qle_bool_iff in E. exfalso. apply (Qlt_not_le a b H E).
Qed.

Lemma topic_is_hard_iff (topic : LearningTopic.t) :
  TaskDecomposer.topic_is_hard topic = true <-> hard_topic topic.
Proof.
  unfold TaskDecomposer.topic_is_hard, hard_topic.
  rewrite orb_true_iff, !Qltb_iff. reflexivity.
Qed.

Lemma decompose_topic_sessions (L c : Z) (topic : LearningTopic.t) (deadline : date) :
  let adj := TaskDecomposer.topic_adjusted_minutes topic in
  let eff := TaskDecomposer.topic_effective_session_length L topic in
  let n := Z.min (Z.max 1 ((adj + eff - 1) / eff)) 10 in
  Forall2 (fun i t => StudyTask.required_minutes t
                      = Z.min (Z.max (adj / n + (if i <? adj mod n then 1 else 0)) 15) L)
          (zseq 0 (n - 1)) (fst (TaskDecomposer.decompose_topic L c topic deadline)).
Proof.
  intros adj eff n. unfold TaskDecomposer.decompose_topic.
  fold adj. fold eff. fold n.
  edestruct (fold_append_Forall2
    (fun (acc : list StudyTask.t * Z) (i : Z) =>
       let (tasks, c) := acc in
       let session_minutes := adj / n + (if i <? adj mod n then 1 else 0) in
       let session_minutes := Z.min (Z.max session_minutes 15) L in
       let (tid, c') := TaskDecomposer._next_task_id "topic" c in
       let task := StudyTask.new tid (LearningTopic.subject topic) (LearningTopic.topic topic)
                     deadline session_minutes (TaskDecomposer._calculate_topic_priority topic)
                     (LearningTopic.difficulty_score topic)
                     (LearningTopic.confidence_score topic) INITIAL_LEARNING
                     None None (Some (LearningTopic.id topic)) 0 in
       (tasks ++ [task], c'))
    (fun i t => StudyTask.required_minutes t
                = Z.min (Z.max (adj / n + (if i <? adj mod n then 1 else 0)) 15) L)
    (py_range n)) as [ts' [Hf H2]].
  - intros ts c0 i _. eexists. split; reflexivity.
  - unfold py_range. rewrite Hf. exact H2.
Qed.

(** C5 (amended). For a configured session length [L >= 15], the
    effective session length of [decompose_topic] is [min(L, 30)] for a
    topic with difficulty above 0.7 or confidence below 0.3 and [L] for
    every other topic. With [adj] the adjusted minutes and [eff] the
    effective length, the topic yields [min(10, max(1, ceil(adj / eff)))]
    tasks, each of [15 .. L] minutes. Only when the cap of 10 sessions does
    not bind ([adj <= 10 * eff]) is every task at most [eff] minutes, hence
    at most 30 minutes for a hard topic; when it binds, tasks of a hard
    topic can be as long as [L]. *)
Theorem decompose_topic_session_length (L c : Z) (topic : LearningTopic.t) (deadline : date)
    (HL : 15 <= L) :
  let adj := TaskDecomposer.topic_adjusted_minutes topic in
  let eff := TaskDecomposer.topic_effective_session_length L topic in
  let tasks := fst (TaskDecomposer.decompose_topic L c topic deadline) in
  (hard_topic topic -> eff = Z.min L 30)
  /\ (~ hard_topic topic -> eff = L)
  /\ (exists n0, is_session_count adj eff n0 /\ Z.of_nat (length tasks) = Z.min 10 n0)
  /\ Forall (fun t => 15 <= StudyTask.required_minutes t <= L) tasks
  /\ (adj <= 10 * eff -> Forall (fun t => StudyTask.required_minutes t <= eff) tasks)
  /\ (hard_topic topic -> adj <= 10 * eff ->
      Forall (fun t => StudyTask.required_minutes t <= 30) tasks).
Proof.
  intros adj eff tasks.
  assert (Hhard : hard_topic topic -> eff = Z.min L 30).
  { intros H. apply topic_is_hard_iff in H. unfold eff, TaskDecomposer.topic_effective_session_length.
    rewrite H. reflexivity. }
  assert (Heasy : ~ hard_topic topic -> eff = L).
  { intros H. unfold eff, TaskDecomposer.topic_effective_session_length.
    destruct (TaskDecomposer.topic_is_hard topic) eqn:E; [|reflexivity].
    exfalso. apply H, topic_is_hard_iff, E. }
  assert (Heff : 15 <= eff).
  { unfold eff, TaskDecomposer.topic_effective_session_length.
    destruct (TaskDecomposer.topic_is_hard topic); lia. }
  pose proof (decompose_topic_sessions L c topic deadline) as H2.
  cbv zeta in H2. fold adj eff tasks in H2.
  set (n0 := Z.max 1 ((adj + eff - 1) / eff)) in H2.
  set (n := Z.min n0 10) in H2.
  assert (Hc : is_session_count adj eff n0) by (apply session_count_ok; lia).
  assert (Hn1 : 1 <= n) by (destruct Hc; lia).
  assert (Hlen : Z.of_nat (length tasks) = n).
  { pose proof H2 as Hl. apply Forall2_length in Hl.
    rewrite <- Hl, length_zseq_0 by lia. lia. }
  assert (Hle : adj <= 10 * eff -> Forall (fun t => StudyTask.required_minutes t <= eff) tasks).
  { intros Hadj. assert (Hn : n = n0).
    { destruct Hc as [? [? [? | ?]]]; unfold n; nia. }
    apply List.Forall_forall. intros t Ht.
    destruct (Forall2_in_r _ _ _ _ H2 Ht) as [i [Hi Heq]].
    apply in_zseq_0 in Hi; [|lia]. rewrite Heq.
    destruct (Z.le_gt_cases 0 adj) as [Ha | Ha].
    - rewrite Hn in *.
      pose proof (split_minutes_bound adj eff n0 i Ha ltac:(lia) Hc Hi). lia.
    - assert (n0 = 1) by (destruct Hc as [? [? [? | ?]]]; nia).
      assert (n = 1) by lia. subst n. rewrite H.
      rewrite Z.div_1_r, Z.mod_1_r. destruct (i <? 0); lia. }
  split; [exact Hhard|]. split; [exact Heasy|].
  split; [exists n0; split; [exact Hc | rewrite Hlen; unfold n; lia]|].
  split; [|split; [exact Hle|]].
  - apply List.Forall_forall. intros t Ht.
    destruct (Forall2_in_r _ _ _ _ H2 Ht) as [i [Hi Heq]]. rewrite Heq. lia.
  - intros Hh Hadj. specialize (Hle Hadj). rewrite (Hhard Hh) in Hle.
    eapply List.Forall_impl; [|exact Hle]. intros t Ht. simpl in Ht. lia.
Qed.

Lemma decompose_topic_session_length_witness :
  15 <= 45 /\
  (let adj := TaskDecomposer.topic_adjusted_minutes hard_long_topic in
   let eff := TaskDecomposer.topic_effective_session_length 45 hard_long_topic in
   let tasks := fst (TaskDecomposer.decompose_topic 45 0 hard_long_topic 738900) in
   (hard_topic hard_long_topic -> eff = Z.min 45 30)
   /\ (~ hard_topic hard_long_topic -> eff = 45)
   /\ (exists n0, is_session_count adj eff n0 /\ Z.of_nat (length tasks) = Z.min 10 n0)
   /\ Forall (fun t => 15 <= StudyTask.required_minutes t <= 45) tasks
   /\ (adj <= 10 * eff -> Forall (fun t => StudyTask.required_minutes t <= eff) tasks)
   /\ (hard_topic hard_long_topic -> adj <= 10 * eff ->
       Forall (fun t => StudyTask.required_minutes t <= 30) tasks)).
Proof. split; [lia | apply decompose_topic_session_length; lia]. Defined.

(** C5, as stated, fails: the hard ten-hour topic, with [L = 45], needs
    1050 adjusted minutes; the count is capped at 10 sessions, so its tasks
    have 45 minutes, more than 30. *)
Lemma decompose_topic_session_length_counterexample :
  hard_topic hard_long_topic
  /\ existsb (fun t => 30 <? StudyTask.required_minutes t)
       (fst (TaskDecomposer.decompose_topic 45 0 hard_long_topic 738900)) = true.
Proof.
  split.
  - apply topic_is_hard_iff. vm_compute. reflexivity.
  - vm_compute. reflexivity.
Qed.

(** ** C9: unparseable dates *)

Section UnparseableDates.
Variable date_fromisoformat : string -> option (Z * Z * Z).
Variable strptime : string -> string -> option (Z * Z * Z).
Variable time_fromisoformat : string -> option (Z * Z * Z).
Variable py_int_str : string -> option Z.
Variable today : date.
Variable uuid4 : nat -> string.

Lemma parse_excluded_app (l1 l2 : list date_input) :
  InputNormalizer.parse_excluded date_fromisoformat strptime today (l1 ++ l2)
  = InputNormalizer.parse_excluded date_fromisoformat strptime today l1
    ++ InputNormalizer.parse_excluded date_fromisoformat strptime today l2.
Proof.
  induction l1 as [|d l1 IH]; simpl; [reflexivity|].
  destruct (InputNormalizer.parse_date' date_fromisoformat strptime today d None)
    as [x | [] ]; rewrite ?IH; reflexivity.
Qed.

Lemma parse_date_err (di : date_input) (def : option date) (e : py_error) :
  parse_date date_fromisoformat strptime today di def = Err e -> e = ValueError.
Proof.
  unfold parse_date, py_date. destruct di as [| s | y m d |]; [destruct def; discriminate| | |].
  - destruct (ymd_to_date (date_fromisoformat s)); [discriminate|].
    destruct (try_formats strptime fallback_formats s); [discriminate|]. congruence.
  - destruct (_ && _); congruence.
  - congruence.
Qed.

Lemma normalize_event_err (k : nat) (data : RawEvent.t) (e : py_error) :
  InputNormalizer.normalize_event date_fromisoformat strptime today uuid4 k data = Err e ->
  e = ValueError.
Proof.
  unfold InputNormalizer.normalize_event, InputNormalizer.parse_date'.
  destruct (parse_date _ _ _ _ None) as [d | e'] eqn:E; cbn [bind_r].
  - unfold FixedEvent.make. destruct (negb _); [congruence|].
    destruct (Qltb _ _); congruence.
  - intros H. injection H as <-. exact (parse_date_err _ _ _ E).
Qed.

Lemma normalize_events_from_err (k : nat) (l1 l2 : list RawEvent.t) (data : RawEvent.t) :
  InputNormalizer.normalize_event date_fromisoformat strptime today uuid4 (k + length l1) data
  = Err ValueError ->
  InputNormalizer.normalize_events_from date_fromisoformat strptime today uuid4 k (l1 ++ data :: l2)
  = Err ValueError.
Proof.
  revert k. induction l1 as [|x l1 IH]; intros k H.
  - cbn [app InputNormalizer.normalize_events_from]. rewrite Nat.add_0_r in H. rewrite H. reflexivity.
  - cbn [app InputNormalizer.normalize_events_from].
    destruct (InputNormalizer.normalize_event date_fromisoformat strptime today uuid4 k x)
      as [ev | e] eqn:E; cbn [bind_r].
    + rewrite (IH (S k)); [reflexivity|]. rewrite <- H. f_equal. cbn [length]. lia.
    + rewrite (normalize_event_err _ _ _ E). reflexivity.
Qed.

(** C9 (amended). A date string [s] that neither [date.fromisoformat] nor
    any fallback format accepts makes [parse_date] raise [ValueError]. As
    an event's date, read from [target_date], or from [date] or
    [deadline] when the keys before it are absent, it makes
    [normalize_event] raise [ValueError], and the construction of the
    scheduler aborts with [ValueError] wherever the event stands in the
    list; as the current date it aborts the construction too. As an
    entry of [availability.excluded_dates], however, it is silently
    dropped: the normalized exclusion list is the one obtained without
    that entry. *)
Theorem unparseable_date_handling (s : string)
    (Hiso : ymd_to_date (date_fromisoformat s) = None)
    (Hfallback : try_formats strptime fallback_formats s = None) :
  parse_date date_fromisoformat strptime today (DI_str s) None = Err ValueError
  /\ (forall data,
        RawEvent.target_date data = Some (DI_str s)
        \/ (RawEvent.target_date data = None /\ RawEvent.date data = Some (DI_str s))
        \/ (RawEvent.target_date data = None /\ RawEvent.date data = None
            /\ RawEvent.deadline data = Some (DI_str s)) ->
        (forall k, InputNormalizer.normalize_event date_fromisoformat strptime today uuid4 k data
                   = Err ValueError)
        /\ (forall l1 l2 availability preferences topics current_date,
              InputNormalizer.init date_fromisoformat strptime time_fromisoformat py_int_str
                today uuid4 (l1 ++ data :: l2) availability preferences topics current_date
              = Err ValueError))
  /\ (forall events availability preferences topics,
        InputNormalizer.init date_fromisoformat strptime time_fromisoformat py_int_str
          today uuid4 events availability preferences topics (DI_str s) = Err ValueError)
  /\ (forall l1 l2,
        InputNormalizer.parse_excluded date_fromisoformat strptime today (l1 ++ DI_str s :: l2)
        = InputNormalizer.parse_excluded date_fromisoformat strptime today (l1 ++ l2)).
Proof.
  assert (Hp : parse_date date_fromisoformat strptime today (DI_str s) None = Err ValueError).
  { unfold parse_date. cbv beta iota. rewrite Hiso, Hfallback. reflexivity. }
  split; [exact Hp|]. split; [|split].
  - intros data Hd.
    assert (Hk : forall k, InputNormalizer.normalize_event date_fromisoformat strptime today uuid4 k data
                           = Err ValueError).
    { intros k. unfold InputNormalizer.normalize_event, InputNormalizer.parse_date'.
      destruct Hd as [H | [[H1 H2] | [H1 [H2 H3]]]].
      - rewrite H. cbn [get]. rewrite Hp. reflexivity.
      - rewrite H1, H2. cbn [get]. rewrite Hp. reflexivity.
      - rewrite H1, H2, H3. cbn [get]. rewrite Hp. reflexivity. }
    split; [exact Hk|].
    intros l1 l2 availability preferences topics current_date.
    unfold InputNormalizer.init.
    destruct (InputNormalizer.parse_date' date_fromisoformat strptime today current_date None)
      as [cd | e] eqn:Ec; cbn [bind_r].
    + unfold InputNormalizer.normalize_events. rewrite normalize_events_from_err by apply Hk.
      reflexivity.
    + unfold InputNormalizer.parse_date' in Ec. rewrite (parse_date_err _ _ _ Ec). reflexivity.
  - intros. unfold InputNormalizer.init, InputNormalizer.parse_date'. rewrite Hp. reflexivity.
  - intros l1 l2. rewrite !parse_excluded_app. f_equal.
    cbn [InputNormalizer.parse_excluded].
    unfold InputNormalizer.parse_date'. rewrite Hp. reflexivity.
Qed.

End UnparseableDates.

Lemma unparseable_date_handling_witness :
  (ymd_to_date (PyLib.date_fromisoformat "next week") = None
   /\ try_formats PyLib.strptime fallback_formats "next week" = None)
  /\ (parse_date PyLib.date_fromisoformat PyLib.strptime 738900 (DI_str "next week") None
      = Err ValueError
  /\ (forall data,
        RawEvent.target_date data = Some (DI_str "next week")
        \/ (RawEvent.target_date data = None /\ RawEvent.date data = Some (DI_str "next week"))
        \/ (RawEvent.target_date data = None /\ RawEvent.date data = None
            /\ RawEvent.deadline data = Some (DI_str "next week")) ->
        (forall k, InputNormalizer.normalize_event PyLib.date_fromisoformat PyLib.strptime 738900
                     (fun _ => "uuid") k data = Err ValueError)
        /\ (forall l1 l2 availability preferences topics current_date,
              InputNormalizer.init PyLib.date_fromisoformat PyLib.strptime PyLib.time_fromisoformat
                PyLib.py_int_str 738900 (fun _ => "uuid") (l1 ++ data :: l2) availability
                preferences topics current_date = Err ValueError))
  /\ (forall events availability preferences topics,
        InputNormalizer.init PyLib.date_fromisoformat PyLib.strptime PyLib.time_fromisoformat
          PyLib.py_int_str 738900 (fun _ => "uuid") events availability preferences topics
          (DI_str "next week") = Err ValueError)
  /\ (forall l1 l2,
        InputNormalizer.parse_excluded PyLib.date_fromisoformat PyLib.strptime 738900
          (l1 ++ DI_str "next week" :: l2)
        = InputNormalizer.parse_excluded PyLib.date_fromisoformat PyLib.strptime 738900 (l1 ++ l2))).
Proof.
  assert (H1 : ymd_to_date (PyLib.date_fromisoformat "next week") = None) by (vm_compute; reflexivity).
  assert (H2 : try_formats PyLib.strptime fallback_formats "next week" = None)
    by (vm_compute; reflexivity).
  split; [split; assumption|].
  exact (unparseable_date_handling PyLib.date_fromisoformat PyLib.strptime PyLib.time_fromisoformat
           PyLib.py_int_str 738900 (fun _ => "uuid") "next week" H1 H2).
Defined.

(** C9, as stated, fails: with "next week" among the excluded dates the
    scheduler is built without error and its exclusion list is empty. *)
Lemma unparseable_date_handling_counterexample :
  ymd_to_date (PyLib.date_fromisoformat "next week") = None
  /\ try_formats PyLib.strptime fallback_formats "next week" = None
  /\ match InputNormalizer.init PyLib.date_fromisoformat PyLib.strptime PyLib.time_fromisoformat
             PyLib.py_int_str 738900 (fun _ => "uuid") [] vague_exclusion_availability
             default_preferences [] (DI_str "2024-01-15") with
     | Ok self => DailyAvailability.excluded_dates (TimetableScheduler.availability self) = []
     | Err _ => False
     end.
Proof. vm_compute. auto. Qed.

(** ** C3: allocation failure past the deadline *)

(** C3 (divergence). Scheduling from 9999-11-30 with no events, no study
    time and one quarter-hour topic: the horizon ends on 9999-12-30, which
    is also the topic's deadline; the task (priority 5) fits no day, so
    [_allocate_task] tries the dates past the deadline, and computing
    [deadline + 2 days] (beyond 9999-12-31) raises [OverflowError] before
    the capacity map is consulted: [generate()] aborts. The same input one
    month earlier returns an output in which the task stays pending and
    one warning reports it. *)
Theorem allocation_failure_overflow (today : date) (uuid4 : nat -> string) :
  scheduler_generate today uuid4 [] zero_availability default_preferences
    [quarter_hour_topic] (DI_str "9999-11-30") = Err OverflowError
  /\ match scheduler_generate today uuid4 [] zero_availability default_preferences
             [quarter_hour_topic] (DI_str "9999-10-30") with
     | Ok out => map StudyTask.status (TimetableOutput.tasks out) = [PENDING]
                 /\ length (TimetableOutput.warnings out) = 1%nat
     | Err _ => False
     end.
Proof. split; vm_compute; auto. Qed.

(** ** C4: ranking *)

Lemma filter_all_false {A : Type} (f : A -> bool) (l : list A) :
  (forall z, In z l -> f z = false) -> List.filter f l = [].
Proof.
  induction l as [|y l IH]; intros H; simpl; [reflexivity|].
  rewrite (H y (or_introl eq_refl)). apply IH. intros z Hz. apply H. right. exact Hz.
Qed.

Lemma filter_cons_eq {A : Type} (f : A -> bool) (x : A) (r : list A) :
  List.filter f (x :: r) = if f x then x :: List.filter f r else List.filter f r.
Proof. reflexivity. Qed.

Section StableSortProofs.
Context {A K : Type} (key : A -> K) (lt : K -> K -> bool) (eqb : K -> K -> bool).
Hypothesis lt_irrefl : forall k, lt k k = false.
Hypothesis lt_trans : forall a b c, lt a b = true -> lt b c = true -> lt a c = true.
Hypothesis lt_total : forall a b, a <> b -> lt a b = true \/ lt b a = true.
Hypothesis eqb_spec : forall a b, eqb a b = true <-> a = b.

Lemma le_lt_trans (x y z : A) :
  (key_le key lt) x y -> lt (key y) (key z) = true -> lt (key x) (key z) = true.
Proof.
  unfold key_le. intros Hxy Hyz.
  destruct (lt (key x) (key z)) eqn:E; [reflexivity|].
  assert (Hne : key x <> key z) by (intros Heq; rewrite Heq, Hyz in Hxy; discriminate).
  destruct (lt_total _ _ Hne) as [H | H]; [congruence|].
  rewrite (lt_trans _ _ _ Hyz H) in Hxy. discriminate.
Qed.

Lemma insert_sorted_perm (x : A) (l : list A) :
  Permutation (Scoring.insert_sorted key lt x l) (x :: l).
Proof.
  induction l as [|y l IH]; simpl; [reflexivity|].
  destruct (lt (key x) (key y)); [reflexivity|].
  rewrite IH. apply perm_swap.
Qed.

Lemma stable_sort_perm_acc (l acc : list A) :
  Permutation (fold_left (fun acc x => Scoring.insert_sorted key lt x acc) l acc) (rev l ++ acc).
Proof.
  revert acc. induction l as [|x l IH]; intros acc; simpl; [reflexivity|].
  rewrite IH, insert_sorted_perm, <- app_assoc. reflexivity.
Qed.

Lemma stable_sort_perm (l : list A) : Permutation (Scoring.stable_sort key lt l) l.
Proof.
  unfold Scoring.stable_sort. rewrite stable_sort_perm_acc, app_nil_r.
  symmetry. apply Permutation_rev.
Qed.

Lemma insert_sorted_sorted (x : A) (l : list A) :
  StronglySorted (key_le key lt) l -> StronglySorted (key_le key lt) (Scoring.insert_sorted key lt x l).
Proof.
  induction l as [|y l IH]; intros Hs; simpl.
  - repeat constructor.
  - apply StronglySorted_inv in Hs as [Hs Hy].
    destruct (lt (key x) (key y)) eqn:Exy.
    + constructor; [constructor; assumption|].
      constructor.
      * unfold key_le. destruct (lt (key y) (key x)) eqn:Eyx; [|reflexivity].
        pose proof (lt_trans _ _ _ Exy Eyx) as Hxx. rewrite lt_irrefl in Hxx. discriminate.
      * apply List.Forall_forall. intros z Hz. unfold key_le.
        destruct (lt (key z) (key x)) eqn:Ezx; [|reflexivity].
        pose proof (proj1 (List.Forall_forall _ _) Hy z Hz) as Hyz.
        pose proof (le_lt_trans y z x Hyz Ezx) as Hyx.
        pose proof (lt_trans _ _ _ Exy Hyx) as Hyy. rewrite lt_irrefl in Hyy. discriminate.
    + constructor; [apply IH; exact Hs|].
      apply List.Forall_forall. intros z Hz.
      apply (Permutation_in _ (insert_sorted_perm x l)) in Hz as [<- | Hz].
      * exact Exy.
      * exact (proj1 (List.Forall_forall _ _) Hy z Hz).
Qed.

Lemma stable_sort_sorted (l : list A) : StronglySorted (key_le key lt) (Scoring.stable_sort key lt l).
Proof.
  unfold Scoring.stable_sort.
  assert (H : forall acc, StronglySorted (key_le key lt) acc ->
            StronglySorted (key_le key lt) (fold_left (fun acc x => Scoring.insert_sorted key lt x acc) l acc)).
  { induction l as [|x l IH]; intros acc Hacc; simpl; [exact Hacc|].
    apply IH, insert_sorted_sorted, Hacc. }
  apply H. constructor.
Qed.

Lemma filter_insert_sorted (k : K) (x : A) (l : list A) :
  StronglySorted (key_le key lt) l ->
  List.filter (fun z => eqb (key z) k) (Scoring.insert_sorted key lt x l)
  = List.filter (fun z => eqb (key z) k) l ++ (if eqb (key x) k then [x] else []).
Proof.
  induction l as [|y l IH]; intros Hs.
  - simpl. destruct (eqb (key x) k); reflexivity.
  - apply StronglySorted_inv in Hs as [Hs Hy].
    cbn [Scoring.insert_sorted].
    destruct (lt (key x) (key y)) eqn:Exy.
    + rewrite filter_cons_eq. cbv beta. destruct (eqb (key x) k) eqn:Ex.
      * rewrite (filter_all_false _ (y :: l)); [reflexivity|].
        intros z Hz. apply eqb_spec in Ex.
        destruct (eqb (key z) k) eqn:Ez; [|reflexivity]. apply eqb_spec in Ez.
        assert (Hyz : (key_le key lt) y z).
        { destruct Hz as [<- | Hz].
          - unfold key_le. apply lt_irrefl.
          - exact (proj1 (List.Forall_forall _ _) Hy z Hz). }
        unfold key_le in Hyz. rewrite Ez, <- Ex, Exy in Hyz. discriminate.
      * rewrite app_nil_r. reflexivity.
    + rewrite !filter_cons_eq. cbv beta.
      destruct (eqb (key y) k); rewrite IH by exact Hs; reflexivity.
Qed.

Lemma filter_stable_sort (k : K) (l : list A) :
  List.filter (fun z => eqb (key z) k) (Scoring.stable_sort key lt l)
  = List.filter (fun z => eqb (key z) k) l.
Proof.
  unfold Scoring.stable_sort.
  assert (H : forall acc, StronglySorted (key_le key lt) acc ->
            List.filter (fun z => eqb (key z) k)
              (fold_left (fun acc x => Scoring.insert_sorted key lt x acc) l acc)
            = List.filter (fun z => eqb (key z) k) acc ++ List.filter (fun z => eqb (key z) k) l).
  { induction l as [|x l IH]; intros acc Hacc; simpl.
    - rewrite app_nil_r. reflexivity.
    - rewrite IH by (apply insert_sorted_sorted, Hacc).
      rewrite filter_insert_sorted by exact Hacc.
      rewrite <- app_assoc. destruct (eqb (key x) k); reflexivity. }
  rewrite H by constructor. reflexivity.
Qed.

End StableSortProofs.

Lemma StronglySorted_impl {A : Type} (R1 R2 : A -> A -> Prop) (l : list A) :
  (forall x y, R1 x y -> R2 x y) -> StronglySorted R1 l -> StronglySorted R2 l.
Proof.
  intros H. induction 1 as [|x l Hs IH Hf]; constructor; [exact IH|].
  eapply List.Forall_impl; [|exact Hf]. intros y. apply H.
Qed.

Lemma key_lt_irrefl (k : R * Z) : Scoring.key_lt k k = false.
Proof.
  destruct k as [a d]. unfold Scoring.key_lt.
  destruct (Req_EM_T a a) as [_ | n]; [apply Z.ltb_irrefl | exfalso; apply n; reflexivity].
Qed.

Lemma key_lt_spec (a1 a2 : R) (d1 d2 : Z) :
  Scoring.key_lt (a1, d1) (a2, d2) = true <-> ((a1 < a2)%R \/ (a1 = a2 /\ d1 < d2)).
Proof.
  unfold Scoring.key_lt.
  destruct (Req_EM_T a1 a2) as [E | E].
  - rewrite Z.ltb_lt. split; [intros; right; auto | intros [H | [_ H]]; [lra | exact H]].
  - destruct (Rlt_dec a1 a2) as [L | L]; split; intros H; try discriminate; auto.
    destruct H as [H | [H _]]; contradiction.
Qed.

Lemma key_lt_trans (a b c : R * Z) :
  Scoring.key_lt a b = true -> Scoring.key_lt b c = true -> Scoring.key_lt a c = true.
Proof.
  destruct a as [a1 a2], b as [b1 b2], c as [c1 c2]. rewrite !key_lt_spec.
  intros [H1 | [H1 H1']] [H2 | [H2 H2']]; subst; [left; lra | left; lra | left; lra | right; split; [reflexivity | lia]].
Qed.

Lemma key_lt_total (a b : R * Z) :
  a <> b -> Scoring.key_lt a b = true \/ Scoring.key_lt b a = true.
Proof.
  destruct a as [a1 a2], b as [b1 b2]. rewrite !key_lt_spec. intros Hne.
  destruct (Rtotal_order a1 b1) as [H | [H | H]]; [left; left; exact H | subst | right; left; exact H].
  destruct (Z.lt_trichotomy a2 b2) as [H | [H | H]]; [left; right; auto | subst; congruence | right; right; auto].
Qed.

Lemma rank_key_eqb_spec (a b : R * Z) : rank_key_eqb a b = true <-> a = b.
Proof.
  destruct a as [a1 a2], b as [b1 b2]. unfold rank_key_eqb. simpl.
  destruct (Req_EM_T a1 b1) as [E | E].
  - rewrite Z.eqb_eq. split; [intros ->; subst; reflexivity | intros H; injection H; auto].
  - split; [discriminate | intros H; injection H; intros; contradiction].
Qed.

(** C4. [rank_tasks] returns exactly the scored entries [(task, score,
    breakdown)] of its input, in an order where scores never increase and
    equal scores come by ascending deadline; entries with the same score
    and the same deadline keep their input order. *)
Theorem rank_tasks_stable (weights : Scoring.ScoreWeights) (tasks : list StudyTask.t)
    (current_date : date) (h : Z) :
  let scored := map (fun t => let bd := Scoring.calculate_score_with_breakdown weights t current_date h in
                              (t, Scoring.total_score bd, bd)) tasks in
  let ranked := Scoring.rank_tasks weights tasks current_date h in
  Permutation ranked scored
  /\ StronglySorted ranked_before ranked
  /\ (forall s d, List.filter (same_rank_key s d) ranked = List.filter (same_rank_key s d) scored).
Proof.
  intros scored ranked.
  set (key := fun e : StudyTask.t * R * Scoring.ScoreBreakdown =>
                let '(x, s, _) := e in ((- s)%R, StudyTask.deadline x)).
  assert (Hr : ranked = Scoring.stable_sort key Scoring.key_lt scored) by reflexivity.
  rewrite Hr. split; [|split].
  - apply stable_sort_perm.
  - apply (StronglySorted_impl (key_le key Scoring.key_lt)); [|apply stable_sort_sorted].
    + intros [[t1 s1] b1] [[t2 s2] b2]. unfold key_le, ranked_before, entry_score, entry_deadline.
      unfold key. cbv beta iota. intros H.
      destruct (Rtotal_order s1 s2) as [Hlt | [Heq | Hgt]].
      * exfalso. assert (Ht : Scoring.key_lt (- s2, StudyTask.deadline t2)%R
                                             (- s1, StudyTask.deadline t1)%R = true)
          by (apply key_lt_spec; left; lra). congruence.
      * subst. right. split; [reflexivity|].
        destruct (Z.le_gt_cases (StudyTask.deadline t1) (StudyTask.deadline t2)) as [D | D]; [exact D|].
        exfalso. assert (Ht : Scoring.key_lt (- s2, StudyTask.deadline t2)%R
                                             (- s2, StudyTask.deadline t1)%R = true)
          by (apply key_lt_spec; right; split; [reflexivity | lia]). congruence.
      * left. exact Hgt.
    + exact key_lt_irrefl.
    + exact key_lt_trans.
    + exact key_lt_total.
  - intros s d.
    assert (Hf : forall l, List.filter (same_rank_key s d) l
                           = List.filter (fun z => rank_key_eqb (key z) ((- s)%R, d)) l).
    { intros l. apply filter_ext. intros [[t s1] b]. unfold same_rank_key, rank_key_eqb,
        entry_score, entry_deadline. simpl.
      destruct (Req_EM_T s1 s) as [E | E]; destruct (Req_EM_T (- s1) (- s)) as [E' | E'];
        try reflexivity; exfalso; [apply E'; rewrite E; reflexivity | apply E; lra]. }
    rewrite !Hf. apply filter_stable_sort.
    + exact key_lt_irrefl.
    + exact key_lt_trans.
    + exact key_lt_total.
    + exact rank_key_eqb_spec.
Qed.

(** ** Invariants of the scheduler's run *)

Import TimetableScheduler.

Lemma preserves_ret {A : Type} (P : State -> Prop) (a : A) : preserves P (ret a).
Proof. intros s b s' HP H. unfold ret in H. injection H as _ <-. exact HP. Qed.

Lemma preserves_bind {A B : Type} (P : State -> Prop) (m : M A) (f : A -> M B) :
  preserves P m -> (forall a, preserves P (f a)) -> preserves P (bind m f).
Proof.
  intros Hm Hf s b s' HP H. unfold bind in H.
  destruct (m s) as [[a s1] | e] eqn:E; [|discriminate].
  exact (Hf a s1 b s' (Hm s a s1 HP E) H).
Qed.

Lemma preserves_lift {A : Type} (P : State -> Prop) (r : result A) : preserves P (lift r).
Proof. intros s a s' HP H. unfold lift in H. destruct r; [injection H as _ <-; exact HP | discriminate]. Qed.

Section AllocationPhase.
Variable self : TimetableScheduler.t.
Variable P : State -> Prop.
Variable OkTask : StudyTask.t -> Prop.
Hypothesis P_warnings : forall s ws, P s -> P (set_warnings s ws).
Hypothesis P_counter : forall s c, P s -> P (set_task_counter s c).
Hypothesis P_append : forall s tk, P s -> OkTask tk -> P (set_tasks s (tasks s ++ [tk])).
Hypothesis P_tasks : forall s, P s -> Forall OkTask (tasks s).
Hypothesis OkTask_revision : forall c src d i,
  OkTask (fst (TaskDecomposer.create_revision_task c src d i)).
Hypothesis P_add : forall s s' idx task cap d u,
  P s -> OkTask task -> capacity_map s !! d = Some cap -> can_fit self cap task = true ->
  _add_task_to_schedule self idx task cap d s = Ok (u, s') -> P s'.

Lemma try_dates_preserves (idx : nat) (task : StudyTask.t) (dates : list date) :
  OkTask task -> preserves P (_try_dates self idx task dates).
Proof.
  intros Hok. induction dates as [|d rest IH]; [apply preserves_ret|].
  intros s a s' HP H. cbn [_try_dates] in H.
  destruct (capacity_map s !! d) as [cap|] eqn:Ec; [|exact (IH s a s' HP H)].
  destruct (can_fit self cap task) eqn:Ef; [|exact (IH s a s' HP H)].
  unfold bind in H.
  destruct (_add_task_to_schedule self idx task cap d s) as [[u s1] | e] eqn:Ea; [|discriminate].
  unfold ret in H. injection H as _ <-. exact (P_add s s1 idx task cap d u HP Hok Ec Ef Ea).
Qed.

Lemma try_fallback_preserves (idx : nat) (task : StudyTask.t) (offsets : list Z) :
  OkTask task -> preserves P (_try_fallback self idx task offsets).
Proof.
  intros Hok. induction offsets as [|o rest IH]; [apply preserves_ret|].
  cbn [_try_fallback]. apply preserves_bind; [apply preserves_lift|].
  intros fd s a s' HP H.
  destruct (capacity_map s !! fd) as [cap|] eqn:Ec; [|exact (IH s a s' HP H)].
  destruct (can_fit self cap task) eqn:Ef; [|exact (IH s a s' HP H)].
  unfold bind in H.
  destruct (_add_task_to_schedule self idx task cap fd s) as [[u s1] | e] eqn:Ea; [|discriminate].
  injection H as _ <-. apply P_warnings. exact (P_add s s1 idx task cap fd u HP Hok Ec Ef Ea).
Qed.

Lemma allocate_task_preserves (idx : nat) (task : StudyTask.t) :
  OkTask task -> preserves P (_allocate_task self idx task).
Proof.
  intros Hok. unfold _allocate_task.
  apply preserves_bind; [apply preserves_lift|]. intros dates.
  apply preserves_bind; [apply try_dates_preserves; exact Hok|]. intros placed.
  destruct placed; [apply preserves_ret|].
  destruct (StudyTask.priority task <=? 5); [apply try_fallback_preserves; exact Hok | apply preserves_ret].
Qed.

Lemma allocate_all_preserves (ranked : list (nat * StudyTask.t)) :
  Forall (fun e => OkTask (snd e)) ranked -> preserves P (allocate_all self ranked).
Proof.
  induction ranked as [|[idx task] rest IH]; intros Hf; [apply preserves_ret|].
  inversion Hf as [|? ? Hx Hr]; subst. cbn [allocate_all].
  apply preserves_bind; [apply allocate_task_preserves; exact Hx|]. intros _. exact (IH Hr).
Qed.

Lemma in_indexed {A : Type} (l : list A) (e : nat * A) : In e (indexed l) -> In (snd e) l.
Proof. unfold indexed. destruct e as [i x]. intros H. apply in_combine_r in H. exact H. Qed.

Lemma schedule_tasks_preserves (end_date : date) : preserves P (_schedule_tasks self end_date).
Proof.
  intros s a s' HP H. unfold _schedule_tasks in H.
  match type of H with allocate_all _ ?r _ = _ =>
    assert (Hf : Forall (fun e => OkTask (snd e)) r) end;
    [|exact (allocate_all_preserves _ Hf s a s' HP H)].
  apply List.Forall_forall. intros [idx task] Hin. simpl.
  apply in_map_iff in Hin as [[[[i tk] sc] bd] [Heq Hin]]. simpl in Heq. injection Heq as -> ->.
  unfold Scoring.rank_tasks_of in Hin.
  eapply Permutation_in in Hin; [|apply stable_sort_perm].
  apply in_map_iff in Hin as [[i' tk'] [Heq Hin]]. injection Heq as -> -> _ _.
  apply list_elem_of_In, list_elem_of_filter in Hin as [_ Hin]. apply list_elem_of_In in Hin. apply in_indexed in Hin.
  exact (proj1 (List.Forall_forall _ _) (P_tasks s HP) _ Hin).
Qed.

Lemma try_revision_preserves (src : StudyTask.t) (d : date) (i : Z) :
  preserves P (try_revision self src d i).
Proof.
  intros s a s' HP H. unfold try_revision in H.
  pose proof (OkTask_revision (task_counter s) src d i) as Hr.
  destruct (TaskDecomposer.create_revision_task (task_counter s) src d i) as [rev c'] eqn:Er.
  simpl in Hr. pose proof (P_counter s c' HP) as HP1.
  destruct (capacity_map (set_task_counter s c') !! d) as [cap|] eqn:Ec;
    [|injection H as _ <-; exact HP1].
  destruct (can_fit self cap rev) eqn:Ef; [|injection H as _ <-; exact HP1].
  eapply P_add; [apply P_append; [exact HP1 | exact Hr] | exact Hr | exact Ec | exact Ef | exact H].
Qed.

Lemma revise_dates_preserves (src : StudyTask.t) (dates : list date) (i : Z) :
  preserves P (revise_dates self src dates i).
Proof.
  revert i. induction dates as [|d rest IH]; intros i; [apply preserves_ret|].
  cbn [revise_dates]. apply preserves_bind; [apply try_revision_preserves | intros _; apply IH].
Qed.

Lemma revise_all_preserves (end_date : date) (sources : list (string * StudyTask.t)) :
  preserves P (revise_all self end_date sources).
Proof.
  induction sources as [|[tid src] rest IH]; [apply preserves_ret|].
  cbn [revise_all]. destruct (StudyTask.scheduled_date src) as [sd|]; [|exact IH].
  apply preserves_bind; [apply preserves_lift|]. intros dates.
  apply preserves_bind; [apply revise_dates_preserves | intros _; exact IH].
Qed.

Lemma add_spaced_repetition_preserves (end_date : date) :
  preserves P (_add_spaced_repetition self end_date).
Proof. intros s a s' HP H. exact (revise_all_preserves _ _ s a s' HP H). Qed.

Lemma check_completeness_preserves : preserves P _check_completeness.
Proof. intros s a s' HP H. unfold _check_completeness in H. injection H as _ <-. apply P_warnings. exact HP. Qed.

Lemma decompose_all_schedule (e : date) (s s' : State) (u : unit) :
  _decompose_all self e s = Ok (u, s') ->
  schedule s' = schedule s /\ capacity_map s' = capacity_map s.
Proof.
  unfold _decompose_all. destruct (fold_left _ (events self) _) as [ts1 c1].
  destruct (fold_left _ (topics self) _) as [ts2 c2]. intros H. injection H as _ <-.
  split; reflexivity.
Qed.

(** The allocation phases keep [P]; the earlier phases are the caller's. *)
Lemma generate_invariant (out : TimetableOutput.t) :
  P initial_state ->
  (forall e s u s', P s -> schedule s = ∅ -> _decompose_all self e s = Ok (u, s') -> P s') ->
  (forall e cm s, CapacityPlanner.build_capacity_map (availability self) (preferences self)
                    (current_date self) e = Ok cm ->
                  P s -> schedule s = ∅ -> P (set_capacity_map s cm)) ->
  (forall e cm s u s', CapacityPlanner.build_capacity_map (availability self) (preferences self)
                         (current_date self) e = Ok cm ->
                       capacity_map s = cm -> schedule s = ∅ -> P s ->
                       _initialize_schedule (current_date self) e s = Ok (u, s') -> P s') ->
  generate self = Ok out ->
  exists s, P s /\ TimetableOutput.schedule out = schedule s /\ TimetableOutput.tasks out = tasks s.
Proof.
  intros Hinit Hdec Hcm Hsch H. unfold generate in H.
  destruct (_determine_horizon self) as [e|] eqn:Eh; [|discriminate]. cbn [bind_r] in H.
  unfold bind at 1 in H.
  destruct (_decompose_all self e initial_state) as [[u1 s1]|] eqn:E1; [|discriminate].
  destruct (decompose_all_schedule _ _ _ _ E1) as [Hs1 Hc1].
  pose proof (Hdec e initial_state u1 s1 Hinit eq_refl E1) as HP1.
  unfold bind at 1, lift at 1 in H.
  destruct (CapacityPlanner.build_capacity_map (availability self) (preferences self)
              (current_date self) e) as [cm|] eqn:Ecm; [|discriminate].
  unfold bind at 1 in H.
  pose proof (Hcm e cm s1 Ecm HP1 Hs1) as HP2.
  unfold bind at 1 in H.
  destruct (_initialize_schedule (current_date self) e (set_capacity_map s1 cm))
    as [[u3 s3]|] eqn:E3; [|discriminate].
  pose proof (Hsch e cm (set_capacity_map s1 cm) u3 s3 Ecm eq_refl Hs1 HP2 E3) as HP3.
  unfold bind at 1 in H.
  destruct (_schedule_tasks self e s3) as [[u4 s4]|] eqn:E4; [|discriminate].
  pose proof (schedule_tasks_preserves e s3 u4 s4 HP3 E4) as HP4.
  unfold bind at 1 in H.
  destruct (_add_spaced_repetition self e s4) as [[u5 s5]|] eqn:E5; [|discriminate].
  pose proof (add_spaced_repetition_preserves e s4 u5 s5 HP4 E5) as HP5.
  destruct (_check_completeness s5) as [[u6 s6]|] eqn:E6; [|discriminate].
  pose proof (check_completeness_preserves s5 u6 s6 HP5 E6) as HP6.
  injection H as <-. exists s6. split; [exact HP6 | split; reflexivity].
Qed.

End AllocationPhase.

Lemma lookup_fold_insert_Some {V : Type} (f : Z -> V) (l : list Z) (m : gmap Z V) (k : Z) (v : V) :
  fold_left (fun m d => <[d := f d]> m) l m !! k = Some v -> (In k l /\ v = f k) \/ m !! k = Some v.
Proof.
  revert m. induction l as [|x l IH]; simpl; intros m H; [right; exact H|].
  destruct (IH _ H) as [[Hin ->] | H']; [left; auto|].
  apply lookup_insert_Some in H' as [[-> ->] | [_ H']]; [left; auto | right; exact H'].
Qed.

Lemma lookup_fold_insert_In {V : Type} (f : Z -> V) (l : list Z) (m : gmap Z V) (k : Z) :
  In k l -> fold_left (fun m d => <[d := f d]> m) l m !! k = Some (f k).
Proof.
  revert m. induction l as [|x l IH]; simpl; intros m Hin; [contradiction|].
  destruct (in_dec Z.eq_dec k l) as [Hk | Hk]; [apply IH; exact Hk|].
  destruct Hin as [-> | Hin]; [|contradiction].
  assert (Hgen : forall m' : gmap Z V, m' !! k = Some (f k) ->
            fold_left (fun (m : gmap Z V) d => <[d := f d]> m) l m' !! k = Some (f k)).
  { clear IH. induction l as [|y l IH']; simpl; intros m' Hm; [exact Hm|].
    apply IH'; [intros H; apply Hk; right; exact H|].
    rewrite lookup_insert_ne; [exact Hm|]. intros ->. apply Hk. left. reflexivity. }
  apply Hgen. apply lookup_insert_eq.
Qed.

Lemma add_slot_slots (ds : DaySchedule.t) (sl : TimeSlot.t) :
  DaySchedule.slots (DaySchedule.add_slot ds sl) = DaySchedule.slots ds ++ [sl].
Proof. unfold DaySchedule.add_slot. destruct (negb (TimeSlot.is_break sl)); reflexivity. Qed.

(** C10. Every day schedule in the output of [generate()] holds only
    slots with [is_break = false]: the only slots ever added are study
    slots built by [_add_task_to_schedule]. *)
Theorem generate_no_break_slots (self : TimetableScheduler.t) (out : TimetableOutput.t) :
  generate self = Ok out -> no_break_slots (TimetableOutput.schedule out).
Proof.
  intros H.
  destruct (generate_invariant self (fun s => no_break_slots (schedule s)) (fun _ => True))
    with (out := out) as [s [HP [-> _]]].
  - intros s ws HP. exact HP.
  - intros s c HP. exact HP.
  - intros s tk HP _. exact HP.
  - intros s _. apply List.Forall_forall. intros; exact I.
  - intros; exact I.
  - intros s s' idx task cap d u HP _ _ _ Ha. unfold _add_task_to_schedule in Ha.
    destruct (schedule s !! d) as [ds|] eqn:Ed; [|discriminate].
    injection Ha as _ <-. intros d' ds' Hl. simpl in Hl.
    apply lookup_insert_Some in Hl as [[<- <-] | [_ Hl]]; [|exact (HP d' ds' Hl)].
    assert (Hs : forall sl c, DaySchedule.slots (DaySchedule.set_capacity_used
                                (DaySchedule.add_slot ds sl) c) = DaySchedule.slots ds ++ [sl])
      by (intros sl c; unfold DaySchedule.set_capacity_used; simpl; apply add_slot_slots).
    match goal with |- Forall _ (DaySchedule.slots (if ?b then _ else _)) => destruct b end;
      [rewrite Hs | rewrite add_slot_slots];
      (apply Forall_app; split; [exact (HP d ds Ed) | constructor; [reflexivity | constructor]]).
  - intros d ds Hl. unfold initial_state in Hl. simpl in Hl. rewrite lookup_empty in Hl. discriminate.
  - intros e s u s' HP _ Hd. destruct (decompose_all_schedule _ _ _ _ _ Hd) as [-> _]. exact HP.
  - intros e cm s _ HP _. exact HP.
  - intros e cm s u s' _ _ Hs HP Hi. unfold _initialize_schedule, bind, lift in Hi.
    destruct (date_range (current_date self) e) as [dates|]; [|discriminate].
    injection Hi as _ <-. intros d ds Hl. simpl in Hl.
    apply lookup_fold_insert_Some in Hl as [[_ ->] | Hl]; [constructor | exact (HP d ds Hl)].
  - exact H.
  - exact HP.
Qed.

Lemma generate_no_break_slots_witness :
  exists out, generate one_topic_scheduler = Ok out
              /\ no_break_slots (TimetableOutput.schedule out)
              /\ option_map DaySchedule.slots (TimetableOutput.schedule out !! 738900)
                 = Some [TimeSlot.mk (mk_time 9 0 0) (mk_time 9 23 0) "Math" "Limits"
                           "topic_0001" INITIAL_LEARNING false].
Proof.
  destruct (generate one_topic_scheduler) as [out|e] eqn:E.
  - exists out. split; [reflexivity|]. split; [exact (generate_no_break_slots _ _ E)|].
    vm_compute in E. injection E as <-. vm_compute. reflexivity.
  - vm_compute in E. discriminate.
Defined.

(** ** C6: capacity bookkeeping *)

Lemma add_minutes_nonneg (t : time) (m : Z) : 0 <= time_to_minutes (add_minutes_to_time t m).
Proof.
  unfold add_minutes_to_time, time_to_minutes.
  destruct (24 * 60 <=? hour t * 60 + minute t + m) eqn:E1; [simpl; lia|].
  destruct (hour t * 60 + minute t + m <? 0) eqn:E2; [simpl; lia|].
  simpl. apply Z.ltb_ge in E2.
  pose proof (Z.div_mod (hour t * 60 + minute t + m) 60 ltac:(lia)). lia.
Qed.

Lemma add_minutes_delta (t : time) (m : Z) :
  0 <= time_to_minutes t -> 0 <= m ->
  time_to_minutes (add_minutes_to_time t m) - time_to_minutes t <= m.
Proof.
  unfold add_minutes_to_time, time_to_minutes. intros H0 Hm.
  destruct (24 * 60 <=? hour t * 60 + minute t + m) eqn:E1; [apply Z.leb_le in E1; simpl; lia|].
  destruct (hour t * 60 + minute t + m <? 0) eqn:E2; [apply Z.ltb_lt in E2; lia|].
  simpl. pose proof (Z.div_mod (hour t * 60 + minute t + m) 60 ltac:(lia)). lia.
Qed.

Lemma can_fit_spec (cap : DayCapacity.t) (m : Z) (subj top : string) (ms : Z) :
  DayCapacity.can_fit_session cap m subj top ms = true ->
  m <= DayCapacity.available_minutes cap
  /\ (subj ∈ DayCapacity.subjects_used cap
      \/ Z.of_nat (size (DayCapacity.subjects_used cap)) < ms).
Proof.
  unfold DayCapacity.can_fit_session.
  destruct (DayCapacity.available_minutes cap <? m) eqn:E1; [discriminate|].
  destruct (DayCapacity.max_sessions cap <=? DayCapacity.sessions_used cap); [discriminate|].
  destruct (bool_decide (subj ∈ DayCapacity.subjects_used cap)) eqn:E2.
  - intros _. apply Z.ltb_ge in E1. split; [exact E1|]. left. apply bool_decide_eq_true in E2. exact E2.
  - destruct (ms <=? Z.of_nat (size (DayCapacity.subjects_used cap))) eqn:E3; [discriminate|].
    intros _. apply Z.ltb_ge in E1. apply Z.leb_gt in E3. split; [exact E1 | right; exact E3].
Qed.

Lemma size_add_subject (subj : string) (su : gset string) (ms : Z) :
  (subj ∈ su \/ Z.of_nat (size su) < ms) -> Z.of_nat (size su) <= Z.max 0 ms ->
  Z.of_nat (size ({[subj]} ∪ su)) <= Z.max 0 ms.
Proof.
  intros [Hin | Hlt] Hle.
  - rewrite (subseteq_union_1_L {[subj]} su) by set_solver. exact Hle.
  - destruct (decide (subj ∈ su)) as [Hin | Hn].
    + rewrite (subseteq_union_1_L {[subj]} su) by set_solver. exact Hle.
    + rewrite size_union by set_solver. rewrite size_singleton. lia.
Qed.

Lemma buffer_bound (raw : Z) (b : Q) :
  (0 <= b <= 1)%Q -> raw - py_int_of_Q (inject_Z raw * b) <= Z.max 0 raw.
Proof.
  intros [Hb0 Hb1]. unfold py_int_of_Q.
  destruct (Qle_bool 0 (inject_Z raw * b)) eqn:E.
  - apply Qle_bool_iff in E.
    pose proof (Qfloor_resp_le _ _ E) as Hf. change 0%Q with (inject_Z 0) in Hf.
    rewrite Qfloor_Z in Hf. lia.
  - assert (Hneg : ~ (0 <= inject_Z raw * b)%Q) by (intros H; apply Qle_bool_iff in H; congruence).
    assert (HZ : forall z, Q2R (inject_Z z) = IZR z)
      by (intros z; unfold Q2R; simpl; rewrite Rinv_1, Rmult_1_r; reflexivity).
    assert (Hr : (- (inject_Z raw * b) <= inject_Z (- raw))%Q).
    { apply Rle_Qle. rewrite Q2R_opp, Q2R_mult, !HZ, opp_IZR.
      assert (Hb0' : (0 <= Q2R b)%R)
        by (apply Qle_Rle in Hb0; unfold Q2R at 1 in Hb0; simpl in Hb0; lra).
      assert (Hb1' : (Q2R b <= 1)%R)
        by (apply Qle_Rle in Hb1; unfold Q2R at 2 in Hb1; simpl in Hb1; lra).
      assert (Hn : (Q2R (inject_Z raw * b) < 0)%R).
      { apply Rnot_le_lt. intros H. apply Hneg. change 0%Q with (inject_Z 0). apply Rle_Qle. rewrite HZ. exact H. }
      rewrite Q2R_mult, HZ in Hn.
      destruct (Rle_or_lt 0 (IZR raw)) as [Hp | Hp]; [nra | nra]. }
    pose proof (Qfloor_resp_le _ _ Hr) as Hf. rewrite Qfloor_Z in Hf. lia.
Qed.

Lemma add_task_capacity_inv (self : TimetableScheduler.t) (s s' : State) (idx : nat)
    (task : StudyTask.t) (cap : DayCapacity.t) (d : date) (u : unit) :
  capacity_inv self s -> 0 <= StudyTask.required_minutes task ->
  capacity_map s !! d = Some cap -> can_fit self cap task = true ->
  _add_task_to_schedule self idx task cap d s = Ok (u, s') -> capacity_inv self s'.
Proof.
  intros [Hc [Hs Ht]] Hr Ec Hf Ha.
  unfold _add_task_to_schedule in Ha. destruct (schedule s !! d) as [ds|] eqn:Ed; [|discriminate].
  injection Ha as _ <-.
  destruct (Hs d ds Ed) as [cap0 [Ec0 Hday]]. assert (Heq : cap0 = cap) by (pose proof (eq_trans (eq_sym Ec0) Ec) as E; injection E; auto). subst cap0.
  destruct (Hc d cap Ec) as [Hsz [Hnx [Htot Hav]]].
  unfold can_fit in Hf. apply can_fit_spec in Hf as [Hm Hsub].
  pose proof (add_minutes_delta (DayCapacity.next_available_time cap)
                (StudyTask.required_minutes task) Hnx Hr) as Hdelta.
  unfold time_to_minutes in Hdelta.
  destruct Hday as [Hd1 [Hd2 Hd3]].
  split; [|split].
  - intros d' cap' Hl. simpl in Hl.
    apply lookup_insert_Some in Hl as [[<- <-] | [_ Hl]]; [|exact (Hc d' cap' Hl)].
    unfold cap_ok; simpl. split; [apply size_add_subject; assumption|].
    split; [apply add_minutes_nonneg|]. split; [exact Htot|]. lia.
  - intros d' ds' Hl. simpl in Hl.
    apply lookup_insert_Some in Hl as [[<- <-] | [Hne Hl]].
    + eexists. split; [simpl; apply lookup_insert_eq|].
      assert (Hsl : forall sl, In sl (DaySchedule.slots ds ++
                      [TimeSlot.mk (DayCapacity.next_available_time cap)
                         (add_minutes_to_time (DayCapacity.next_available_time cap)
                            (StudyTask.required_minutes task))
                         (StudyTask.subject task) (StudyTask.topic task) (StudyTask.task_id task)
                         (StudyTask.task_type task) false]) ->
                      TimeSlot.subject sl ∈ {[StudyTask.subject task]} ∪ DayCapacity.subjects_used cap).
      { intros sl Hin. apply in_app_or in Hin as [Hin | [<- | []]].
        - apply elem_of_union_r. exact (Hd3 sl Hin).
        - apply elem_of_union_l, elem_of_singleton. reflexivity. }
      match goal with |- day_ok (if ?b then _ else _) _ => destruct b end;
        unfold day_ok; simpl; (split; [lia | split; [left; lia | exact Hsl]]).
    + simpl. rewrite lookup_insert_ne by exact Hne. exact (Hs d' ds' Hl).
  - simpl. apply Forall_alter; [exact Ht | intros x _ Hx; exact Hx].
Qed.

Lemma fold_append_tasks_ok {A : Type} (ok : StudyTask.t -> Prop)
    (F : Z -> A -> list StudyTask.t * Z) (Q : A -> Prop) (l : list A)
    (ts : list StudyTask.t) (c : Z) :
  Forall Q l -> (forall c a, Q a -> Forall ok (fst (F c a))) -> Forall ok ts ->
  Forall ok (fst (fold_left (fun (acc : list StudyTask.t * Z) a =>
                               let (ts, c) := acc in
                               let (new, c') := F c a in (ts ++ new, c')) l (ts, c))).
Proof.
  intros HQ HF. revert ts c. induction HQ as [|a l Ha Hl IH]; intros ts c Hts; [exact Hts|].
  simpl. pose proof (HF c a Ha) as Hn. destruct (F c a) as [new c'].
  apply IH. apply Forall_app. split; [exact Hts | exact Hn].
Qed.

Lemma decompose_event_nonneg (L c : Z) (event : FixedEvent.t) :
  0 <= L -> (0 <= FixedEvent.estimated_effort_hours event)%Q ->
  Forall (fun tk => 0 <= StudyTask.required_minutes tk)
         (fst (TaskDecomposer.decompose_event L c event)).
Proof.
  intros HL Hh. pose proof (decompose_event_sessions L c event) as H2. cbv zeta in H2.
  destruct (hours_to_minutes_nonneg _ Hh) as [_ Ht].
  apply List.Forall_forall. intros tk Hin.
  destruct (Forall2_in_r _ _ _ _ H2 Hin) as [i [_ ->]].
  set (total := hours_to_minutes (FixedEvent.estimated_effort_hours event)) in *.
  assert (Hq : 0 <= total / Z.max 1 ((total + L - 1) / L)) by (apply Z.div_pos; lia).
  revert Hq. generalize (total / Z.max 1 ((total + L - 1) / L)).
  destruct (i <? total mod Z.max 1 ((total + L - 1) / L)); intros; lia.
Qed.

Lemma decompose_topic_nonneg (L c : Z) (topic : LearningTopic.t) (deadline : date) :
  0 <= L ->
  Forall (fun tk => 0 <= StudyTask.required_minutes tk)
         (fst (TaskDecomposer.decompose_topic L c topic deadline)).
Proof.
  intros HL. pose proof (decompose_topic_sessions L c topic deadline) as H2. cbv zeta in H2.
  apply List.Forall_forall. intros tk Hin.
  destruct (Forall2_in_r _ _ _ _ H2 Hin) as [i [_ ->]].
  match goal with |- 0 <= Z.min (Z.max ?x 15) L => generalize x end. intros; lia.
Qed.

Lemma decompose_all_tasks_ok (self : TimetableScheduler.t) (e : date) (s s' : State) (u : unit) :
  0 <= StudyPreferences.session_length_minutes (preferences self) ->
  Forall (fun ev => 0 <= FixedEvent.estimated_effort_hours ev)%Q (events self) ->
  Forall (fun tk => 0 <= StudyTask.required_minutes tk) (tasks s) ->
  _decompose_all self e s = Ok (u, s') ->
  Forall (fun tk => 0 <= StudyTask.required_minutes tk) (tasks s').
Proof.
  intros HL He Ht H. unfold _decompose_all in H.
  pose proof (fold_append_tasks_ok (fun tk => 0 <= StudyTask.required_minutes tk)
                (fun c ev => TaskDecomposer.decompose_event
                               (StudyPreferences.session_length_minutes (preferences self)) c ev)
                _ (events self) (tasks s) (task_counter s) He
                (fun c ev Hev => decompose_event_nonneg _ c ev HL Hev) Ht) as H1.
  cbv beta in H1.
  destruct (fold_left _ (events self) (tasks s, task_counter s)) as [ts1 c1]. simpl in H1.
  pose proof (fold_append_tasks_ok (fun tk => 0 <= StudyTask.required_minutes tk)
                (fun c tp => TaskDecomposer.decompose_topic
                               (StudyPreferences.session_length_minutes (preferences self)) c tp
                               (topic_deadline self e))
                (fun _ => True) (topics self) ts1 c1
                (proj2 (List.Forall_forall _ _) (fun _ _ => I))
                (fun c tp _ => decompose_topic_nonneg _ c tp _ HL) H1) as H3.
  cbv beta in H3.
  destruct (fold_left _ (topics self) (ts1, c1)) as [ts2 c2]. simpl in H3.
  injection H as _ <-. exact H3.
Qed.

Lemma build_capacity_map_lookup (av : DailyAvailability.t) (pr : StudyPreferences.t)
    (start_date end_date : date) (cm : gmap Z DayCapacity.t) (d : Z) (cap : DayCapacity.t) :
  CapacityPlanner.build_capacity_map av pr start_date end_date = Ok cm -> cm !! d = Some cap ->
  cap = CapacityPlanner.day_capacity av pr d.
Proof.
  unfold CapacityPlanner.build_capacity_map. destruct (date_range start_date end_date); [|discriminate].
  cbn [bind_r]. intros H Hl. injection H as <-.
  apply lookup_fold_insert_Some in Hl as [[_ ->] | Hl]; [reflexivity|].
  rewrite lookup_empty in Hl. discriminate.
Qed.

Lemma build_capacity_map_In (av : DailyAvailability.t) (pr : StudyPreferences.t)
    (start_date end_date : date) (cm : gmap Z DayCapacity.t) (dates : list date) (d : Z) :
  CapacityPlanner.build_capacity_map av pr start_date end_date = Ok cm ->
  date_range start_date end_date = Ok dates -> In d dates ->
  cm !! d = Some (CapacityPlanner.day_capacity av pr d).
Proof.
  unfold CapacityPlanner.build_capacity_map. intros H Hd Hin. rewrite Hd in H.
  cbn [bind_r] in H. injection H as <-. apply lookup_fold_insert_In. exact Hin.
Qed.

Lemma day_capacity_ok (self : TimetableScheduler.t) (d : date) :
  (0 <= StudyPreferences.buffer_percentage (preferences self) <= 1)%Q ->
  0 <= time_to_minutes (DailyAvailability.start_time (availability self)) ->
  cap_ok self d (CapacityPlanner.day_capacity (availability self) (preferences self) d).
Proof.
  intros Hb Hst. unfold cap_ok, CapacityPlanner.day_capacity.
  cbn [DayCapacity.subjects_used DayCapacity.next_available_time DayCapacity.total_minutes
       DayCapacity.available_minutes].
  rewrite size_empty. split; [lia|]. split; [exact Hst|]. split; [reflexivity|].
  apply buffer_bound. exact Hb.
Qed.

(** C6 (amended). Take a scheduler whose session length is at least 15
    minutes, whose buffer percentage is in [0, 1] and whose events have
    non-negative effort (the constructors enforce all three), and whose
    start time is a valid time. If [generate()] succeeds, then for every
    day [d] of the output schedule:
    - the studied minutes are at most [max(0, int(hours(d) * 60))], where
      [hours(d)] is the availability of that day;
    - the number of distinct slot subjects is at most
      [max(0, max_subjects_per_day)].
    The [max(0, _)] is needed: neither the hours nor [max_subjects_per_day]
    is validated, and a day with negative hours still carries its empty
    schedule with 0 studied minutes. *)
Theorem generate_day_capacity (self : TimetableScheduler.t) (out : TimetableOutput.t)
    (HL : 15 <= StudyPreferences.session_length_minutes (preferences self))
    (Hbuf : (0 <= StudyPreferences.buffer_percentage (preferences self) <= 1)%Q)
    (Heff : Forall (fun ev => 0 <= FixedEvent.estimated_effort_hours ev)%Q (events self))
    (Hst : 0 <= time_to_minutes (DailyAvailability.start_time (availability self)))
    (Hgen : generate self = Ok out) :
  forall d ds, TimetableOutput.schedule out !! d = Some ds ->
    DaySchedule.total_study_minutes ds
      <= Z.max 0 (hours_to_minutes (DailyAvailability.get_hours_for_date (availability self) d))
    /\ Z.of_nat (size (slot_subjects ds))
       <= Z.max 0 (StudyPreferences.max_subjects_per_day (preferences self)).
Proof.
  destruct (generate_invariant self (capacity_inv self)
              (fun tk => 0 <= StudyTask.required_minutes tk))
    with (out := out) as [s [[Hc [Hs Ht]] [-> _]]].
  - intros s ws HP. exact HP.
  - intros s c HP. exact HP.
  - intros s tk [Hc [Hs Ht]] Hk. split; [exact Hc | split; [exact Hs|]].
    apply Forall_app. split; [exact Ht | constructor; [exact Hk | constructor]].
  - intros s [_ [_ Ht]]. exact Ht.
  - intros c src d i. unfold TaskDecomposer.create_revision_task.
    destruct (TaskDecomposer._next_task_id "revision" c). simpl. lia.
  - intros s s' idx task cap d u HP Hk Ec Hf Ha. exact (add_task_capacity_inv _ _ _ _ _ _ _ _ HP Hk Ec Hf Ha).
  - unfold initial_state. split; [|split].
    + intros d cap Hl. simpl in Hl. rewrite lookup_empty in Hl. discriminate.
    + intros d ds Hl. simpl in Hl. rewrite lookup_empty in Hl. discriminate.
    + constructor.
  - intros e s u s' [Hc [Hs Ht]] _ Hd. destruct (decompose_all_schedule _ _ _ _ _ Hd) as [E1 E2].
    split; [|split].
    + intros d cap Hl. rewrite E2 in Hl. exact (Hc d cap Hl).
    + intros d ds Hl. rewrite E1 in Hl. rewrite E2. exact (Hs d ds Hl).
    + refine (decompose_all_tasks_ok self e s s' u _ Heff Ht Hd). lia.
  - intros e cm s Hb [Hc [Hs Ht]] Hemp. split; [|split].
    + intros d cap Hl. simpl in Hl. rewrite (build_capacity_map_lookup _ _ _ _ _ _ _ Hb Hl).
      apply day_capacity_ok; assumption.
    + intros d ds Hl. simpl in Hl. rewrite Hemp, lookup_empty in Hl. discriminate.
    + exact Ht.
  - intros e cm s u s' Hb Hcm Hemp [Hc [Hs Ht]] Hi. unfold _initialize_schedule, bind, lift in Hi.
    destruct (date_range (current_date self) e) as [dates|] eqn:Edr; [|discriminate].
    injection Hi as _ <-. split; [exact Hc | split; [|exact Ht]].
    intros d ds Hl. simpl in Hl. rewrite Hemp in Hl.
    apply lookup_fold_insert_Some in Hl as [[Hin ->] | Hl]; [|rewrite lookup_empty in Hl; discriminate].
    pose proof (build_capacity_map_In _ _ _ _ _ _ d Hb Edr Hin) as Hcl. rewrite <- Hcm in Hcl.
    eexists. split; [exact Hcl|].
    destruct (Hc d _ Hcl) as [_ [_ [_ Hav]]].
    unfold day_ok, DaySchedule.new. simpl in Hav |- *. split; [lia | split; [right; lia | intros sl []]].
  - exact Hgen.
  - intros d ds Hl. destruct (Hs d ds Hl) as [cap [Hcl [Hd1 [Hd2 Hd3]]]].
    destruct (Hc d cap Hcl) as [Hsz [_ [Htot Hav]]]. split.
    + rewrite <- Htot. destruct Hd2; lia.
    + assert (Hsub : slot_subjects ds ⊆ DayCapacity.subjects_used cap).
      { intros x Hx. unfold slot_subjects in Hx. apply elem_of_list_to_set in Hx.
        apply list_elem_of_In, in_map_iff in Hx as [sl [<- Hin]]. exact (Hd3 sl Hin). }
      pose proof (subseteq_size _ _ Hsub). lia.
Qed.

Lemma generate_day_capacity_witness :
  exists out, generate one_topic_scheduler = Ok out
    /\ (forall d ds, TimetableOutput.schedule out !! d = Some ds ->
          DaySchedule.total_study_minutes ds
            <= Z.max 0 (hours_to_minutes (DailyAvailability.get_hours_for_date
                          (availability one_topic_scheduler) d))
          /\ Z.of_nat (size (slot_subjects ds))
             <= Z.max 0 (StudyPreferences.max_subjects_per_day (preferences one_topic_scheduler)))
    /\ option_map DaySchedule.total_study_minutes (TimetableOutput.schedule out !! 738900) = Some 23.
Proof.
  destruct (generate one_topic_scheduler) as [out|e] eqn:E.
  - exists out. split; [reflexivity|]. split.
    + apply (generate_day_capacity one_topic_scheduler out).
      * simpl. lia.
      * simpl. split; apply Qle_bool_iff; vm_compute; reflexivity.
      * simpl. constructor.
      * vm_compute. intros H. discriminate.
      * exact E.
    + vm_compute in E. injection E as <-. vm_compute. reflexivity.
  - vm_compute in E. discriminate.
Defined.

Lemma generate_day_capacity_counterexample :
  exists out, scheduler_generate 738900 (fun _ => "uuid") [] negative_hours_availability
                default_preferences [] (DI_str "2024-01-15") = Ok out
    /\ TimetableOutput.schedule out !! 738900 = Some (DaySchedule.new 738900)
    /\ hours_to_minutes (-1) = -60
    /\ ~ (DaySchedule.total_study_minutes (DaySchedule.new 738900) <= hours_to_minutes (-1)).
Proof.
  destruct (scheduler_generate 738900 (fun _ => "uuid") [] negative_hours_availability
              default_preferences [] (DI_str "2024-01-15")) as [out|e] eqn:E.
  - exists out. split; [reflexivity|]. vm_compute in E. injection E as <-.
    split; [vm_compute; reflexivity|]. split; [vm_compute; reflexivity|].
    vm_compute. intros H. apply H. reflexivity.
  - vm_compute in E. discriminate.
Qed.

(** ** C7: spaced repetition *)


Lemma assoc_get_set {V : Type} (k k' : string) (v : V) (l : list (string * V)) :
  assoc_get k (assoc_set k' v l) = if String.eqb k k' then Some v else assoc_get k l.
Proof.
  induction l as [|[k'' v'] r IH]; simpl.
  - reflexivity.
  - destruct (String.eqb k' k'') eqn:E1; simpl.
    + apply String.eqb_eq in E1. subst k''. destruct (String.eqb k k'); reflexivity.
    + destruct (String.eqb k k'') eqn:E2.
      * apply String.eqb_eq in E2. subst k''. destruct (String.eqb k k') eqn:E3; [|reflexivity].
        apply String.eqb_eq in E3. subst k'. rewrite String.eqb_refl in E1. discriminate.
      * exact IH.
Qed.

Lemma assoc_set_keys {V : Type} (k x : string) (v : V) (l : list (string * V)) :
  In x (map fst (assoc_set k v l)) -> x = k \/ In x (map fst l).
Proof.
  induction l as [|[k'' v'] r IH]; simpl.
  - intros [-> | []]. left. reflexivity.
  - destruct (String.eqb k k''); simpl; [tauto|]. intros [-> | H]; [tauto|]. destruct (IH H); tauto.
Qed.

Lemma assoc_set_nodup {V : Type} (k : string) (v : V) (l : list (string * V)) :
  List.NoDup (map fst l) -> List.NoDup (map fst (assoc_set k v l)).
Proof.
  induction l as [|[k'' v'] r IH]; simpl; intros Hn.
  - constructor; [intros [] | constructor].
  - inversion Hn as [|? ? Hni Hnr]; subst.
    destruct (String.eqb k k'') eqn:E; simpl; [exact Hn|].
    constructor; [|exact (IH Hnr)].
    intros Hin. apply assoc_set_keys in Hin as [-> | Hin]; [|contradiction].
    rewrite String.eqb_refl in E. discriminate.
Qed.

Lemma assoc_get_In_keys {V : Type} (k : string) (l : list (string * V)) :
  assoc_get k l = None -> ~ In k (map fst l).
Proof.
  induction l as [|[k' v] r IH]; simpl; [auto|].
  destruct (String.eqb k k') eqn:E; [discriminate|].
  intros H [-> | Hin]; [rewrite String.eqb_refl in E; discriminate | exact (IH H Hin)].
Qed.

Lemma date_add_ok (d n : Z) : 1 <= d + n <= MAXORD -> date_add d n = Ok (d + n).
Proof.
  intros H. unfold date_add.
  replace ((1 <=? d + n) && (d + n <=? MAXORD)) with true; [reflexivity|].
  symmetry. apply andb_true_iff. split; apply Z.leb_le; lia.
Qed.

Lemma date_add_err (d n : Z) : MAXORD < d + n -> date_add d n = Err OverflowError.
Proof.
  intros H. unfold date_add.
  replace ((1 <=? d + n) && (d + n <=? MAXORD)) with false; [reflexivity|].
  symmetry. apply andb_false_iff. right. apply Z.leb_gt. lia.
Qed.

Lemma get_spaced_repetition_dates_spec (D end_date : date) :
  0 <= D ->
  get_spaced_repetition_dates D end_date REVISION_INTERVALS
  = if D + 7 <=? MAXORD
    then Ok (List.filter (fun x => x <=? end_date) [D + 1; D + 3; D + 7])
    else Err OverflowError.
Proof.
  intros HD. unfold REVISION_INTERVALS. cbn [get_spaced_repetition_dates].
  destruct (Z.leb_spec (D + 7) MAXORD) as [H7 | H7].
  - rewrite !date_add_ok by lia. cbn [bind_r].
    rewrite !filter_cons_eq. reflexivity.
  - destruct (Z.le_gt_cases (D + 1) MAXORD) as [H1 | H1];
      [rewrite (date_add_ok D 1) by lia | rewrite (date_add_err D 1) by lia; reflexivity].
    cbn [bind_r].
    destruct (Z.le_gt_cases (D + 3) MAXORD) as [H3 | H3];
      [rewrite (date_add_ok D 3) by lia | rewrite (date_add_err D 3) by lia; reflexivity].
    cbn [bind_r]. rewrite (date_add_err D 7) by lia. reflexivity.
Qed.

Lemma earliest_keep (l : list StudyTask.t) (x : StudyTask.t) (acc : list (string * StudyTask.t)) :
  earliest_table l acc ->
  (forall k, StudyTask.source_topic_id x = Some k -> k <> "" ->
     exists t, assoc_get k acc = Some t /\ sched_le t x) ->
  earliest_table (l ++ [x]) acc.
Proof.
  intros [N [S C]] Hx. split; [exact N | split].
  - intros k t H. destruct (S k t H) as [Hk [Hin [Hid Hle]]].
    split; [exact Hk | split; [apply in_or_app; left; exact Hin | split; [exact Hid|]]].
    intros t' Hin' Hid'. apply in_app_or in Hin' as [Hin' | [<- | []]]; [exact (Hle t' Hin' Hid')|].
    destruct (Hx k Hid' Hk) as [t0 [Ht0 Hle0]]. rewrite H in Ht0. injection Ht0 as <-. exact Hle0.
  - intros t k Hin Hid Hk. apply in_app_or in Hin as [Hin | [<- | []]]; [exact (C t k Hin Hid Hk)|].
    destruct (Hx k Hid Hk) as [t0 [Ht0 _]]. exists t0. exact Ht0.
Qed.

Lemma earliest_set (l : list StudyTask.t) (x : StudyTask.t) (acc : list (string * StudyTask.t))
    (k0 : string) :
  earliest_table l acc -> StudyTask.source_topic_id x = Some k0 -> k0 <> "" ->
  (forall t', In t' l -> StudyTask.source_topic_id t' = Some k0 -> sched_le x t') ->
  sched_le x x ->
  earliest_table (l ++ [x]) (assoc_set k0 x acc).
Proof.
  intros [N [S C]] Hid0 Hk0 Hle0 Hxx. split; [apply assoc_set_nodup; exact N | split].
  - intros k t H. rewrite assoc_get_set in H. destruct (String.eqb k k0) eqn:E.
    + apply String.eqb_eq in E. subst k. injection H as <-.
      split; [exact Hk0 | split; [apply in_or_app; right; left; reflexivity | split; [exact Hid0|]]].
      intros t' Hin' Hid'. apply in_app_or in Hin' as [Hin' | [<- | []]]; [exact (Hle0 t' Hin' Hid') | exact Hxx].
    + destruct (S k t H) as [Hk [Hin [Hid Hle]]].
      split; [exact Hk | split; [apply in_or_app; left; exact Hin | split; [exact Hid|]]].
      intros t' Hin' Hid'. apply in_app_or in Hin' as [Hin' | [<- | []]]; [exact (Hle t' Hin' Hid')|].
      rewrite Hid0 in Hid'. injection Hid' as ->. rewrite String.eqb_refl in E. discriminate.
  - intros t k Hin Hid Hk. rewrite assoc_get_set. destruct (String.eqb k k0) eqn:E; [eexists; reflexivity|].
    apply in_app_or in Hin as [Hin | [<- | []]]; [exact (C t k Hin Hid Hk)|].
    rewrite Hid0 in Hid. injection Hid as ->. rewrite String.eqb_refl in E. discriminate.
Qed.

Lemma group_earliest_table (l : list StudyTask.t) :
  Forall (fun t => StudyTask.scheduled_date t <> None) l ->
  earliest_table l (group_earliest l).
Proof.
  induction l as [|x l IH] using rev_ind; intros Hd.
  - split; [constructor | split]; [intros k t H; discriminate | intros t k []].
  - apply Forall_app in Hd as [Hdl Hdx]. inversion Hdx as [|? ? Hx _]; subst.
    pose proof (IH Hdl) as T. clear IH. destruct T as [N [S C]] eqn:ET.
    unfold group_earliest in *. rewrite fold_left_app. cbn [fold_left].
    set (acc := fold_left _ l []) in *.
    destruct (StudyTask.scheduled_date x) as [a|] eqn:Ea; [|contradiction].
    assert (Hxx : sched_le x x) by (unfold sched_le; rewrite Ea; lia).
    destruct (StudyTask.source_topic_id x) as [k0|] eqn:Ek.
    2: { apply earliest_keep; [exact T|]. intros k Hk. congruence. }
    destruct (String.eqb k0 "") eqn:Ee.
    { apply earliest_keep; [exact T|]. intros k Hk Hne. rewrite Ek in Hk. injection Hk as <-.
      apply String.eqb_eq in Ee. contradiction. }
    assert (Hne : k0 <> "") by (intros ->; discriminate).
    destruct (assoc_get k0 acc) as [ex|] eqn:Eg.
    + destruct (S k0 ex Eg) as [_ [Hinex [_ Hleex]]].
      pose proof (proj1 (List.Forall_forall _ _) Hdl ex Hinex) as Hex. simpl in Hex.
      destruct (StudyTask.scheduled_date ex) as [b|] eqn:Eb; [|contradiction].
      destruct (a <? b) eqn:Eab.
      * apply Z.ltb_lt in Eab. apply earliest_set; [exact T | exact Ek | exact Hne | | exact Hxx].
        intros t' Hin' Hid'. pose proof (Hleex t' Hin' Hid') as Hl. unfold sched_le in Hl |- *.
        rewrite Eb in Hl. rewrite Ea. destruct (StudyTask.scheduled_date t'); [lia | contradiction].
      * apply Z.ltb_ge in Eab. apply earliest_keep; [exact T|]. intros k Hk _.
        rewrite Ek in Hk. injection Hk as <-. exists ex. split; [exact Eg|]. unfold sched_le. rewrite Eb, Ea. lia.
    + apply earliest_set; [exact T | exact Ek | exact Hne | | exact Hxx].
      intros t' Hin' Hid'. destruct (C t' k0 Hin' Hid' Hne) as [t0 Ht0]. congruence.
Qed.

Lemma initial_tasks_dated (self : TimetableScheduler.t) (ts : list StudyTask.t) :
  Forall (fun t => StudyTask.scheduled_date t <> None) (initial_tasks_of self ts).
Proof.
  apply List.Forall_forall. intros t Hin. unfold initial_tasks_of in Hin.
  apply list_elem_of_In, list_elem_of_filter in Hin as [Hp _].
  intros Hn. apply Is_true_eq_true in Hp. rewrite Hn, andb_false_r in Hp. discriminate.
Qed.

(** [_add_spaced_repetition] reads the tasks that are
    scheduled, of type [INITIAL_LEARNING], carry the id of a concept-heavy
    topic and have a date, and groups them by topic id with
    [group_earliest]. The table holds one entry per non-empty id; the
    entry for id [k] is a task with id [k] whose date [D] is the earliest
    among those tasks; the empty id gets no entry, so its tasks get no
    revision. For a source on date [D >= 0] the candidates are exactly
    those of [D+1, D+3, D+7] not later than the horizon end, in this
    order; when [D+7] is past the last representable date the step raises
    [OverflowError]. Each candidate creates a [REVISION] task of
    [max(15, required // 2)] minutes. When its day's capacity accepts it,
    the task is appended and placed by [_add_task_to_schedule]; otherwise
    only the task counter moves: no task and no warning is added. *)
Theorem spaced_repetition_spec (self : TimetableScheduler.t) (end_date : date) :
  (forall s, _add_spaced_repetition self end_date s
             = revise_all self end_date (group_earliest (initial_tasks_of self (tasks s))) s)
  /\ (forall ts, earliest_table (initial_tasks_of self ts) (group_earliest (initial_tasks_of self ts)))
  /\ (forall ts, assoc_get "" (group_earliest (initial_tasks_of self ts)) = None)
  /\ (forall D, 0 <= D ->
        get_spaced_repetition_dates D end_date REVISION_INTERVALS
        = if D + 7 <=? MAXORD
          then Ok (List.filter (fun x => x <=? end_date) [D + 1; D + 3; D + 7])
          else Err OverflowError)
  /\ (forall src d i s,
        let rc := TaskDecomposer.create_revision_task (task_counter s) src d i in
        StudyTask.required_minutes (fst rc) = Z.max 15 (StudyTask.required_minutes src / 2)
        /\ StudyTask.task_type (fst rc) = REVISION
        /\ (forall cap, capacity_map s !! d = Some cap -> can_fit self cap (fst rc) = true ->
              try_revision self src d i s
              = _add_task_to_schedule self (length (tasks s)) (fst rc) cap d
                  (set_tasks (set_task_counter s (snd rc)) (tasks s ++ [fst rc])))
        /\ ((forall cap, capacity_map s !! d = Some cap -> can_fit self cap (fst rc) = false) ->
              try_revision self src d i s = Ok (tt, set_task_counter s (snd rc)))).
Proof.
  split; [intros s; reflexivity|]. split; [|split; [|split]].
  - intros ts. apply group_earliest_table. apply initial_tasks_dated.
  - intros ts. destruct (assoc_get "" (group_earliest (initial_tasks_of self ts))) as [t|] eqn:E;
      [|reflexivity].
    destruct (group_earliest_table _ (initial_tasks_dated self ts)) as [_ [S _]].
    destruct (S "" t E) as [Hk _]. contradiction.
  - intros D HD. exact (get_spaced_repetition_dates_spec D end_date HD).
  - intros src d i s rc. subst rc. unfold try_revision.
    destruct (TaskDecomposer.create_revision_task (task_counter s) src d i) as [rev c'] eqn:E.
    cbn [fst snd].
    assert (Hr : StudyTask.required_minutes rev = Z.max 15 (StudyTask.required_minutes src / 2)
                 /\ StudyTask.task_type rev = REVISION).
    { unfold TaskDecomposer.create_revision_task in E.
      destruct (TaskDecomposer._next_task_id "revision" (task_counter s)).
      injection E as <- _. split; reflexivity. }
    split; [exact (proj1 Hr) | split; [exact (proj2 Hr) | split]].
    + intros cap Hc Hf. change (capacity_map (set_task_counter s c')) with (capacity_map s).
      rewrite Hc, Hf. reflexivity.
    + intros Hno. change (capacity_map (set_task_counter s c')) with (capacity_map s).
      destruct (capacity_map s !! d) as [cap|] eqn:Ec; [rewrite (Hno cap eq_refl)|]; reflexivity.
Qed.

(** C7: a concept-heavy topic with the empty id gets no revision task,
    while the same topic under the id "t1" gets three. *)
Lemma spaced_repetition_spec_counterexample :
  exists out out',
    generate (concept_topic_scheduler "") = Ok out
    /\ map (fun tk => (StudyTask.task_type tk, StudyTask.status tk, StudyTask.source_topic_id tk))
           (TimetableOutput.tasks out) = [(INITIAL_LEARNING, SCHEDULED, Some "")]
    /\ generate (concept_topic_scheduler "t1") = Ok out'
    /\ map (fun tk => (StudyTask.task_type tk, StudyTask.scheduled_date tk))
           (TimetableOutput.tasks out')
       = [(INITIAL_LEARNING, Some 738900); (REVISION, Some 738901); (REVISION, Some 738903);
          (REVISION, Some 738907)].
Proof.
  destruct (generate (concept_topic_scheduler "")) as [out|e] eqn:E;
    [|vm_compute in E; discriminate].
  destruct (generate (concept_topic_scheduler "t1")) as [out'|e'] eqn:E';
    [|vm_compute in E'; discriminate].
  exists out, out'. vm_compute in E. vm_compute in E'. injection E as <-. injection E' as <-.
  split; [reflexivity | split; [vm_compute; reflexivity | split; [reflexivity | vm_compute; reflexivity]]].
Qed.

(** C7 (divergence). [get_spaced_repetition_dates] computes
    [initial_date + timedelta(days=interval)] before comparing it with the
    horizon end, so a source date [D] with [D + 7] past 9999-12-31 raises
    [OverflowError] whatever the horizon end, instead of dropping the
    candidate. Scheduling from 9999-11-30 with no events (horizon end
    9999-12-30) and the days 9999-11-30 to 9999-12-24 excluded places the
    quarter-hour topic on 9999-12-25; when the topic is concept-heavy,
    [generate()] aborts with [OverflowError]. The same input with the topic
    not concept-heavy returns its task scheduled on 9999-12-25; and one
    month earlier the concept-heavy topic gets its revisions on [D+1] and
    [D+3], [D+7] being dropped as past the horizon end. *)
Theorem spaced_repetition_overflow (today : date) (uuid4 : nat -> string) :
  (forall D end_date, 0 <= D -> MAXORD < D + 7 ->
     get_spaced_repetition_dates D end_date REVISION_INTERVALS = Err OverflowError)
  /\ scheduler_generate today uuid4 [] (busy_availability 12 30) default_preferences
       [optics_topic true] (DI_str "9999-11-30") = Err OverflowError
  /\ match scheduler_generate today uuid4 [] (busy_availability 12 30) default_preferences
             [optics_topic false] (DI_str "9999-11-30") with
     | Ok out => task_days out = [(INITIAL_LEARNING, SCHEDULED, Some 3652053)]
                 /\ TimetableOutput.horizon_end (TimetableOutput.metadata out) = 3652058
     | Err _ => False
     end
  /\ match scheduler_generate today uuid4 [] (busy_availability 11 31) default_preferences
             [optics_topic true] (DI_str "9999-10-31") with
     | Ok out => task_days out = [(INITIAL_LEARNING, SCHEDULED, Some 3652023);
                                  (REVISION, SCHEDULED, Some 3652024);
                                  (REVISION, SCHEDULED, Some 3652026)]
                 /\ TimetableOutput.horizon_end (TimetableOutput.metadata out) = 3652028
     | Err _ => False
     end.
Proof.
  split.
  - intros D end_date HD H7. rewrite (get_spaced_repetition_dates_spec D end_date HD).
    replace (D + 7 <=? MAXORD) with false; [reflexivity|]. symmetry. apply Z.leb_gt. exact H7.
  - split; [|split]; vm_compute; auto.
Qed.

(** * Further properties of the code *)

(** [add_minutes_to_time] saturates: the minute of the day it returns is
    [time_to_minutes t + k] clamped to [0, 1439], and the result is always
    a valid time with zero seconds. *)
Theorem add_minutes_to_time_saturates (t0 : time) (k : Z) :
  time_to_minutes (add_minutes_to_time t0 k) = Z.max 0 (Z.min 1439 (time_to_minutes t0 + k))
  /\ 0 <= hour (add_minutes_to_time t0 k) < 24
  /\ 0 <= minute (add_minutes_to_time t0 k) < 60
  /\ second (add_minutes_to_time t0 k) = 0.
Proof.
  unfold add_minutes_to_time, time_to_minutes.
  destruct (24 * 60 <=? hour t0 * 60 + minute t0 + k) eqn:E1;
    [apply Z.leb_le in E1; cbn [hour minute second]; lia|].
  destruct (hour t0 * 60 + minute t0 + k <? 0) eqn:E2;
    [apply Z.ltb_lt in E2; cbn [hour minute second]; lia|].
  apply Z.leb_gt in E1. apply Z.ltb_ge in E2. cbn [hour minute second].
  pose proof (Z.div_mod (hour t0 * 60 + minute t0 + k) 60 ltac:(lia)) as Hdm.
  pose proof (Z.mod_pos_bound (hour t0 * 60 + minute t0 + k) 60 ltac:(lia)) as Hmb.
  generalize dependent ((hour t0 * 60 + minute t0 + k) / 60).
  generalize dependent ((hour t0 * 60 + minute t0 + k) mod 60). intros r Hr q Hq. lia.
Qed.

Lemma time_div_mod (h m : Z) : 0 <= m < 60 -> (h * 60 + m) / 60 = h /\ (h * 60 + m) mod 60 = m.
Proof.
  intros Hm. split.
  - rewrite Z.add_comm, Z.div_add by lia. rewrite Z.div_small by lia. lia.
  - rewrite Z.add_comm, Z.mod_add by lia. apply Z.mod_small. lia.
Qed.

(** [minutes_to_time] inverts [time_to_minutes]: on the minutes of a day
    [0 .. 1439] one way, on every valid time with zero seconds the other
    way; outside the day it clamps to [00:00] and [23:59]. *)
Theorem minutes_to_time_roundtrip :
  (forall m, 0 <= m < 1440 -> time_to_minutes (minutes_to_time m) = m)
  /\ (forall h mi t0, py_time h mi 0 = Ok t0 -> minutes_to_time (time_to_minutes t0) = t0)
  /\ (forall m, m < 0 -> minutes_to_time m = mk_time 0 0 0)
  /\ (forall m, 1440 <= m -> minutes_to_time m = mk_time 23 59 0).
Proof.
  split; [|split; [|split]].
  - intros m Hm. unfold minutes_to_time, time_to_minutes.
    destruct (m <? 0) eqn:E1; [apply Z.ltb_lt in E1; lia|].
    destruct (24 * 60 <=? m) eqn:E2; [apply Z.leb_le in E2; lia|].
    cbn [hour minute]. pose proof (Z.div_mod m 60 ltac:(lia)). lia.
  - intros h mi t0 H. unfold py_time in H.
    destruct ((0 <=? h) && (h <? 24) && (0 <=? mi) && (mi <? 60) && (0 <=? 0) && (0 <? 60)) eqn:E;
      [|discriminate].
    injection H as <-. repeat rewrite andb_true_iff in E.
    destruct E as [[[[[E1 E2] E3] E4] _] _].
    apply Z.leb_le in E1, E3. apply Z.ltb_lt in E2, E4.
    unfold minutes_to_time, time_to_minutes. cbn [hour minute].
    destruct (h * 60 + mi <? 0) eqn:F1; [apply Z.ltb_lt in F1; lia|].
    destruct (24 * 60 <=? h * 60 + mi) eqn:F2; [apply Z.leb_le in F2; lia|].
    destruct (time_div_mod h mi ltac:(lia)) as [-> ->]. reflexivity.
  - intros m Hm. unfold minutes_to_time. destruct (m <? 0) eqn:E; [reflexivity|].
    apply Z.ltb_ge in E. lia.
  - intros m Hm. unfold minutes_to_time. destruct (m <? 0) eqn:E; [apply Z.ltb_lt in E; lia|].
    destruct (24 * 60 <=? m) eqn:E2; [reflexivity|]. apply Z.leb_gt in E2. lia.
Qed.

(** [date_range(start, end)] consumed to the end: empty when [end] is
    before [start]; otherwise the consecutive dates [start .. end] (the
    [i]-th is [start + i]), unless [end] is the last representable date,
    where the final increment raises [OverflowError]. *)
Theorem date_range_spec (start_date end_date : date) :
  (end_date < start_date -> date_range start_date end_date = Ok [])
  /\ (start_date <= end_date -> MAXORD <= end_date ->
        date_range start_date end_date = Err OverflowError)
  /\ (start_date <= end_date < MAXORD ->
        exists l, date_range start_date end_date = Ok l
          /\ length l = Z.to_nat (end_date - start_date + 1)
          /\ (forall i, (i < length l)%nat -> nth i l 0 = start_date + Z.of_nat i)
          /\ (forall d, In d l <-> start_date <= d <= end_date)).
Proof.
  unfold date_range. split; [|split].
  - intros H. destruct (start_date <=? end_date) eqn:E; [apply Z.leb_le in E; lia | reflexivity].
  - intros H1 H2. apply Z.leb_le in H1. rewrite H1.
    destruct (end_date <? MAXORD) eqn:E; [apply Z.ltb_lt in E; lia | reflexivity].
  - intros [H1 H2]. apply Z.leb_le in H1 as H1'. rewrite H1'. apply Z.ltb_lt in H2. rewrite H2.
    eexists; split; [reflexivity|]. unfold zseq. split; [|split].
    + rewrite length_map, length_seq. reflexivity.
    + intros i Hi. rewrite length_map, length_seq in Hi.
      rewrite (nth_indep _ 0 (start_date + Z.of_nat 0)) by (rewrite length_map, length_seq; exact Hi).
      pose proof (map_nth (fun k => start_date + Z.of_nat k)
                    (seq 0 (Z.to_nat (end_date - start_date + 1))) 0%nat i) as Hm.
      cbv beta in Hm. rewrite Hm, seq_nth by exact Hi. reflexivity.
    + intros d. rewrite in_map_iff. split.
      * intros [k [<- Hk]]. apply in_seq in Hk. lia.
      * intros Hd. exists (Z.to_nat (d - start_date)). split; [lia|]. apply in_seq. lia.
Qed.

Lemma fold_max_spec (l : list Z) (d : Z) :
  (fold_left Z.max l d = d \/ In (fold_left Z.max l d) l)
  /\ d <= fold_left Z.max l d /\ Forall (fun x => x <= fold_left Z.max l d) l.
Proof.
  revert d. induction l as [|x l IH]; intros d; cbn [fold_left].
  - split; [left; reflexivity | split; [lia | constructor]].
  - destruct (IH (Z.max d x)) as [Hin [Hle Hall]]. split; [|split].
    + destruct Hin as [E|E]; [rewrite E; destruct (Z.max_spec d x) as [[_ ->]|[_ ->]];
        [right; left; reflexivity | left; reflexivity] | right; right; exact E].
    + lia.
    + constructor; [lia | exact Hall].
Qed.

Lemma fold_min_spec (l : list Z) (d : Z) :
  (fold_left Z.min l d = d \/ In (fold_left Z.min l d) l)
  /\ fold_left Z.min l d <= d /\ Forall (fun x => fold_left Z.min l d <= x) l.
Proof.
  revert d. induction l as [|x l IH]; intros d; cbn [fold_left].
  - split; [left; reflexivity | split; [lia | constructor]].
  - destruct (IH (Z.min d x)) as [Hin [Hle Hall]]. split; [|split].
    + destruct Hin as [E|E]; [rewrite E; destruct (Z.min_spec d x) as [[_ ->]|[_ ->]];
        [left; reflexivity | right; left; reflexivity] | right; right; exact E].
    + lia.
    + constructor; [lia | exact Hall].
Qed.

(** [find_latest_date] and [find_earliest_date] return [None] exactly on
    the empty list, and otherwise a date of the list that is not before
    (resp. not after) any other date of it. *)
Theorem find_latest_earliest_spec (dates : list date) :
  (find_latest_date dates = None <-> dates = [])
  /\ (find_earliest_date dates = None <-> dates = [])
  /\ (forall m, find_latest_date dates = Some m -> In m dates /\ forall x, In x dates -> x <= m)
  /\ (forall m, find_earliest_date dates = Some m -> In m dates /\ forall x, In x dates -> m <= x).
Proof.
  destruct dates as [|d ds]; cbn [find_latest_date find_earliest_date].
  - split; [tauto | split; [tauto | split; intros m H; discriminate]].
  - split; [split; [discriminate | discriminate] | split; [split; [discriminate | discriminate]|split]].
    + intros m H. injection H as <-. destruct (fold_max_spec ds d) as [Hin [Hle Hall]].
      split; [destruct Hin as [E|E]; [left; symmetry; exact E | right; exact E]|].
      intros x [<-|Hx]; [exact Hle | rewrite List.Forall_forall in Hall; exact (Hall x Hx)].
    + intros m H. injection H as <-. destruct (fold_min_spec ds d) as [Hin [Hle Hall]].
      split; [destruct Hin as [E|E]; [left; symmetry; exact E | right; exact E]|].
      intros x [<-|Hx]; [exact Hle | rewrite List.Forall_forall in Hall; exact (Hall x Hx)].
Qed.

(** [get_day_name] never raises, advances with a period of seven days, and
    names a Saturday or a Sunday exactly on the dates [is_weekend] accepts;
    [is_weekday] is the negation of [is_weekend]. *)
Theorem day_name_weekend (d : date) :
  (exists name, get_day_name d = Some name)
  /\ get_day_name (d + 7) = get_day_name d
  /\ (is_weekend d = true <-> get_day_name d = Some "Saturday"%string \/ get_day_name d = Some "Sunday"%string)
  /\ is_weekday d = negb (is_weekend d).
Proof.
  assert (Hw : weekday (d + 7) = weekday d).
  { unfold weekday. replace (d + 7 + 6) with (d + 6 + 1 * 7) by lia. apply Z.mod_add. lia. }
  unfold get_day_name, is_weekend, is_weekday. rewrite Hw.
  pose proof (Z.mod_pos_bound (d + 6) 7 ltac:(lia)) as Hb. unfold weekday.
  generalize dependent ((d + 6) mod 7). intros w Hb.
  assert (Hc : w = 0 \/ w = 1 \/ w = 2 \/ w = 3 \/ w = 4 \/ w = 5 \/ w = 6) by lia.
  destruct Hc as [->|[->|[->|[->|[->|[->| ->]]]]]]; cbn;
    (split; [eexists; reflexivity | split; [reflexivity | split; [|reflexivity]]]);
    split; intros H;
    first [ discriminate | (left; reflexivity) | (right; reflexivity) | reflexivity
          | (destruct H as [H|H]; discriminate) ].
Qed.

Lemma stdpp_filter_bool {A : Type} (f : A -> bool) (l : list A) :
  filter f l = List.filter f l.
Proof.
  induction l as [|x l IH]; [reflexivity|].
  rewrite filter_cons. cbn [List.filter]. destruct (f x) eqn:E; case_decide as Hd;
    [rewrite IH; reflexivity | exfalso; apply Hd; exact I | destruct Hd | exact IH].
Qed.

Definition slot_minutes (sl : TimeSlot.t) : Z :=
  (hour (TimeSlot.end_time sl) * 60 + minute (TimeSlot.end_time sl))
  - (hour (TimeSlot.start_time sl) * 60 + minute (TimeSlot.start_time sl)).

Lemma add_slots_acc (sls : list TimeSlot.t) (ds : DaySchedule.t) :
  let ds' := fold_left DaySchedule.add_slot sls ds in
  DaySchedule.date ds' = DaySchedule.date ds
  /\ DaySchedule.slots ds' = DaySchedule.slots ds ++ sls
  /\ DaySchedule.total_study_minutes ds'
     = DaySchedule.total_study_minutes ds
       + sum_Z (map slot_minutes (List.filter (fun sl => negb (TimeSlot.is_break sl)) sls))
  /\ DaySchedule.subjects_covered ds'
     = DaySchedule.subjects_covered ds
       ∪ list_to_set (map TimeSlot.subject (List.filter (fun sl => negb (TimeSlot.is_break sl)) sls)).
Proof.
  revert ds. induction sls as [|x r IH]; intros ds; cbn zeta.
  - cbn. rewrite app_nil_r. split; [reflexivity | split; [reflexivity | split; [lia | set_solver]]].
  - cbn [fold_left]. destruct (IH (DaySchedule.add_slot ds x)) as [H1 [H2 [H3 H4]]].
    rewrite H1, H2, H3, H4. unfold DaySchedule.add_slot.
    cbn [List.filter]. destruct (TimeSlot.is_break x) eqn:Eb; cbn.
    + rewrite <- app_assoc. split; [reflexivity | split; [reflexivity | split; reflexivity]].
    + rewrite <- app_assoc. unfold slot_minutes at 2.
      split; [reflexivity | split; [reflexivity | split; [unfold sum_Z; lia | set_solver]]].
Qed.

(** A day schedule built from [DaySchedule(date=d)] by [add_slot] calls
    keeps every slot in order; its studied minutes are the summed lengths
    of the non-break slots, its covered subjects are their subjects, and
    [get_session_count] counts them: break slots add nothing. *)
Theorem day_schedule_add_slots (d : date) (sls : list TimeSlot.t) :
  let ds := fold_left DaySchedule.add_slot sls (DaySchedule.new d) in
  DaySchedule.date ds = d
  /\ DaySchedule.slots ds = sls
  /\ DaySchedule.total_study_minutes ds
     = sum_Z (map slot_minutes (List.filter (fun sl => negb (TimeSlot.is_break sl)) sls))
  /\ DaySchedule.subjects_covered ds
     = list_to_set (map TimeSlot.subject (List.filter (fun sl => negb (TimeSlot.is_break sl)) sls))
  /\ DaySchedule.get_session_count ds
     = length (List.filter (fun sl => negb (TimeSlot.is_break sl)) sls).
Proof.
  cbn zeta. destruct (add_slots_acc sls (DaySchedule.new d)) as [H1 [H2 [H3 H4]]].
  cbn zeta in H1, H2, H3, H4. unfold DaySchedule.get_session_count.
  rewrite H1, H2, H3, H4, stdpp_filter_bool. cbn.
  split; [reflexivity | split; [reflexivity | split; [lia | split; [set_solver | reflexivity]]]].
Qed.

(** A session accepted by [can_fit_session] and then allocated leaves no
    negative remaining minutes, stays within the session limit, grows the
    subject set at most up to the subject limit, and the day then refuses
    any further session of the same topic (no back-to-back topic). The
    session count is the one a [DayCapacity] starts from or above: [0]. *)
Theorem can_fit_then_allocate (cap : DayCapacity.t) (m : Z) (subj top : string) (ms : Z) :
  0 <= DayCapacity.sessions_used cap ->
  DayCapacity.can_fit_session cap m subj top ms = true ->
  let cap' := DayCapacity.allocate cap m subj top in
  DayCapacity.available_minutes cap' = DayCapacity.available_minutes cap - m
  /\ 0 <= DayCapacity.available_minutes cap'
  /\ DayCapacity.sessions_used cap' = DayCapacity.sessions_used cap + 1
  /\ DayCapacity.sessions_used cap' <= DayCapacity.max_sessions cap'
  /\ Z.of_nat (size (DayCapacity.subjects_used cap'))
     <= Z.max (Z.of_nat (size (DayCapacity.subjects_used cap))) ms
  /\ (forall m' subj' ms', DayCapacity.can_fit_session cap' m' subj' top ms' = false).
Proof.
  intros H0 H. pose proof (can_fit_spec cap m subj top ms H) as [Hm Hs].
  unfold DayCapacity.can_fit_session in H.
  destruct (DayCapacity.available_minutes cap <? m); [discriminate|].
  destruct (DayCapacity.max_sessions cap <=? DayCapacity.sessions_used cap) eqn:Ems; [discriminate|].
  apply Z.leb_gt in Ems. cbn zeta. unfold DayCapacity.allocate; cbn [DayCapacity.available_minutes
    DayCapacity.sessions_used DayCapacity.max_sessions DayCapacity.subjects_used DayCapacity.last_topic].
  split; [reflexivity | split; [lia | split; [reflexivity | split; [lia | split]]]].
  - destruct Hs as [Hin | Hlt].
    + rewrite (subseteq_union_1_L {[subj]} (DayCapacity.subjects_used cap)) by set_solver. lia.
    + destruct (decide (subj ∈ DayCapacity.subjects_used cap)) as [Hin | Hn].
      * rewrite (subseteq_union_1_L {[subj]} (DayCapacity.subjects_used cap)) by set_solver. lia.
      * rewrite size_union by set_solver. rewrite size_singleton. lia.
  - intros m' subj' ms'. unfold DayCapacity.can_fit_session; cbn [DayCapacity.available_minutes
      DayCapacity.sessions_used DayCapacity.max_sessions DayCapacity.subjects_used DayCapacity.last_topic].
    rewrite String.eqb_refl.
    destruct (DayCapacity.available_minutes cap - m <? m'); [reflexivity|].
    destruct (DayCapacity.max_sessions cap <=? DayCapacity.sessions_used cap + 1); [reflexivity|].
    assert (Hp : (0 <? DayCapacity.sessions_used cap + 1) = true) by (apply Z.ltb_lt; lia).
    rewrite Hp. destruct (negb (bool_decide (subj' ∈ _)) && _); reflexivity.
Qed.

Lemma can_fit_then_allocate_witness :
  0 <= DayCapacity.sessions_used sample_capacity
  /\ DayCapacity.can_fit_session sample_capacity 45 "Math" "Limits" 3 = true
  /\ let cap' := DayCapacity.allocate sample_capacity 45 "Math" "Limits" in
     DayCapacity.available_minutes cap' = DayCapacity.available_minutes sample_capacity - 45
     /\ 0 <= DayCapacity.available_minutes cap'
     /\ DayCapacity.sessions_used cap' = DayCapacity.sessions_used sample_capacity + 1
     /\ DayCapacity.sessions_used cap' <= DayCapacity.max_sessions cap'
     /\ Z.of_nat (size (DayCapacity.subjects_used cap'))
        <= Z.max (Z.of_nat (size (DayCapacity.subjects_used sample_capacity))) 3
     /\ (forall m' subj' ms', DayCapacity.can_fit_session cap' m' subj' "Limits" ms' = false).
Proof.
  split; [cbn; lia|]. split; [vm_compute; reflexivity|].
  apply (can_fit_then_allocate sample_capacity 45 "Math" "Limits" 3); [cbn; lia | vm_compute; reflexivity].
Defined.

Lemma clamp_R_bounds (v lo hi : R) : (lo <= hi)%R -> (lo <= clamp_R v lo hi <= hi)%R.
Proof.
  intros H. unfold clamp_R. split; [apply Rmax_l|].
  apply Rmax_lub; [exact H | apply Rmin_l].
Qed.

(** Whatever the weights, [calculate_score_with_breakdown] gives a total
    in [0, 1], a priority component in [0.1, 1], difficulty and
    confidence components in [0, 1], a type bonus in [0.02, 0.15], and
    the signed number of days to the deadline. *)
Theorem score_components_bounded (weights : Scoring.ScoreWeights) (task : StudyTask.t)
    (current_date : date) (h : Z) :
  let b := Scoring.calculate_score_with_breakdown weights task current_date h in
  (0 <= Scoring.total_score b <= 1)%R
  /\ (1 / 10 <= Scoring.priority_component b <= 1)%R
  /\ (0 <= Scoring.difficulty_component b <= 1)%R
  /\ (0 <= Scoring.confidence_component b <= 1)%R
  /\ (2 / 100 <= Scoring.type_component b <= 15 / 100)%R
  /\ Scoring.days_until_deadline b = StudyTask.deadline task - current_date.
Proof.
  cbn zeta. unfold Scoring.calculate_score_with_breakdown. cbn [Scoring.total_score
    Scoring.priority_component Scoring.difficulty_component Scoring.confidence_component
    Scoring.type_component Scoring.days_until_deadline].
  split; [apply clamp_R_bounds; lra|]. split.
  { unfold Scoring._calculate_priority_component.
    pose proof (clamp_R_bounds (IZR (StudyTask.priority task)) 1 10 ltac:(lra)). lra. }
  split; [unfold Scoring._calculate_difficulty_component; apply clamp_R_bounds; lra|].
  split.
  { unfold Scoring._calculate_confidence_component.
    pose proof (clamp_R_bounds (Q2R (StudyTask.confidence_score task)) 0 1 ltac:(lra)). lra. }
  split; [|reflexivity].
  unfold Scoring._calculate_type_component, Scoring.TYPE_BONUSES.
  destruct (StudyTask.task_type task); lra.
Qed.

Lemma find_app {A : Type} (f : A -> bool) (l1 l2 : list A) :
  List.find f (l1 ++ l2) = match List.find f l1 with Some x => Some x | None => List.find f l2 end.
Proof.
  induction l1 as [|x l IH]; [reflexivity|]. cbn. destruct (f x); [reflexivity | exact IH].
Qed.

Lemma urgency_batch_fold (tasks : list StudyTask.t) (cd : date) (w : Scoring.ScoreWeights) (h : Z)
    (m : gmap string R) (k : string) :
  fold_left (fun m task =>
               <[StudyTask.task_id task := Scoring.calculate_score w task cd h]> m) tasks m !! k
  = match List.find (fun t => String.eqb (StudyTask.task_id t) k) (rev tasks) with
    | Some t => Some (Scoring.calculate_score w t cd h)
    | None => m !! k
    end.
Proof.
  revert m. induction tasks as [|x l IH]; intros m; [reflexivity|].
  cbn [fold_left rev]. rewrite IH, find_app. cbn [List.find].
  destruct (List.find (fun t => String.eqb (StudyTask.task_id t) k) (rev l)); [reflexivity|].
  destruct (String.eqb_spec (StudyTask.task_id x) k) as [<-|Hne].
  - apply lookup_insert_eq.
  - rewrite lookup_insert_ne by congruence. reflexivity.
Qed.

(** [compute_task_urgency_batch] maps an id to the score of the last task
    carrying it (a later duplicate overwrites an earlier one), and has no
    entry for an id no task carries. *)
Theorem urgency_batch_last_wins (tasks : list StudyTask.t) (current_date : date)
    (weights : option Scoring.ScoreWeights) (h : Z) (k : string) :
  Scoring.compute_task_urgency_batch tasks current_date weights h !! k
  = option_map (fun t => Scoring.calculate_score (get weights Scoring.default_weights) t current_date h)
      (List.find (fun t => String.eqb (StudyTask.task_id t) k) (rev tasks)).
Proof.
  unfold Scoring.compute_task_urgency_batch. rewrite urgency_batch_fold.
  destruct weights; destruct (List.find _ (rev tasks)); reflexivity.
Qed.

Lemma py_int_of_zero_times (b : Q) : py_int_of_Q (inject_Z 0 * b) = 0.
Proof. destruct b as [n d]. reflexivity. Qed.

(** In a capacity map built by [build_capacity_map], a date listed in
    [excluded_dates] has zero total and zero available minutes, and
    [can_fit_session] refuses it every session of positive length. *)
Theorem excluded_date_no_capacity (av : DailyAvailability.t) (pr : StudyPreferences.t)
    (start_date end_date : date) (cm : gmap Z DayCapacity.t) (d : date) (cap : DayCapacity.t) :
  CapacityPlanner.build_capacity_map av pr start_date end_date = Ok cm ->
  In d (DailyAvailability.excluded_dates av) ->
  cm !! d = Some cap ->
  DayCapacity.total_minutes cap = 0 /\ DayCapacity.available_minutes cap = 0
  /\ forall m subj top ms, 0 < m -> DayCapacity.can_fit_session cap m subj top ms = false.
Proof.
  intros Hb Hin Hl. rewrite (build_capacity_map_lookup _ _ _ _ _ _ _ Hb Hl).
  assert (He : DailyAvailability.get_hours_for_date av d = 0%Q).
  { unfold DailyAvailability.get_hours_for_date.
    replace (existsb (Z.eqb d) (DailyAvailability.excluded_dates av)) with true; [reflexivity|].
    symmetry. apply existsb_exists. exists d. split; [exact Hin | apply Z.eqb_refl]. }
  unfold CapacityPlanner.day_capacity. rewrite He.
  change (hours_to_minutes 0) with 0. rewrite py_int_of_zero_times.
  cbn [DayCapacity.total_minutes DayCapacity.available_minutes].
  split; [reflexivity | split; [reflexivity|]].
  intros m subj top ms Hm. unfold DayCapacity.can_fit_session.
  cbn [DayCapacity.available_minutes]. replace (0 - 0 <? m) with true; [reflexivity|].
  symmetry. apply Z.ltb_lt. lia.
Qed.

Lemma excluded_date_no_capacity_witness :
  exists cm cap,
    CapacityPlanner.build_capacity_map one_excluded_availability default_study_preferences
      738900 738902 = Ok cm
    /\ In 738901 (DailyAvailability.excluded_dates one_excluded_availability)
    /\ cm !! 738901 = Some cap
    /\ DayCapacity.total_minutes cap = 0 /\ DayCapacity.available_minutes cap = 0
    /\ forall m subj top ms, 0 < m -> DayCapacity.can_fit_session cap m subj top ms = false.
Proof.
  destruct (CapacityPlanner.build_capacity_map one_excluded_availability default_study_preferences
              738900 738902) as [cm|e] eqn:E; [|vm_compute in E; discriminate].
  destruct (cm !! 738901) as [cap|] eqn:El;
    [|vm_compute in E; injection E as <-; vm_compute in El; discriminate].
  exists cm, cap. split; [reflexivity|]. split; [cbn; left; reflexivity|]. split; [exact El|].
  apply (excluded_date_no_capacity one_excluded_availability default_study_preferences
           738900 738902 cm 738901 cap E); [cbn; left; reflexivity | exact El].
Defined.

(** [handle_missed_session] returns the timetable unchanged when no task
    carries the id. Otherwise it marks the first task with that id
    [MISSED], keeps every other task, appends one [PENDING] clone with id
    [<id>_reschedule], priority [min(10, p + 1)], the missed task as
    parent and no date, and appends one warning dated [current_date] that
    names both ids; the schedule is not touched. *)
Theorem handle_missed_session_spec (timetable : TimetableOutput.t) (task_id : string)
    (current_date : date) :
  (Forall (fun t => StudyTask.task_id t <> task_id) (TimetableOutput.tasks timetable) ->
     handle_missed_session timetable task_id current_date = timetable)
  /\ (forall i task,
        TimetableOutput.tasks timetable !! i = Some task -> StudyTask.task_id task = task_id ->
        (forall j t', TimetableOutput.tasks timetable !! j = Some t' -> (j < i)%nat ->
           StudyTask.task_id t' <> task_id) ->
        let out := handle_missed_session timetable task_id current_date in
        length (TimetableOutput.tasks out) = S (length (TimetableOutput.tasks timetable))
        /\ (forall j, j <> i -> (j < length (TimetableOutput.tasks timetable))%nat ->
              TimetableOutput.tasks out !! j = TimetableOutput.tasks timetable !! j)
        /\ (exists t', TimetableOutput.tasks out !! i = Some t'
              /\ StudyTask.status t' = MISSED /\ StudyTask.task_id t' = task_id)
        /\ (exists r, TimetableOutput.tasks out !! length (TimetableOutput.tasks timetable) = Some r
              /\ StudyTask.task_id r = append task_id "_reschedule"
              /\ StudyTask.status r = PENDING
              /\ StudyTask.priority r = Z.min 10 (StudyTask.priority task + 1)
              /\ StudyTask.parent_task_id r = Some task_id
              /\ StudyTask.scheduled_date r = None
              /\ StudyTask.required_minutes r = StudyTask.required_minutes task
              /\ StudyTask.deadline r = StudyTask.deadline task)
        /\ TimetableOutput.schedule out = TimetableOutput.schedule timetable
        /\ (exists w, TimetableOutput.warnings out = TimetableOutput.warnings timetable ++ [w]
              /\ CapacityWarning.date w = current_date
              /\ CapacityWarning.affected_tasks w = [task_id; append task_id "_reschedule"])).
Proof.
  split.
  - intros Hno. unfold handle_missed_session.
    replace (list_find _ _) with (@None (nat * StudyTask.t)); [reflexivity|].
    symmetry. apply list_find_None. exact Hno.
  - intros i task Hi Hid Hfirst. cbn zeta. unfold handle_missed_session.
    replace (list_find _ _) with (Some (i, task));
      [|symmetry; apply list_find_Some; split; [exact Hi | split; [exact Hid|]];
        intros j y Hj Hlt; exact (Hfirst j y Hj Hlt)].
    cbn [TimetableOutput.tasks TimetableOutput.schedule TimetableOutput.warnings].
    assert (Hlt : (i < length (TimetableOutput.tasks timetable))%nat)
      by (apply lookup_lt_Some in Hi; exact Hi).
    split; [rewrite length_app, length_insert; cbn; lia|].
    split.
    { intros j Hj Hjl. rewrite lookup_app_l by (rewrite length_insert; exact Hjl).
      apply list_lookup_insert_ne. congruence. }
    split.
    { exists (StudyTask.mark_missed task).
      rewrite lookup_app_l by (rewrite length_insert; exact Hlt).
      rewrite list_lookup_insert. rewrite decide_True by (split; [reflexivity | exact Hlt]).
      split; [reflexivity | split; [reflexivity | exact Hid]]. }
    split.
    { eexists. rewrite lookup_app_r by (rewrite length_insert; lia).
      rewrite length_insert, Nat.sub_diag. split; [reflexivity|].
      cbn. rewrite Hid. repeat split; reflexivity. }
    split; [reflexivity|].
    eexists. split; [reflexivity|]. split; reflexivity.
Qed.

Section UpdateConfidence.
Variable topic_id : string.
Variable nc : Q.

Let matches (t : StudyTask.t) : Prop := StudyTask.source_topic_id t = Some topic_id.
Let upd (t : StudyTask.t) : StudyTask.t :=
  if bool_decide (StudyTask.source_topic_id t = Some topic_id)
  then StudyTask.with_confidence t nc else t.

Lemma update_loop_none (l : list StudyTask.t) :
  Forall (fun t => matches t -> ~ (nc < StudyTask.confidence_score t - (2 # 10))%Q) l ->
  update_confidence_loop topic_id nc l = (map upd l, []).
Proof.
  induction l as [|x l IH]; intros Hall; [reflexivity|].
  inversion Hall as [|? ? Hx Hl]; subst. cbn [update_confidence_loop map]. unfold upd at 1.
  rewrite (IH Hl). case_bool_decide as Hm; [|reflexivity].
  destruct (Qltb nc (StudyTask.confidence_score x - (2 # 10))) eqn:E; [|reflexivity].
  apply Qltb_iff in E. exfalso. exact (Hx Hm E).
Qed.

Lemma update_loop_some (pre post : list StudyTask.t) (t : StudyTask.t) :
  Forall (fun t => matches t -> ~ (nc < StudyTask.confidence_score t - (2 # 10))%Q) pre ->
  matches t -> (nc < StudyTask.confidence_score t - (2 # 10))%Q ->
  exists r, update_confidence_loop topic_id nc (pre ++ t :: post)
            = (map upd pre ++ StudyTask.with_confidence t nc :: post, [r])
    /\ StudyTask.task_id r = append (StudyTask.task_id t) "_confidence_revision"
    /\ StudyTask.required_minutes r = Z.max 15 (StudyTask.required_minutes t / 2)
    /\ StudyTask.priority r = Z.min 10 (StudyTask.priority t + 2)
    /\ StudyTask.confidence_score r = nc
    /\ StudyTask.status r = PENDING /\ StudyTask.task_type r = REVISION
    /\ StudyTask.parent_task_id r = Some (StudyTask.task_id t)
    /\ StudyTask.source_topic_id r = Some topic_id
    /\ StudyTask.deadline r = StudyTask.deadline t.
Proof.
  intros Hpre Hm Hd. induction pre as [|x pre IH].
  - cbn [app update_confidence_loop map]. rewrite bool_decide_eq_true_2 by exact Hm.
    apply Qltb_iff in Hd. rewrite Hd. eexists. split; [reflexivity|].
    repeat split; reflexivity.
  - inversion Hpre as [|? ? Hx Hl]; subst.
    destruct (IH Hl) as [r [Heq Hr]]. exists r. split; [|exact Hr].
    cbn [app update_confidence_loop map].
    change (upd x) with (if bool_decide (StudyTask.source_topic_id x = Some topic_id)
                         then StudyTask.with_confidence x nc else x).
    rewrite Heq. destruct (bool_decide (StudyTask.source_topic_id x = Some topic_id)) eqn:Eb;
      [|reflexivity].
    apply bool_decide_eq_true in Eb.
    destruct (Qltb nc (StudyTask.confidence_score x - (2 # 10))) eqn:E; [|reflexivity].
    apply Qltb_iff in E. exfalso. exact (Hx Eb E).
Qed.
End UpdateConfidence.

(** [update_confidence] clamps the new confidence [c] to [0, 1] giving
    [nc]. If no task of the topic would drop by more than 0.2, every task
    of the topic gets [nc], the others are unchanged and no revision is
    returned. Otherwise, at the first such task [t] the loop stops: the
    tasks before it are updated as above, [t] gets [nc], every task after
    it is left unchanged (even one of the topic), and exactly one revision
    task is returned: id [<t.id>_confidence_revision],
    [max(15, required // 2)] minutes, priority [min(10, p + 2)],
    confidence [nc], [PENDING], type [REVISION], parent [t]. *)
Theorem update_confidence_spec (timetable : TimetableOutput.t) (topic_id : string) (c : Q) :
  let nc := clamp_Q c 0 1 in
  let upd := fun t => if bool_decide (StudyTask.source_topic_id t = Some topic_id)
                      then StudyTask.with_confidence t nc else t in
  let drops := fun t => StudyTask.source_topic_id t = Some topic_id
                        /\ (nc < StudyTask.confidence_score t - (2 # 10))%Q in
  let res := update_confidence timetable topic_id c in
  (0 <= nc <= 1)%Q
  /\ TimetableOutput.schedule (fst res) = TimetableOutput.schedule timetable
  /\ TimetableOutput.warnings (fst res) = TimetableOutput.warnings timetable
  /\ (Forall (fun t => ~ drops t) (TimetableOutput.tasks timetable) ->
        TimetableOutput.tasks (fst res) = map upd (TimetableOutput.tasks timetable) /\ snd res = [])
  /\ (forall pre t post, TimetableOutput.tasks timetable = pre ++ t :: post ->
        Forall (fun t => ~ drops t) pre -> drops t ->
        TimetableOutput.tasks (fst res) = map upd pre ++ StudyTask.with_confidence t nc :: post
        /\ exists r, snd res = [r]
           /\ StudyTask.task_id r = append (StudyTask.task_id t) "_confidence_revision"
           /\ StudyTask.required_minutes r = Z.max 15 (StudyTask.required_minutes t / 2)
           /\ StudyTask.priority r = Z.min 10 (StudyTask.priority t + 2)
           /\ StudyTask.confidence_score r = nc
           /\ StudyTask.status r = PENDING /\ StudyTask.task_type r = REVISION
           /\ StudyTask.parent_task_id r = Some (StudyTask.task_id t)).
Proof.
  cbn zeta. unfold update_confidence.
  split.
  { unfold clamp_Q. split; [apply Q.le_max_l|]. apply Q.max_lub; [discriminate | apply Q.le_min_l]. }
  split; [destruct (update_confidence_loop _ _ _); reflexivity|].
  split; [destruct (update_confidence_loop _ _ _); reflexivity|].
  split.
  - intros Hall. rewrite update_loop_none; [split; reflexivity|].
    eapply List.Forall_impl; [|exact Hall]. intros t Hn Hm Hd. exact (Hn (conj Hm Hd)).
  - intros pre t post -> Hpre [Hm Hd].
    destruct (update_loop_some topic_id (clamp_Q c 0 1) pre post t) as [r [Heq Hr]];
      [eapply List.Forall_impl; [|exact Hpre]; intros x Hn Hmx Hdx; exact (Hn (conj Hmx Hdx))
      | exact Hm | exact Hd |].
    rewrite Heq. cbn [fst snd TimetableOutput.tasks]. split; [reflexivity|].
    exists r. split; [reflexivity|].
    destruct Hr as [H1 [H2 [H3 [H4 [H5 [H6 [H7 _]]]]]]]. repeat split; assumption.
Qed.

Lemma capacity_sum_insert (m : gmap Z DayCapacity.t) (k : Z) (v v' : DayCapacity.t) :
  m !! k = Some v ->
  CapacityPlanner.get_remaining_capacity (<[k := v']> m)
  = CapacityPlanner.get_remaining_capacity m - DayCapacity.available_minutes v
    + DayCapacity.available_minutes v'.
Proof.
  intros Hk. unfold CapacityPlanner.get_remaining_capacity.
  rewrite <- (insert_delete_id m k v Hk) at 2. rewrite <- (insert_delete_eq m k v').
  rewrite !map_fold_insert_L by (try (intros; lia); apply lookup_delete_eq).
  lia.
Qed.

(** Placing a task with [_add_task_to_schedule] on a day of the capacity
    map lowers [get_remaining_capacity] by exactly the task's minutes; and
    [get_total_capacity] reports that same remaining figure, not the
    original total. *)
Theorem remaining_capacity_after_placement (self : TimetableScheduler.t) (idx : nat)
    (task : StudyTask.t) (cap : DayCapacity.t) (d : date) (s s' : State) (u : unit) :
  capacity_map s !! d = Some cap ->
  _add_task_to_schedule self idx task cap d s = Ok (u, s') ->
  CapacityPlanner.get_remaining_capacity (capacity_map s')
  = CapacityPlanner.get_remaining_capacity (capacity_map s) - StudyTask.required_minutes task
  /\ CapacityPlanner.get_total_capacity (capacity_map s')
     = CapacityPlanner.get_remaining_capacity (capacity_map s').
Proof.
  intros Hc H. unfold _add_task_to_schedule in H.
  destruct (schedule s !! d) as [ds|]; [|discriminate].
  injection H as _ <-. cbn [capacity_map]. split; [|reflexivity].
  rewrite (capacity_sum_insert _ _ _ _ Hc). cbn. lia.
Qed.

Lemma remaining_capacity_after_placement_witness :
  exists u s',
    capacity_map one_day_state !! 738900 = Some sample_capacity
    /\ _add_task_to_schedule one_topic_scheduler 0 sample_task sample_capacity 738900 one_day_state
       = Ok (u, s')
    /\ CapacityPlanner.get_remaining_capacity (capacity_map s')
       = CapacityPlanner.get_remaining_capacity (capacity_map one_day_state)
         - StudyTask.required_minutes sample_task
    /\ CapacityPlanner.get_total_capacity (capacity_map s')
       = CapacityPlanner.get_remaining_capacity (capacity_map s').
Proof.
  destruct (_add_task_to_schedule one_topic_scheduler 0 sample_task sample_capacity 738900
              one_day_state) as [[u s']|e] eqn:E; [|vm_compute in E; discriminate].
  exists u, s'. split; [reflexivity|]. split; [reflexivity|].
  exact (remaining_capacity_after_placement one_topic_scheduler 0 sample_task sample_capacity
           738900 one_day_state s' u eq_refl E).
Defined.

Lemma fold_snoc_Forall {A B : Type} (ok : A -> Prop) (F : list A * Z -> B -> list A * Z)
    (l : list B) :
  (forall ts c i, exists a c', F (ts, c) i = (ts ++ [a], c') /\ ok a) ->
  forall ts c, Forall ok ts -> Forall ok (fst (fold_left F l (ts, c))).
Proof.
  intros HF. induction l as [|i l IH]; intros ts c Hts; [exact Hts|].
  simpl. destruct (HF ts c i) as [a [c' [-> Ha]]]. apply IH.
  apply Forall_app. split; [exact Hts | constructor; [exact Ha | constructor]].
Qed.

Lemma decompose_event_pending (L c : Z) (event : FixedEvent.t) :
  Forall (fun tk => StudyTask.status tk = PENDING) (fst (TaskDecomposer.decompose_event L c event)).
Proof.
  unfold TaskDecomposer.decompose_event. apply fold_snoc_Forall; [|constructor].
  intros ts c0 i. simpl. destruct (TaskDecomposer._next_task_id "event" c0) as [tid c'].
  eexists _, _. split; reflexivity.
Qed.

Lemma decompose_topic_pending (L c : Z) (topic : LearningTopic.t) (deadline : date) :
  Forall (fun tk => StudyTask.status tk = PENDING)
         (fst (TaskDecomposer.decompose_topic L c topic deadline)).
Proof.
  unfold TaskDecomposer.decompose_topic. apply fold_snoc_Forall; [|constructor].
  intros ts c0 i. simpl. destruct (TaskDecomposer._next_task_id "topic" c0) as [tid c'].
  eexists _, _. split; reflexivity.
Qed.

Lemma decompose_all_pending_ok (self : TimetableScheduler.t) (ok : StudyTask.t -> Prop)
    (e : date) (s s' : State) (u : unit) :
  (forall tk, StudyTask.status tk = PENDING -> ok tk) ->
  Forall ok (tasks s) -> _decompose_all self e s = Ok (u, s') -> Forall ok (tasks s').
Proof.
  intros Hok Ht H. unfold _decompose_all in H.
  pose proof (fold_append_tasks_ok ok
                (fun c ev => TaskDecomposer.decompose_event
                               (StudyPreferences.session_length_minutes (preferences self)) c ev)
                (fun _ => True) (events self) (tasks s) (task_counter s)
                (proj2 (List.Forall_forall _ _) (fun _ _ => I))
                (fun c ev _ => List.Forall_impl _ Hok (decompose_event_pending _ c ev)) Ht) as H1.
  cbv beta in H1.
  destruct (fold_left _ (events self) (tasks s, task_counter s)) as [ts1 c1]. simpl in H1.
  pose proof (fold_append_tasks_ok ok
                (fun c tp => TaskDecomposer.decompose_topic
                               (StudyPreferences.session_length_minutes (preferences self)) c tp
                               (topic_deadline self e))
                (fun _ => True) (topics self) ts1 c1
                (proj2 (List.Forall_forall _ _) (fun _ _ => I))
                (fun c tp _ => List.Forall_impl _ Hok (decompose_topic_pending _ c tp _)) H1) as H3.
  cbv beta in H3.
  destruct (fold_left _ (topics self) (ts1, c1)) as [ts2 c2]. simpl in H3.
  injection H as _ <-. exact H3.
Qed.

(** The shape of a successful [generate()]: the last phase is
    [_check_completeness], and the output is read off its final state. *)
Lemma generate_last_step (self : TimetableScheduler.t) (out : TimetableOutput.t) :
  generate self = Ok out ->
  exists e s,
    _check_completeness s = Ok (tt, set_warnings s (TimetableOutput.warnings out))
    /\ out = TimetableOutput.mk (schedule s) (tasks s) (TimetableOutput.warnings out)
               (TimetableOutput.mkMetadata (current_date self) e (length (tasks s))
                  (length (filter (fun tk => TaskStatus_eqb (StudyTask.status tk) SCHEDULED)
                                  (tasks s)))
                  (length (events self)) (length (topics self))).
Proof.
  intros H. unfold generate in H.
  destruct (_determine_horizon self) as [e|] eqn:Eh; [|discriminate]. cbn [bind_r] in H.
  unfold bind at 1 in H.
  destruct (_decompose_all self e initial_state) as [[u1 s1]|] eqn:E1; [|discriminate].
  unfold bind at 1, lift at 1 in H.
  destruct (CapacityPlanner.build_capacity_map (availability self) (preferences self)
              (current_date self) e) as [cm|] eqn:Ecm; [|discriminate].
  unfold bind at 1 in H. unfold bind at 1 in H.
  destruct (_initialize_schedule (current_date self) e (set_capacity_map s1 cm))
    as [[u3 s3]|] eqn:E3; [|discriminate].
  unfold bind at 1 in H.
  destruct (_schedule_tasks self e s3) as [[u4 s4]|] eqn:E4; [|discriminate].
  unfold bind at 1 in H.
  destruct (_add_spaced_repetition self e s4) as [[u5 s5]|] eqn:E5; [|discriminate].
  exists e, s5. unfold _check_completeness in H |- *. injection H as <-. simpl.
  split; reflexivity.
Qed.

Lemma filter_length_partition {A : Type} (f g : A -> bool) (l : list A) :
  Forall (fun x => f x = true \/ g x = true) l -> Forall (fun x => f x = false \/ g x = false) l ->
  (length (List.filter f l) + length (List.filter g l) = length l)%nat.
Proof.
  induction l as [|x l IH]; intros H1 H2; [reflexivity|].
  inversion H1 as [|? ? Hx H1']; inversion H2 as [|? ? Hx' H2']; subst. simpl.
  destruct (f x), (g x); simpl; destruct Hx, Hx'; try discriminate;
    rewrite <- (IH H1' H2'); lia.
Qed.

(** Every task of a successful [generate()] output is [PENDING] or
    [SCHEDULED] (no phase marks a task in progress, completed, missed or
    rescheduled), so [get_scheduled_tasks()] and [get_unscheduled_tasks()]
    split the task list, and the metadata counts [total_tasks] and
    [scheduled_tasks] match them. *)
Theorem generate_task_statuses (self : TimetableScheduler.t) (out : TimetableOutput.t)
    (Hgen : generate self = Ok out) :
  Forall (fun tk => StudyTask.status tk = PENDING \/ StudyTask.status tk = SCHEDULED)
         (TimetableOutput.tasks out)
  /\ (length (TimetableOutput.get_scheduled_tasks out)
      + length (TimetableOutput.get_unscheduled_tasks out)
      = TimetableOutput.total_tasks (TimetableOutput.metadata out))%nat
  /\ TimetableOutput.scheduled_tasks (TimetableOutput.metadata out)
     = length (TimetableOutput.get_scheduled_tasks out).
Proof.
  set (ok := fun tk => StudyTask.status tk = PENDING \/ StudyTask.status tk = SCHEDULED).
  assert (Hst : Forall ok (TimetableOutput.tasks out)).
  { destruct (generate_invariant self (fun s => Forall ok (tasks s)) ok)
      with (out := out) as [s [HP [_ ->]]]; [| | | | | | | | | | | exact HP].
    - intros s ws HP. exact HP.
    - intros s c HP. exact HP.
    - intros s tk HP Hk. apply Forall_app. split; [exact HP | constructor; [exact Hk | constructor]].
    - intros s HP. exact HP.
    - intros c src d i. unfold TaskDecomposer.create_revision_task.
      destruct (TaskDecomposer._next_task_id "revision" c). left. reflexivity.
    - intros s s' idx task cap d u HP Hk Ec Hf Ha.
      unfold _add_task_to_schedule in Ha. destruct (schedule s !! d) as [ds|]; [|discriminate].
      injection Ha as _ <-. simpl. apply Forall_alter; [exact HP|].
      intros x _ _. right. reflexivity.
    - constructor.
    - intros e s u s' HP _ Hd. refine (decompose_all_pending_ok self ok e s s' u _ HP Hd).
      intros tk Htk. left. exact Htk.
    - intros e cm s _ HP _. exact HP.
    - intros e cm s u s' _ _ _ HP Hi. unfold _initialize_schedule, bind, lift in Hi.
      destruct (date_range (current_date self) e); [|discriminate].
      injection Hi as _ <-. exact HP.
    - exact Hgen. }
  split; [exact Hst|].
  destruct (generate_last_step self out Hgen) as [e [s [_ Hout]]].
  rewrite Hout in Hst |- *. simpl in Hst |- *.
  unfold TimetableOutput.get_scheduled_tasks, TimetableOutput.get_unscheduled_tasks. simpl.
  rewrite stdpp_filter_bool. split; [|reflexivity].
  apply filter_length_partition.
  - refine (List.Forall_impl _ _ Hst). intros tk [-> | ->]; [right | left]; reflexivity.
  - refine (List.Forall_impl _ _ Hst). intros tk [-> | ->]; [left | right]; reflexivity.
Qed.

Lemma generate_task_statuses_witness :
  exists out, generate one_topic_scheduler = Ok out
    /\ Forall (fun tk => StudyTask.status tk = PENDING \/ StudyTask.status tk = SCHEDULED)
              (TimetableOutput.tasks out)
    /\ (length (TimetableOutput.get_scheduled_tasks out)
        + length (TimetableOutput.get_unscheduled_tasks out)
        = TimetableOutput.total_tasks (TimetableOutput.metadata out))%nat
    /\ TimetableOutput.scheduled_tasks (TimetableOutput.metadata out)
       = length (TimetableOutput.get_scheduled_tasks out).
Proof.
  destruct (generate one_topic_scheduler) as [out|e] eqn:E; [|vm_compute in E; discriminate].
  exists out. split; [reflexivity|]. exact (generate_task_statuses one_topic_scheduler out E).
Defined.

Lemma filter_none_true {A : Type} (f : A -> bool) (l : list A) :
  (forall x, In x l -> f x = false) -> List.filter f l = [].
Proof.
  induction l as [|x l IH]; intros H; [reflexivity|]. simpl.
  rewrite (H x (or_introl eq_refl)). apply IH. intros y Hy. exact (H y (or_intror Hy)).
Qed.

Lemma group_by_deadline_inv (r seen : list StudyTask.t) (ds : list date) :
  NoDup ds -> (forall d, In d ds <-> exists tk, In tk seen /\ StudyTask.deadline tk = d) ->
  exists ds',
    group_by_deadline r
      (map (fun d => (d, List.filter (fun tk => StudyTask.deadline tk =? d) seen)) ds)
    = map (fun d => (d, List.filter (fun tk => StudyTask.deadline tk =? d) (seen ++ r))) ds'
    /\ NoDup ds'
    /\ (forall d, In d ds' <-> exists tk, In tk (seen ++ r) /\ StudyTask.deadline tk = d).
Proof.
  revert seen ds. induction r as [|tk r IH]; intros seen ds Hnd Hin.
  - exists ds. rewrite app_nil_r. split; [reflexivity | split; assumption].
  - cbn [group_by_deadline].
    set (d := StudyTask.deadline tk).
    replace (seen ++ tk :: r) with ((seen ++ [tk]) ++ r) by (rewrite <- app_assoc; reflexivity).
    assert (Hex : existsb (fun e => fst e =? d)
                    (map (fun d0 => (d0, List.filter (fun tk0 => StudyTask.deadline tk0 =? d0) seen)) ds)
                  = existsb (fun d0 => d0 =? d) ds).
    { clear. induction ds as [|x ds IHd]; [reflexivity|]. simpl. rewrite IHd. reflexivity. }
    rewrite Hex.
    destruct (existsb (fun d0 => d0 =? d) ds) eqn:Eb.
    + apply existsb_exists in Eb as [d1 [Hd1 Hd1e]]. apply Z.eqb_eq in Hd1e. subst d1.
      rewrite map_map.
      rewrite (map_ext_in _ (fun d0 => (d0, List.filter (fun tk0 => StudyTask.deadline tk0 =? d0)
                                             (seen ++ [tk])))).
      2:{ intros d0 _. cbn [fst snd]. rewrite List.filter_app. simpl.
          destruct (Z.eqb_spec d0 d) as [-> | Hne].
          - unfold d at 2. rewrite Z.eqb_refl. reflexivity.
          - assert (Hf : (StudyTask.deadline tk =? d0) = false) by (apply Z.eqb_neq; fold d; lia).
            rewrite Hf, app_nil_r. reflexivity. }
      apply IH; [exact Hnd|]. intros d0. rewrite Hin. split.
      * intros [tk0 [H1 H2]]. exists tk0. split; [apply in_or_app; left|]; assumption.
      * intros [tk0 [H1 H2]]. apply in_app_or in H1 as [H1 | [<- | []]].
        -- exists tk0. split; assumption.
        -- apply Hin. rewrite <- H2. exact Hd1.
    + assert (Hnot : ~ In d ds).
      { intros Hd. assert (Hb : existsb (fun d0 => d0 =? d) ds = true)
          by (apply existsb_exists; exists d; split; [exact Hd | apply Z.eqb_refl]).
        congruence. }
      assert (Heq : map (fun d0 => (d0, List.filter (fun tk0 => StudyTask.deadline tk0 =? d0) seen)) ds
                    ++ [(d, [tk])]
                    = map (fun d0 => (d0, List.filter (fun tk0 => StudyTask.deadline tk0 =? d0)
                                           (seen ++ [tk]))) (ds ++ [d])).
      { rewrite map_app. f_equal.
        - apply map_ext_in. intros d0 Hd0. rewrite List.filter_app. simpl.
          assert (Hf : (StudyTask.deadline tk =? d0) = false).
          { apply Z.eqb_neq. fold d. intros ->. exact (Hnot Hd0). }
          rewrite Hf, app_nil_r. reflexivity.
        - simpl. rewrite List.filter_app, filter_none_true.
          + simpl. unfold d at 2. rewrite Z.eqb_refl. reflexivity.
          + intros x Hx. apply Z.eqb_neq. intros Hxd. apply Hnot, Hin.
            exists x. split; assumption. }
      pose proof (IH (seen ++ [tk]) (ds ++ [d])) as IH'. rewrite <- Heq in IH'. apply IH'.
      * apply NoDup_app. split; [exact Hnd|]. split; [|apply NoDup_singleton].
        intros x Hx Hx2. apply list_elem_of_singleton in Hx2. subst x.
        apply Hnot, list_elem_of_In. exact Hx.
      * intros d0. rewrite in_app_iff, Hin. split.
        -- intros [[tk0 [H1 H2]] | [<- | []]].
           ++ exists tk0. split; [apply in_or_app; left|]; assumption.
           ++ exists tk. split; [apply in_or_app; right; left|]; reflexivity.
        -- intros [tk0 [H1 H2]]. apply in_app_or in H1 as [H1 | [<- | []]].
           ++ left. exists tk0. split; assumption.
           ++ right. left. exact H2.
Qed.

(** [_check_completeness()] appends one warning per distinct deadline of
    the [PENDING] tasks, no deadline twice; the warning of deadline [d]
    is built from the pending tasks due on [d], in task order. Nothing
    else of the state changes. *)
Theorem check_completeness_groups (s : State) :
  let pending := List.filter (fun tk => TaskStatus_eqb (StudyTask.status tk) PENDING) (tasks s) in
  exists ds,
    _check_completeness s
      = Ok (tt, set_warnings s (warnings s
                  ++ map (fun d => completeness_warning
                                     (d, List.filter (fun tk => StudyTask.deadline tk =? d) pending))
                         ds))
    /\ NoDup ds
    /\ (forall d, In d ds <-> exists tk, In tk pending /\ StudyTask.deadline tk = d).
Proof.
  intros pending.
  destruct (group_by_deadline_inv pending [] [] (NoDup_nil_2)) as [ds [Hg [Hnd Hin]]].
  { intros d. split; [intros [] | intros [tk [[] _]]]. }
  exists ds. split; [|split; assumption].
  unfold _check_completeness. rewrite stdpp_filter_bool. fold pending.
  simpl in Hg.
  rewrite <- (map_map (fun d => (d, List.filter (fun tk => StudyTask.deadline tk =? d) pending))
                      completeness_warning).
  exact (f_equal (fun g => Ok (tt, set_warnings s (warnings s ++ map completeness_warning g))) Hg).
Qed.

(** After a successful [generate()], every task left [PENDING] is named
    in a warning dated at its deadline, and that warning's severity is
    "critical" exactly when some pending task due the same day has
    priority 8 or more. *)
Theorem generate_pending_warned (self : TimetableScheduler.t) (out : TimetableOutput.t)
    (Hgen : generate self = Ok out) :
  forall tk, In tk (TimetableOutput.tasks out) -> StudyTask.status tk = PENDING ->
  exists w, In w (TimetableOutput.warnings out)
    /\ CapacityWarning.date w = StudyTask.deadline tk
    /\ In (StudyTask.task_id tk) (CapacityWarning.affected_tasks w)
    /\ (CapacityWarning.severity w = "critical"
        <-> exists tk', In tk' (TimetableOutput.tasks out) /\ StudyTask.status tk' = PENDING
                        /\ StudyTask.deadline tk' = StudyTask.deadline tk
                        /\ 8 <= StudyTask.priority tk').
Proof.
  intros tk Htk Hp.
  destruct (generate_last_step self out Hgen) as [e [s [Hc Hout]]].
  destruct (check_completeness_groups s) as [ds [Hc' [_ Hin]]].
  rewrite Hc in Hc'. injection Hc' as Hw.
  assert (Hws : TimetableOutput.warnings out = warnings s ++ map (fun d => completeness_warning
             (d, List.filter (fun tk => StudyTask.deadline tk =? d)
                   (List.filter (fun tk => TaskStatus_eqb (StudyTask.status tk) PENDING) (tasks s))))
             ds) by exact Hw.
  assert (Hts : TimetableOutput.tasks out = tasks s) by (rewrite Hout; reflexivity).
  rewrite Hts in Htk |- *. rewrite Hws.
  set (pend := List.filter (fun tk => TaskStatus_eqb (StudyTask.status tk) PENDING) (tasks s)).
  assert (Hpend : forall x, In x pend <-> In x (tasks s) /\ StudyTask.status x = PENDING).
  { intros x. unfold pend. rewrite filter_In.
    destruct (StudyTask.status x); simpl; split; intros [H1 H2]; try discriminate;
      split; try assumption; reflexivity. }
  set (d := StudyTask.deadline tk).
  set (grp := List.filter (fun tk0 => StudyTask.deadline tk0 =? d) pend).
  exists (completeness_warning (d, grp)). split; [|split; [|split]].
  - apply in_or_app. right.
    apply (in_map (fun d0 => completeness_warning
                               (d0, List.filter (fun tk0 => StudyTask.deadline tk0 =? d0) pend)) ds d).
    apply Hin. exists tk. split; [apply Hpend; split; assumption | reflexivity].
  - reflexivity.
  - unfold completeness_warning. simpl. apply in_map. unfold grp. apply filter_In.
    split; [apply Hpend; split; assumption | apply Z.eqb_refl].
  - unfold completeness_warning. simpl.
    assert (Hg : forall x, In x grp <-> (In x (tasks s) /\ StudyTask.status x = PENDING)
                                        /\ StudyTask.deadline x = d).
    { intros x. unfold grp. rewrite filter_In, Hpend, Z.eqb_eq. reflexivity. }
    destruct (existsb (fun tk0 => 8 <=? StudyTask.priority tk0) grp) eqn:Eb.
    + apply existsb_exists in Eb as [x [Hx Hx8]]. apply Hg in Hx as [[Hx1 Hx2] Hx3].
      split; [intros _ | reflexivity].
      exists x. split; [exact Hx1 | split; [exact Hx2 | split; [exact Hx3 | apply Z.leb_le; exact Hx8]]].
    + split; [intros H; discriminate H|]. intros [x [Hx1 [Hx2 [Hx3 Hx8]]]].
      assert (Hx : In x grp) by (apply Hg; split; [split|]; assumption).
      assert (Ht : existsb (fun tk0 => 8 <=? StudyTask.priority tk0) grp = true)
        by (apply existsb_exists; exists x; split; [exact Hx | apply Z.leb_le; exact Hx8]).
      congruence.
Qed.

Lemma generate_pending_warned_witness :
  exists out, generate one_topic_scheduler = Ok out
    /\ forall tk, In tk (TimetableOutput.tasks out) -> StudyTask.status tk = PENDING ->
       exists w, In w (TimetableOutput.warnings out)
         /\ CapacityWarning.date w = StudyTask.deadline tk
         /\ In (StudyTask.task_id tk) (CapacityWarning.affected_tasks w)
         /\ (CapacityWarning.severity w = "critical"
             <-> exists tk', In tk' (TimetableOutput.tasks out) /\ StudyTask.status tk' = PENDING
                             /\ StudyTask.deadline tk' = StudyTask.deadline tk
                             /\ 8 <= StudyTask.priority tk').
Proof.
  destruct (generate one_topic_scheduler) as [out|e] eqn:E; [|vm_compute in E; discriminate].
  exists out. split; [reflexivity|]. exact (generate_pending_warned one_topic_scheduler out E).
Defined.

(** [_determine_horizon()], when it succeeds, ends the plan 30 days after
    the current date if there are no events, and otherwise 3 days after
    the latest event date. Every event date is then at least 3 days before
    the horizon, and the topic tasks of [_decompose_all] are due on the
    latest event date (on the horizon itself without events). *)
Theorem determine_horizon_spec (self : TimetableScheduler.t) (e : date)
    (H : _determine_horizon self = Ok e) :
  (events self = [] -> e = current_date self + 30 /\ topic_deadline self e = e)
  /\ (events self <> [] ->
      e = topic_deadline self e + 3
      /\ (forall ev, In ev (events self) -> FixedEvent.target_date ev + 3 <= e)
      /\ exists ev, In ev (events self) /\ FixedEvent.target_date ev + 3 = e)
  /\ 1 <= e <= MAXORD.
Proof.
  unfold _determine_horizon, topic_deadline in *.
  destruct (events self) as [|ev evs] eqn:Ee; cbn [map find_latest_date] in *;
    unfold add_days, date_add in H;
    match type of H with
    | (if ?b then _ else _) = _ => destruct b eqn:Eb; [injection H as <-|discriminate]
    end;
    apply andb_true_iff in Eb as [Eb1 Eb2]; apply Z.leb_le in Eb1, Eb2.
  - split; [intros _; split; reflexivity | split; [intros C; exfalso; apply C; reflexivity | lia]].
  - destruct (fold_max_spec (map FixedEvent.target_date evs) (FixedEvent.target_date ev))
      as [Hin [Hle Hall]].
    rewrite List.Forall_forall in Hall.
    split; [intros C; discriminate C|]. split; [|lia]. intros _. split; [reflexivity|]. split.
    + intros ev' [<- | Hev']; [lia|]. pose proof (Hall _ (in_map _ _ _ Hev')). lia.
    + destruct Hin as [E | E].
      * exists ev. split; [left; reflexivity | rewrite E; reflexivity].
      * apply in_map_iff in E as [ev' [E Hev']]. exists ev'.
        split; [right; exact Hev' | rewrite E; reflexivity].
Qed.

Lemma determine_horizon_spec_witness :
  exists e, _determine_horizon one_topic_scheduler = Ok e
    /\ (events one_topic_scheduler = [] -> e = current_date one_topic_scheduler + 30
                                            /\ topic_deadline one_topic_scheduler e = e)
    /\ (events one_topic_scheduler <> [] ->
        e = topic_deadline one_topic_scheduler e + 3
        /\ (forall ev, In ev (events one_topic_scheduler) -> FixedEvent.target_date ev + 3 <= e)
        /\ exists ev, In ev (events one_topic_scheduler) /\ FixedEvent.target_date ev + 3 = e)
    /\ 1 <= e <= MAXORD.
Proof.
  destruct (_determine_horizon one_topic_scheduler) as [e|x] eqn:E; [|vm_compute in E; discriminate].
  exists e. split; [reflexivity|]. exact (determine_horizon_spec one_topic_scheduler e E).
Defined.

Lemma clamp_Q_bounds (v a b : Q) : (a <= b)%Q -> (a <= clamp_Q v a b <= b)%Q.
Proof.
  intros Hab. unfold clamp_Q. split; [apply Q.le_max_l|].
  apply Q.max_lub; [exact Hab | apply Q.le_min_l].
Qed.

Lemma py_int_of_Q_range (q : Q) (lo hi : Z) :
  (inject_Z lo <= q <= inject_Z hi)%Q -> 0 <= lo -> lo <= py_int_of_Q q <= hi.
Proof.
  intros [H1 H2] H0. unfold py_int_of_Q.
  assert (Hq : (0 <= q)%Q) by (apply Qle_trans with (inject_Z lo); [change 0%Q with (inject_Z 0); rewrite <- Zle_Qle; exact H0 | exact H1]).
  apply Qle_bool_iff in Hq. rewrite Hq.
  pose proof (Qfloor_resp_le _ _ H1) as Hf1. pose proof (Qfloor_resp_le _ _ H2) as Hf2.
  rewrite Qfloor_Z in Hf1, Hf2. lia.
Qed.

(** [normalize_preferences()] clamps the buffer percentage into
    [[0.1, 0.3]], so it fails (with [ValueError]) exactly when
    [int(session_length_minutes)] is below 15 or [int(break_length_minutes)]
    is negative; on success these two are the truncated inputs and the
    buffer lies in [[0.1, 0.3]]. *)
Theorem normalize_preferences_spec (pd : RawPreferences.t) :
  let L := py_int_of_Q (get (RawPreferences.session_length_minutes pd) 45%Q) in
  let B := py_int_of_Q (get (RawPreferences.break_length_minutes pd) 15%Q) in
  (InputNormalizer.normalize_preferences pd = Err ValueError <-> L < 15 \/ B < 0)
  /\ (forall p, InputNormalizer.normalize_preferences pd = Ok p ->
        StudyPreferences.session_length_minutes p = L /\ 15 <= L
        /\ StudyPreferences.break_length_minutes p = B /\ 0 <= B
        /\ (1 # 10 <= StudyPreferences.buffer_percentage p <= 3 # 10)%Q).
Proof.
  intros L B. unfold InputNormalizer.normalize_preferences, StudyPreferences.make. fold L B.
  set (buf := clamp_Q (get (RawPreferences.buffer_percentage pd) (15 # 100)) (1 # 10) (3 # 10)).
  assert (Hb : (1 # 10 <= buf <= 3 # 10)%Q) by (apply clamp_Q_bounds; discriminate).
  assert (Hbb : (Qle_bool (1 # 10) buf && Qle_bool buf (3 # 10))%bool = true).
  { destruct Hb as [Hb1 Hb2]. apply Qle_bool_iff in Hb1, Hb2. rewrite Hb1, Hb2. reflexivity. }
  rewrite Hbb. cbn [negb].
  destruct (Z.ltb_spec L 15) as [HL | HL].
  - split; [split; [intros _; left; exact HL | reflexivity] | intros p Hp; discriminate].
  - destruct (Z.ltb_spec B 0) as [HB | HB].
    + split; [split; [intros _; right; exact HB | reflexivity] | intros p Hp; discriminate].
    + split.
      * split; [intros H; discriminate H | lia].
      * intros p Hp. injection Hp as <-. simpl. split; [reflexivity|]. split; [exact HL|].
        split; [reflexivity|]. split; [exact HB | exact Hb].
Qed.

Lemma normalize_topics_from_spec (i : nat) (td : list RawTopic.t) :
  exists tps, InputNormalizer.normalize_topics_from i td = Ok tps
    /\ length tps = length td
    /\ forall j t data, nth_error tps j = Some t -> nth_error td j = Some data ->
         LearningTopic.id t
           = get (RawTopic.id data) (append "topic_" (py_str_Z (Z.of_nat (i + j))))
         /\ (0 <= LearningTopic.difficulty_score t <= 1)%Q
         /\ (0 <= LearningTopic.confidence_score t <= 1)%Q.
Proof.
  revert i. induction td as [|data rest IH]; intros i.
  - exists []. split; [reflexivity | split; [reflexivity | intros j t data H; destruct j; discriminate]].
  - cbn [InputNormalizer.normalize_topics_from].
    unfold InputNormalizer.normalize_topic, LearningTopic.make.
    set (dif := clamp_Q (get (RawTopic.difficulty_score data) (get (RawTopic.difficulty data) (1 # 2))) 0 1).
    set (con := clamp_Q (get (RawTopic.confidence_score data) (get (RawTopic.confidence data) (1 # 2))) 0 1).
    assert (Hd : (0 <= dif <= 1)%Q) by (apply clamp_Q_bounds; discriminate).
    assert (Hc : (0 <= con <= 1)%Q) by (apply clamp_Q_bounds; discriminate).
    assert (Hd' : (Qle_bool 0 dif && Qle_bool dif 1)%bool = true).
    { destruct Hd as [H1 H2]. apply Qle_bool_iff in H1, H2. rewrite H1, H2. reflexivity. }
    assert (Hc' : (Qle_bool 0 con && Qle_bool con 1)%bool = true).
    { destruct Hc as [H1 H2]. apply Qle_bool_iff in H1, H2. rewrite H1, H2. reflexivity. }
    rewrite Hd', Hc'. cbn [negb bind_r].
    destruct (IH (S i)) as [tps [Heq [Hlen Hall]]]. rewrite Heq. cbn [bind_r].
    eexists. split; [reflexivity|]. split; [simpl; rewrite Hlen; reflexivity|].
    intros [|j] t d0 Ht Hd0; simpl in Ht, Hd0.
    + injection Ht as <-. injection Hd0 as <-. simpl. rewrite Nat.add_0_r.
      split; [reflexivity | split; assumption].
    + replace (i + S j)%nat with (S i + j)%nat by lia. exact (Hall j t d0 Ht Hd0).
Qed.

(** [normalize_topics()] never fails: the difficulty and confidence
    scores are clamped into [[0, 1]] before the [LearningTopic]
    constructor checks them. It keeps one topic per input entry, in
    order, and the [k]-th topic without an id gets ["topic_k"]. *)
Theorem normalize_topics_spec (td : list RawTopic.t) :
  exists tps, InputNormalizer.normalize_topics td = Ok tps
    /\ length tps = length td
    /\ forall k t data, nth_error tps k = Some t -> nth_error td k = Some data ->
         LearningTopic.id t = get (RawTopic.id data) (append "topic_" (py_str_Z (Z.of_nat k)))
         /\ (0 <= LearningTopic.difficulty_score t <= 1)%Q
         /\ (0 <= LearningTopic.confidence_score t <= 1)%Q.
Proof.
  exact (normalize_topics_from_spec 0 td).
Qed.

Section NormalizeEvents.
Variable date_fromisoformat : string -> option (Z * Z * Z).
Variable strptime : string -> string -> option (Z * Z * Z).
Variable today : date.
Variable uuid4 : nat -> string.

Lemma normalize_events_from_spec (k : nat) (ed : list RawEvent.t) :
  match InputNormalizer.normalize_events_from date_fromisoformat strptime today uuid4 k ed with
  | Ok evs =>
      length evs = length ed
      /\ forall j ev data, nth_error evs j = Some ev -> nth_error ed j = Some data ->
           FixedEvent.id ev = get (RawEvent.id data) (uuid4 (k + j))
           /\ 1 <= FixedEvent.priority_level ev <= 10
           /\ (0 <= FixedEvent.estimated_effort_hours ev)%Q
  | Err e =>
      exists j data, nth_error ed j = Some data
        /\ (InputNormalizer.parse_date' date_fromisoformat strptime today
              (get (RawEvent.target_date data) (get (RawEvent.date data)
                 (get (RawEvent.deadline data) DI_None))) None = Err e
            \/ (e = ValueError
                /\ (get (RawEvent.estimated_effort_hours data)
                      (get (RawEvent.effort_hours data) 2%Q) < 0)%Q))
  end.
Proof.
  revert k. induction ed as [|data rest IH]; intros k.
  - simpl. split; [reflexivity | intros j ev data H; destruct j; discriminate].
  - cbn [InputNormalizer.normalize_events_from].
    unfold InputNormalizer.normalize_event, FixedEvent.make.
    set (pr := clamp_Q (get (RawEvent.priority_level data) (get (RawEvent.priority data) 5%Q)) 1 10).
    assert (Hpr : 1 <= py_int_of_Q pr <= 10).
    { apply py_int_of_Q_range; [apply clamp_Q_bounds; discriminate | lia]. }
    destruct (InputNormalizer.parse_date' date_fromisoformat strptime today _ None)
      as [td|e] eqn:Ep; cbn [bind_r].
    2:{ exists 0%nat, data. split; [reflexivity | left; exact Ep]. }
    assert (Hpb : negb ((1 <=? py_int_of_Q pr) && (py_int_of_Q pr <=? 10)) = false).
    { destruct Hpr as [H1 H2]. apply Z.leb_le in H1, H2. rewrite H1, H2. reflexivity. }
    rewrite Hpb.
    set (eff := get (RawEvent.estimated_effort_hours data) (get (RawEvent.effort_hours data) 2%Q)).
    destruct (Qltb eff 0) eqn:Ee.
    + cbn [bind_r]. exists 0%nat, data. split; [reflexivity | right; split; [reflexivity|]].
      unfold Qltb in Ee. apply negb_true_iff in Ee.
      apply Qnot_le_lt. intros Hle. apply Qle_bool_iff in Hle.
      assert (Hle' : Qle_bool 0 eff = true) by exact Hle. rewrite Hle' in Ee. discriminate.
    + cbn [bind_r]. specialize (IH (S k)).
      destruct (InputNormalizer.normalize_events_from date_fromisoformat strptime today uuid4
                  (S k) rest) as [evs|e].
      * destruct IH as [Hlen Hall]. split; [simpl; rewrite Hlen; reflexivity|].
        intros [|j] ev d0 Hev Hd0; simpl in Hev, Hd0.
        -- injection Hev as <-. injection Hd0 as <-. simpl. rewrite Nat.add_0_r.
           split; [reflexivity | split; [exact Hpr|]].
           unfold Qltb in Ee. apply negb_false_iff, Qle_bool_iff in Ee. exact Ee.
        -- replace (k + S j)%nat with (S k + j)%nat by lia. exact (Hall j ev d0 Hev Hd0).
      * destruct IH as [j [d0 [Hj Hd]]]. exists (S j), d0. split; [exact Hj | exact Hd].
Qed.

(** [normalize_events()] clamps the priority into [[1, 10]] before
    truncating it, so the priority never makes it fail: an error comes
    from an event whose date does not parse (the same error) or whose
    effort is negative ([ValueError]). On success it keeps one event per
    input entry, in order; the [k]-th event without an id takes the
    [k]-th [uuid4()], and every priority is in [[1, 10]]. *)
Theorem normalize_events_spec (ed : list RawEvent.t) :
  match InputNormalizer.normalize_events date_fromisoformat strptime today uuid4 ed with
  | Ok evs =>
      length evs = length ed
      /\ forall k ev data, nth_error evs k = Some ev -> nth_error ed k = Some data ->
           FixedEvent.id ev = get (RawEvent.id data) (uuid4 k)
           /\ 1 <= FixedEvent.priority_level ev <= 10
           /\ (0 <= FixedEvent.estimated_effort_hours ev)%Q
  | Err e =>
      exists k data, nth_error ed k = Some data
        /\ (InputNormalizer.parse_date' date_fromisoformat strptime today
              (get (RawEvent.target_date data) (get (RawEvent.date data)
                 (get (RawEvent.deadline data) DI_None))) None = Err e
            \/ (e = ValueError
                /\ (get (RawEvent.estimated_effort_hours data)
                      (get (RawEvent.effort_hours data) 2%Q) < 0)%Q))
  end.
Proof.
  exact (normalize_events_from_spec 0 ed).
Qed.

End NormalizeEvents.

Lemma string_append_assoc (a b c : string) : append (append a b) c = append a (append b c).
Proof. induction a as [|x a IH]; [reflexivity|]. exact (f_equal (String x) IH). Qed.

Lemma string_length_append (a b : string) :
  String.length (append a b) = (String.length a + String.length b)%nat.
Proof. induction a as [|x a IH]; [reflexivity|]. exact (f_equal S IH). Qed.

Lemma string_append_cancel_l (p a b : string) : append p a = append p b -> a = b.
Proof.
  induction p as [|x p IH]; [exact (fun H => H)|]. intros H.
  change (String x (append p a) = String x (append p b)) in H. injection H as H. exact (IH H).
Qed.

Lemma digits_value_append (s1 s2 : string) (a : Z) :
  PyLib.digits_value (append s1 s2) a
  = match PyLib.digits_value s1 a with Some v => PyLib.digits_value s2 v | None => None end.
Proof.
  revert a. induction s1 as [|c s1 IH]; intros a; [reflexivity|].
  change (PyLib.digits_value (String c (append s1 s2)) a
          = match PyLib.digits_value (String c s1) a with
            | Some v => PyLib.digits_value s2 v | None => None end).
  simpl. destruct (PyLib.digit c); [apply IH | reflexivity].
Qed.

Lemma digits_fuel_acc (f : nat) (n : Z) (acc : string) :
  digits_fuel f n acc = append (digits_fuel f n EmptyString) acc.
Proof.
  revert n acc. induction f as [|f IH]; intros n acc; [reflexivity|]. simpl.
  destruct (n <? 10); [reflexivity|].
  rewrite (IH _ (String _ acc)), (IH _ (String _ EmptyString)), string_append_assoc.
  reflexivity.
Qed.

Lemma digit_of_mod (n : Z) :
  PyLib.digit (ascii_of_nat (48 + Z.to_nat (n mod 10))) = Some (n mod 10).
Proof.
  assert (Hm : 0 <= n mod 10 < 10) by (apply Z.mod_pos_bound; lia).
  unfold PyLib.digit. rewrite nat_ascii_embedding by lia.
  assert (H1 : (48 <=? 48 + Z.to_nat (n mod 10))%nat = true) by (apply Nat.leb_le; lia).
  assert (H2 : (48 + Z.to_nat (n mod 10) <=? 57)%nat = true) by (apply Nat.leb_le; lia).
  rewrite H1, H2. cbn [andb]. f_equal. lia.
Qed.

Lemma digits_fuel_value (f : nat) (n a : Z) :
  0 <= n < 10 ^ Z.of_nat f ->
  PyLib.digits_value (digits_fuel f n EmptyString) a
  = Some (a * 10 ^ Z.of_nat (String.length (digits_fuel f n EmptyString)) + n).
Proof.
  revert n a. induction f as [|f IH]; intros n a Hn.
  - simpl in *. f_equal. lia.
  - cbn [digits_fuel]. destruct (Z.ltb_spec n 10) as [Hlt | Hge].
    + cbn [PyLib.digits_value]. rewrite digit_of_mod. cbn [PyLib.digits_value String.length].
      f_equal. rewrite Z.mod_small by lia. lia.
    + assert (Hf : 0 <= n / 10 < 10 ^ Z.of_nat f).
      { split; [apply Z.div_pos; lia|]. rewrite Nat2Z.inj_succ, Z.pow_succ_r in Hn by lia.
        apply Z.div_lt_upper_bound; lia. }
      rewrite digits_fuel_acc, digits_value_append, (IH _ _ Hf). cbn [PyLib.digits_value].
      rewrite digit_of_mod. cbn [PyLib.digits_value]. f_equal.
      rewrite string_length_append. cbn [String.length]. rewrite Nat.add_1_r, Nat2Z.inj_succ, Z.pow_succ_r by lia.
      pose proof (Z.div_mod n 10 ltac:(lia)). lia.
Qed.

Lemma zeros_value (k : nat) : PyLib.digits_value (zeros k) 0 = Some 0.
Proof. induction k as [|k IH]; [reflexivity | exact IH]. Qed.

Lemma zero_pad4_value (n : Z) : 0 <= n -> PyLib.digits_value (zero_pad4 n) 0 = Some n.
Proof.
  intros Hn. unfold zero_pad4, py_str_Z.
  assert (Hl : Z.ltb n 0 = false) by (apply Z.ltb_ge; lia). rewrite Hl, Z.abs_eq by lia.
  rewrite digits_value_append, zeros_value, digits_fuel_value.
  - f_equal; lia.
  - split; [lia|]. rewrite Nat2Z.inj_succ, Z2Nat.id by (apply Z.log2_nonneg).
    destruct (Z.eq_dec n 0) as [-> | Hnz]; [reflexivity|].
    destruct (Z.log2_spec n ltac:(lia)) as [_ H2].
    apply Z.lt_le_trans with (2 ^ Z.succ (Z.log2 n)); [exact H2|].
    apply Z.pow_le_mono_l. lia.
Qed.

Lemma zero_pad4_inj (a b : Z) : 0 <= a -> 0 <= b -> zero_pad4 a = zero_pad4 b -> a = b.
Proof.
  intros Ha Hb H. pose proof (zero_pad4_value a Ha) as Va. rewrite H, zero_pad4_value in Va by exact Hb.
  injection Va as ->. reflexivity.
Qed.

Lemma fold_counter_ids {B : Type} (F : list StudyTask.t * Z -> B -> list StudyTask.t * Z)
    (idf : Z -> string) (l : list B) :
  (forall ts c i, exists a, F (ts, c) i = (ts ++ [a], c + 1) /\ StudyTask.task_id a = idf (c + 1)) ->
  forall ts c, exists ts', fold_left F l (ts, c) = (ts ++ ts', c + Z.of_nat (length ts'))
    /\ forall j t, nth_error ts' j = Some t -> StudyTask.task_id t = idf (c + 1 + Z.of_nat j).
Proof.
  intros HF. induction l as [|i l IH]; intros ts c.
  - exists []. split; [rewrite app_nil_r; simpl; f_equal; lia | intros [|j] t H; discriminate].
  - destruct (HF ts c i) as [a [Ha Hid]]. simpl. rewrite Ha.
    destruct (IH (ts ++ [a]) (c + 1)) as [ts' [Hf Hn]]. exists (a :: ts'). rewrite Hf. split.
    + rewrite <- app_assoc. simpl. f_equal. lia.
    + intros [|j] t H; simpl in H.
      * injection H as <-. rewrite Hid. f_equal. lia.
      * rewrite (Hn j t H). f_equal. lia.
Qed.

Lemma fold_outer_ids {B : Type} (G : Z -> B -> list StudyTask.t * Z) (idf : Z -> string)
    (l : list B) :
  (forall c b, exists new, G c b = (new, c + Z.of_nat (length new))
     /\ forall j t, nth_error new j = Some t -> StudyTask.task_id t = idf (c + 1 + Z.of_nat j)) ->
  forall ts c, exists all,
    fold_left (fun (acc : list StudyTask.t * Z) b =>
                 let (ts, c) := acc in let (new, c') := G c b in (ts ++ new, c')) l (ts, c)
      = (ts ++ all, c + Z.of_nat (length all))
    /\ forall j t, nth_error all j = Some t -> StudyTask.task_id t = idf (c + 1 + Z.of_nat j).
Proof.
  intros HG. induction l as [|b l IH]; intros ts c.
  - exists []. split; [rewrite app_nil_r; simpl; f_equal; lia | intros [|j] t H; discriminate].
  - destruct (HG c b) as [new [Hg Hn]]. simpl. rewrite Hg.
    destruct (IH (ts ++ new) (c + Z.of_nat (length new))) as [all [Hf Ha]].
    exists (new ++ all). rewrite Hf. split.
    + rewrite <- app_assoc, length_app. f_equal. lia.
    + intros j t H. destruct (Nat.lt_ge_cases j (length new)) as [Hj | Hj].
      * rewrite nth_error_app1 in H by exact Hj. exact (Hn j t H).
      * rewrite nth_error_app2 in H by exact Hj. rewrite (Ha _ t H). f_equal. lia.
Qed.

Lemma decompose_event_ids (L c : Z) (event : FixedEvent.t) :
  exists new, TaskDecomposer.decompose_event L c event = (new, c + Z.of_nat (length new))
    /\ forall j t, nth_error new j = Some t ->
         StudyTask.task_id t = fst (TaskDecomposer._next_task_id "event" (c + Z.of_nat j)).
Proof.
  unfold TaskDecomposer.decompose_event. cbv zeta.
  match goal with
  | |- exists new, fold_left ?F ?l (?tsv, ?cv) = _ /\ _ =>
      destruct (fold_counter_ids F (fun k => fst (TaskDecomposer._next_task_id "event" (k - 1))) l)
        with (ts := tsv) (c := cv) as [ts' [Hf Hn]]
  end.
  - intros ts c0 i. eexists. split; [reflexivity|]. cbn. f_equal. f_equal. f_equal. f_equal. lia.
  - exists ts'. rewrite Hf. split; [reflexivity|]. intros j t H. rewrite (Hn j t H).
    f_equal. f_equal. lia.
Qed.

Lemma decompose_topic_ids (L c : Z) (topic : LearningTopic.t) (deadline : date) :
  exists new, TaskDecomposer.decompose_topic L c topic deadline = (new, c + Z.of_nat (length new))
    /\ forall j t, nth_error new j = Some t ->
         StudyTask.task_id t = fst (TaskDecomposer._next_task_id "topic" (c + Z.of_nat j)).
Proof.
  unfold TaskDecomposer.decompose_topic. cbv zeta.
  match goal with
  | |- exists new, fold_left ?F ?l (?tsv, ?cv) = _ /\ _ =>
      destruct (fold_counter_ids F (fun k => fst (TaskDecomposer._next_task_id "topic" (k - 1))) l)
        with (ts := tsv) (c := cv) as [ts' [Hf Hn]]
  end.
  - intros ts c0 i. eexists. split; [reflexivity|]. cbn. f_equal. f_equal. f_equal. f_equal. lia.
  - exists ts'. rewrite Hf. split; [reflexivity|]. intros j t H. rewrite (Hn j t H).
    f_equal. f_equal. lia.
Qed.

Lemma NoDup_map_ids (L : list StudyTask.t) (idx : nat -> string) :
  (forall k t, nth_error L k = Some t -> StudyTask.task_id t = idx k) ->
  (forall i j, (i < length L)%nat -> (j < length L)%nat -> idx i = idx j -> i = j) ->
  List.NoDup (map StudyTask.task_id L).
Proof.
  intros Hid Hinj. apply List.NoDup_nth_error. intros i j Hi Heq.
  rewrite length_map in Hi. rewrite !nth_error_map in Heq.
  destruct (nth_error L i) as [ti|] eqn:Ei; [|apply nth_error_None in Ei; lia].
  destruct (nth_error L j) as [tj|] eqn:Ej; [|discriminate].
  injection Heq as Heq. rewrite (Hid i ti Ei), (Hid j tj Ej) in Heq.
  apply Hinj; [exact Hi | apply nth_error_Some; congruence | exact Heq].
Qed.

Lemma next_task_id_inj (p : string) (a b : Z) :
  0 <= a -> 0 <= b ->
  fst (TaskDecomposer._next_task_id p a) = fst (TaskDecomposer._next_task_id p b) -> a = b.
Proof.
  intros Ha Hb H. unfold TaskDecomposer._next_task_id in H. cbn [fst] in H.
  apply string_append_cancel_l, (string_append_cancel_l "_") in H.
  apply zero_pad4_inj in H; lia.
Qed.

Lemma event_topic_ids_differ (a b : Z) :
  fst (TaskDecomposer._next_task_id "event" a) <> fst (TaskDecomposer._next_task_id "topic" b).
Proof. unfold TaskDecomposer._next_task_id. cbn [fst]. intros H. discriminate H. Qed.

Lemma decompose_all_ids_helper (self : TimetableScheduler.t) (e : date) (s s' : State) (u : unit)
    (Hc : 0 <= task_counter s) (H : _decompose_all self e s = Ok (u, s')) :
  exists evs tps,
    tasks s' = tasks s ++ evs ++ tps
    /\ task_counter s' = task_counter s + Z.of_nat (length evs + length tps)
    /\ (forall j t, nth_error evs j = Some t ->
          StudyTask.task_id t = fst (TaskDecomposer._next_task_id "event" (task_counter s + Z.of_nat j)))
    /\ (forall j t, nth_error tps j = Some t ->
          StudyTask.task_id t = fst (TaskDecomposer._next_task_id "topic"
                                       (task_counter s + Z.of_nat (length evs) + Z.of_nat j)))
    /\ List.NoDup (map StudyTask.task_id (evs ++ tps)).
Proof.
  unfold _decompose_all in H.
  set (L := StudyPreferences.session_length_minutes (preferences self)) in H.
  destruct (fold_outer_ids (fun c ev => TaskDecomposer.decompose_event L c ev)
              (fun k => fst (TaskDecomposer._next_task_id "event" (k - 1))) (events self))
    with (ts := tasks s) (c := task_counter s) as [evs [Hf1 Hi1]].
  { intros c b. destruct (decompose_event_ids L c b) as [new [Hd Hn]].
    exists new. split; [exact Hd|]. intros j t Ht. rewrite (Hn j t Ht). do 2 f_equal. lia. }
  cbv beta in Hf1. rewrite Hf1 in H.
  destruct (fold_outer_ids (fun c tp => TaskDecomposer.decompose_topic L c tp (topic_deadline self e))
              (fun k => fst (TaskDecomposer._next_task_id "topic" (k - 1))) (topics self))
    with (ts := tasks s ++ evs) (c := task_counter s + Z.of_nat (length evs)) as [tps [Hf2 Hi2]].
  { intros c b. destruct (decompose_topic_ids L c b (topic_deadline self e)) as [new [Hd Hn]].
    exists new. split; [exact Hd|]. intros j t Ht. rewrite (Hn j t Ht). do 2 f_equal. lia. }
  cbv beta in Hf2. rewrite Hf2 in H. injection H as _ <-.
  exists evs, tps. cbn [tasks task_counter set_task_counter set_tasks].
  split; [rewrite app_assoc; reflexivity|]. split; [lia|].
  assert (He : forall j t, nth_error evs j = Some t ->
            StudyTask.task_id t = fst (TaskDecomposer._next_task_id "event" (task_counter s + Z.of_nat j))).
  { intros j t Ht. rewrite (Hi1 j t Ht). do 2 f_equal. lia. }
  assert (Ht : forall j t, nth_error tps j = Some t ->
            StudyTask.task_id t = fst (TaskDecomposer._next_task_id "topic"
                                         (task_counter s + Z.of_nat (length evs) + Z.of_nat j))).
  { intros j t Ht. rewrite (Hi2 j t Ht). do 2 f_equal. lia. }
  split; [exact He | split; [exact Ht|]].
  apply (NoDup_map_ids _ (fun k => if (k <? length evs)%nat
                                   then fst (TaskDecomposer._next_task_id "event" (task_counter s + Z.of_nat k))
                                   else fst (TaskDecomposer._next_task_id "topic"
                                               (task_counter s + Z.of_nat (length evs)
                                                + Z.of_nat (k - length evs))))).
  - intros k t Hk. destruct (Nat.ltb_spec k (length evs)) as [Hlt | Hge].
    + rewrite nth_error_app1 in Hk by exact Hlt. exact (He k t Hk).
    + rewrite nth_error_app2 in Hk by exact Hge. exact (Ht _ t Hk).
  - intros i j _ _. destruct (Nat.ltb_spec i (length evs)), (Nat.ltb_spec j (length evs)).
    + intros Hij. apply next_task_id_inj in Hij; lia.
    + intros Hij. exfalso. exact (event_topic_ids_differ _ _ Hij).
    + intros Hij. exfalso. exact (event_topic_ids_differ _ _ (eq_sym Hij)).
    + intros Hij. apply next_task_id_inj in Hij; lia.
Qed.

(** [_decompose_all()] appends the event tasks, then the topic tasks, and
    numbers them with the one decomposer counter: starting from counter
    [c >= 0], the [j]-th event task gets id ["event_" + f"{c+1+j:04d}"],
    the [j]-th topic task continues the count as ["topic_" + ...], and the
    counter ends advanced by the number of new tasks. All these ids are
    distinct. *)
Theorem decompose_all_task_ids (self : TimetableScheduler.t) (e : date) (s s' : State) (u : unit)
    (Hc : 0 <= task_counter s) (H : _decompose_all self e s = Ok (u, s')) :
  exists evs tps,
    tasks s' = tasks s ++ evs ++ tps
    /\ task_counter s' = task_counter s + Z.of_nat (length evs + length tps)
    /\ (forall j t, nth_error evs j = Some t ->
          StudyTask.task_id t = fst (TaskDecomposer._next_task_id "event" (task_counter s + Z.of_nat j)))
    /\ (forall j t, nth_error tps j = Some t ->
          StudyTask.task_id t = fst (TaskDecomposer._next_task_id "topic"
                                       (task_counter s + Z.of_nat (length evs) + Z.of_nat j)))
    /\ List.NoDup (map StudyTask.task_id (evs ++ tps)).
Proof.
  exact (decompose_all_ids_helper self e s s' u Hc H).
Qed.

Lemma decompose_all_task_ids_witness :
  exists s', _decompose_all one_topic_scheduler 738930 initial_state = Ok (tt, s')
    /\ exists evs tps,
      tasks s' = tasks initial_state ++ evs ++ tps
      /\ task_counter s' = task_counter initial_state + Z.of_nat (length evs + length tps)
      /\ (forall j t, nth_error evs j = Some t ->
            StudyTask.task_id t = fst (TaskDecomposer._next_task_id "event"
                                         (task_counter initial_state + Z.of_nat j)))
      /\ (forall j t, nth_error tps j = Some t ->
            StudyTask.task_id t = fst (TaskDecomposer._next_task_id "topic"
                                         (task_counter initial_state + Z.of_nat (length evs) + Z.of_nat j)))
      /\ List.NoDup (map StudyTask.task_id (evs ++ tps)).
Proof.
  destruct (_decompose_all one_topic_scheduler 738930 initial_state) as [[u s']|x] eqn:E;
    [|vm_compute in E; discriminate].
  destruct u. exists s'. split; [reflexivity|].
  apply (decompose_all_task_ids one_topic_scheduler 738930 initial_state s' tt); [vm_compute; discriminate | exact E].
Defined.

(** ** Task ids across the phases of [generate()] *)

Lemma ids_grow_same (s s' : State) :
  map StudyTask.task_id (tasks s') = map StudyTask.task_id (tasks s) ->
  task_counter s <= task_counter s' -> ids_grow s s'.
Proof.
  intros E C. split; [exact C|]. exists []. rewrite app_nil_r.
  split; [exact E | split; constructor].
Qed.

Lemma ids_grow_refl (s : State) : ids_grow s s.
Proof. apply ids_grow_same; [reflexivity | lia]. Qed.

Lemma ids_grow_trans (s1 s2 s3 : State) : ids_grow s1 s2 -> ids_grow s2 s3 -> ids_grow s1 s3.
Proof.
  intros [C1 [ks1 [E1 [F1 N1]]]] [C2 [ks2 [E2 [F2 N2]]]].
  split; [lia|]. exists (ks1 ++ ks2).
  split; [rewrite E2, E1, map_app, app_assoc; reflexivity|]. split.
  - apply List.Forall_app. split.
    + refine (List.Forall_impl _ _ F1). intros k Hk. lia.
    + refine (List.Forall_impl _ _ F2). intros k Hk. lia.
  - apply List.NoDup_app; [exact N1 | exact N2 |].
    intros k Hk1 Hk2.
    pose proof (proj1 (List.Forall_forall _ _) F1 k Hk1) as B1.
    pose proof (proj1 (List.Forall_forall _ _) F2 k Hk2) as B2. cbv beta in B1, B2. lia.
Qed.

Lemma grows_ret {A : Type} (a : A) : grows_ids (ret a).
Proof. intros s b s' H. unfold ret in H. injection H as _ <-. apply ids_grow_refl. Qed.

Lemma grows_lift {A : Type} (r : result A) : grows_ids (lift r).
Proof.
  intros s a s' H. unfold lift in H.
  destruct r; [injection H as _ <-; apply ids_grow_refl | discriminate].
Qed.

Lemma grows_bind {A B : Type} (m : M A) (f : A -> M B) :
  grows_ids m -> (forall a, grows_ids (f a)) -> grows_ids (bind m f).
Proof.
  intros Hm Hf s b s' H. unfold bind in H.
  destruct (m s) as [[a s1] | e] eqn:E; [|discriminate].
  exact (ids_grow_trans _ _ _ (Hm _ _ _ E) (Hf a _ _ _ H)).
Qed.

Lemma map_alter_task_ids (f : StudyTask.t -> StudyTask.t) (i : nat) (l : list StudyTask.t) :
  (forall x, StudyTask.task_id (f x) = StudyTask.task_id x) ->
  map StudyTask.task_id (alter f i l) = map StudyTask.task_id l.
Proof.
  intros Hf. revert i. induction l as [|x l IH]; intros [|i]; simpl;
    [reflexivity | reflexivity | f_equal; apply Hf | f_equal; apply IH].
Qed.

Lemma add_task_ids (self : TimetableScheduler.t) (idx : nat) (task : StudyTask.t)
    (cap : DayCapacity.t) (d : date) (s s' : State) (u : unit) :
  _add_task_to_schedule self idx task cap d s = Ok (u, s') ->
  map StudyTask.task_id (tasks s') = map StudyTask.task_id (tasks s)
  /\ task_counter s' = task_counter s.
Proof.
  unfold _add_task_to_schedule. destruct (schedule s !! d); [|discriminate].
  intros H. injection H as _ <-. cbn [tasks task_counter].
  split; [apply map_alter_task_ids; reflexivity | reflexivity].
Qed.

Lemma add_task_grows (self : TimetableScheduler.t) (idx : nat) (task : StudyTask.t)
    (cap : DayCapacity.t) (d : date) :
  grows_ids (_add_task_to_schedule self idx task cap d).
Proof.
  intros s u s' H. destruct (add_task_ids self idx task cap d s s' u H) as [E C].
  apply ids_grow_same; [exact E | lia].
Qed.

Lemma try_dates_grows (self : TimetableScheduler.t) (idx : nat) (task : StudyTask.t)
    (dates : list date) :
  grows_ids (_try_dates self idx task dates).
Proof.
  induction dates as [|d rest IH]; [apply grows_ret|].
  intros s a s' H. cbn [_try_dates] in H.
  destruct (capacity_map s !! d) as [cap|]; [|exact (IH s a s' H)].
  destruct (can_fit self cap task); [|exact (IH s a s' H)].
  exact (grows_bind _ _ (add_task_grows self idx task cap d) (fun _ => grows_ret true) s a s' H).
Qed.

Lemma try_fallback_grows (self : TimetableScheduler.t) (idx : nat) (task : StudyTask.t)
    (offsets : list Z) :
  grows_ids (_try_fallback self idx task offsets).
Proof.
  induction offsets as [|o rest IH]; [apply grows_ret|].
  cbn [_try_fallback]. apply grows_bind; [apply grows_lift|].
  intros fd s a s' H.
  destruct (capacity_map s !! fd) as [cap|]; [|exact (IH s a s' H)].
  destruct (can_fit self cap task); [|exact (IH s a s' H)].
  unfold bind in H.
  destruct (_add_task_to_schedule self idx task cap fd s) as [[u s1] | e] eqn:Ea; [|discriminate].
  injection H as _ <-. destruct (add_task_ids _ _ _ _ _ _ _ _ Ea) as [E C].
  apply ids_grow_same; [exact E | cbn [task_counter set_warnings]; lia].
Qed.

Lemma allocate_task_grows (self : TimetableScheduler.t) (idx : nat) (task : StudyTask.t) :
  grows_ids (_allocate_task self idx task).
Proof.
  unfold _allocate_task. apply grows_bind; [apply grows_lift|]. intros dates.
  apply grows_bind; [apply try_dates_grows|]. intros placed.
  destruct placed; [apply grows_ret|].
  destruct (StudyTask.priority task <=? 5); [apply try_fallback_grows | apply grows_ret].
Qed.

Lemma allocate_all_grows (self : TimetableScheduler.t) (ranked : list (nat * StudyTask.t)) :
  grows_ids (allocate_all self ranked).
Proof.
  induction ranked as [|[idx task] rest IH]; [apply grows_ret|].
  cbn [allocate_all]. apply grows_bind; [apply allocate_task_grows | intros _; exact IH].
Qed.

Lemma schedule_tasks_grows (self : TimetableScheduler.t) (end_date : date) :
  grows_ids (_schedule_tasks self end_date).
Proof. intros s a s' H. unfold _schedule_tasks in H. exact (allocate_all_grows self _ s a s' H). Qed.

Lemma try_revision_grows (self : TimetableScheduler.t) (src : StudyTask.t) (d : date) (i : Z) :
  grows_ids (try_revision self src d i).
Proof.
  intros s a s' H. unfold try_revision in H.
  assert (Hr : forall c,
    StudyTask.task_id (fst (TaskDecomposer.create_revision_task c src d i))
      = fst (TaskDecomposer._next_task_id "revision" c)
    /\ snd (TaskDecomposer.create_revision_task c src d i) = c + 1) by (intros c; split; reflexivity).
  destruct (Hr (task_counter s)) as [Hid Hc].
  destruct (TaskDecomposer.create_revision_task (task_counter s) src d i) as [rev c'] eqn:Er.
  cbn [fst snd] in Hid, Hc. subst c'.
  destruct (capacity_map (set_task_counter s (task_counter s + 1)) !! d) as [cap|];
    [|injection H as _ <-; apply ids_grow_same; [reflexivity | cbn [task_counter set_task_counter]; lia]].
  destruct (can_fit self cap rev);
    [|injection H as _ <-; apply ids_grow_same; [reflexivity | cbn [task_counter set_task_counter]; lia]].
  destruct (add_task_ids _ _ _ _ _ _ _ _ H) as [E C].
  cbn [tasks task_counter set_tasks set_task_counter] in E, C.
  split; [lia|]. exists [task_counter s]. split.
  - rewrite E, map_app. cbn [map]. rewrite Hid. reflexivity.
  - split; [constructor; [lia | constructor] | constructor; [intros [] | constructor]].
Qed.

Lemma revise_dates_grows (self : TimetableScheduler.t) (src : StudyTask.t)
    (dates : list date) (i : Z) :
  grows_ids (revise_dates self src dates i).
Proof.
  revert i. induction dates as [|d rest IH]; intros i; [apply grows_ret|].
  cbn [revise_dates]. apply grows_bind; [apply try_revision_grows | intros _; apply IH].
Qed.

Lemma revise_all_grows (self : TimetableScheduler.t) (end_date : date)
    (sources : list (string * StudyTask.t)) :
  grows_ids (revise_all self end_date sources).
Proof.
  induction sources as [|[tid src] rest IH]; [apply grows_ret|].
  cbn [revise_all]. destruct (StudyTask.scheduled_date src) as [sd|]; [|exact IH].
  apply grows_bind; [apply grows_lift|]. intros dates.
  apply grows_bind; [apply revise_dates_grows | intros _; exact IH].
Qed.

Lemma add_spaced_repetition_grows (self : TimetableScheduler.t) (end_date : date) :
  grows_ids (_add_spaced_repetition self end_date).
Proof. intros s a s' H. exact (revise_all_grows self end_date _ s a s' H). Qed.

Lemma initialize_schedule_grows (a b : date) : grows_ids (_initialize_schedule a b).
Proof.
  unfold _initialize_schedule. apply grows_bind; [apply grows_lift|].
  intros dates s u s' H. injection H as _ <-.
  apply ids_grow_same; [reflexivity | cbn [task_counter set_schedule]; lia].
Qed.

(** The task ids of a successful [generate()] are pairwise distinct: the
    decomposer numbers the event tasks, then the topic tasks, from one
    counter starting at 0 ([event_NNNN], [topic_NNNN]), and each revision
    task of [_add_spaced_repetition] takes the next value of the same
    counter under the prefix [revision_], whether or not it is placed. *)
Theorem generate_task_ids_unique (self : TimetableScheduler.t) (out : TimetableOutput.t)
    (Hgen : generate self = Ok out) :
  List.NoDup (map StudyTask.task_id (TimetableOutput.tasks out)).
Proof.
  unfold generate in Hgen.
  destruct (_determine_horizon self) as [e|] eqn:Eh; [|discriminate]. cbn [bind_r] in Hgen.
  unfold bind at 1 in Hgen.
  destruct (_decompose_all self e initial_state) as [[u1 s1]|] eqn:E1; [|discriminate].
  unfold bind at 1, lift at 1 in Hgen.
  destruct (CapacityPlanner.build_capacity_map (availability self) (preferences self)
              (current_date self) e) as [cm|] eqn:Ecm; [|discriminate].
  unfold bind at 1 in Hgen. unfold bind at 1 in Hgen.
  destruct (_initialize_schedule (current_date self) e (set_capacity_map s1 cm))
    as [[u3 s3]|] eqn:E3; [|discriminate].
  unfold bind at 1 in Hgen.
  destruct (_schedule_tasks self e s3) as [[u4 s4]|] eqn:E4; [|discriminate].
  unfold bind at 1 in Hgen.
  destruct (_add_spaced_repetition self e s4) as [[u5 s5]|] eqn:E5; [|discriminate].
  unfold _check_completeness in Hgen. injection Hgen as <-.
  cbn [TimetableOutput.tasks tasks set_warnings].
  pose proof (initialize_schedule_grows _ _ _ _ _ E3) as G3.
  pose proof (schedule_tasks_grows self e _ _ _ E4) as G4.
  pose proof (add_spaced_repetition_grows self e _ _ _ E5) as G5.
  destruct (ids_grow_trans _ _ _ G3 (ids_grow_trans _ _ _ G4 G5)) as [_ [ks [Eks [Fks Nks]]]].
  cbn [tasks task_counter set_capacity_map] in Eks, Fks.
  assert (H0 : 0 <= task_counter initial_state) by (cbn; lia).
  destruct (decompose_all_ids_helper self e initial_state s1 u1 H0 E1)
    as [evs [tps [Ht [Hcnt [Hev [Htp Hnd]]]]]].
  change (tasks initial_state) with (@nil StudyTask.t) in Ht.
  change (task_counter initial_state) with 0 in Hcnt.
  rewrite Eks, Ht. cbn [app].
  apply List.NoDup_app; [exact Hnd | |].
  - apply List.NoDup_map_NoDup_ForallPairs; [|exact Nks].
    intros a b Ha Hb Hab.
    pose proof (proj1 (List.Forall_forall _ _) Fks a Ha) as Ba.
    pose proof (proj1 (List.Forall_forall _ _) Fks b Hb) as Bb. cbv beta in Ba, Bb.
    apply next_task_id_inj in Hab; [exact Hab | lia | lia].
  - intros x Hx Hy. apply in_map_iff in Hy as [k [<- _]].
    apply in_map_iff in Hx as [t [Htid Hin]].
    apply in_app_or in Hin as [Hin|Hin]; apply In_nth_error in Hin as [j Hj];
      [rewrite (Hev j t Hj) in Htid | rewrite (Htp j t Hj) in Htid];
      unfold TaskDecomposer._next_task_id in Htid; cbn [fst] in Htid; discriminate Htid.
Qed.

Lemma generate_task_ids_unique_witness :
  exists out, generate one_topic_scheduler = Ok out
    /\ List.NoDup (map StudyTask.task_id (TimetableOutput.tasks out)).
Proof.
  destruct (generate one_topic_scheduler) as [out|e] eqn:E; [|vm_compute in E; discriminate].
  exists out. split; [reflexivity|]. exact (generate_task_ids_unique one_topic_scheduler out E).
Defined.

(** ** The schedule and the scheduled tasks of [generate()] *)

Lemma session_count_add_slot (ds : DaySchedule.t) (sl : TimeSlot.t) :
  TimeSlot.is_break sl = false ->
  DaySchedule.get_session_count (DaySchedule.add_slot ds sl)
  = S (DaySchedule.get_session_count ds).
Proof.
  intros Hb. unfold DaySchedule.get_session_count. rewrite add_slot_slots.
  rewrite filter_app, length_app, filter_cons_True, filter_nil; [simpl; lia|].
  rewrite Hb. exact I.
Qed.

Lemma scheduled_on_pending (d : date) (tk : StudyTask.t) :
  StudyTask.status tk = PENDING -> scheduled_on d tk = false.
Proof. intros H. unfold scheduled_on. rewrite H. reflexivity. Qed.

Lemma filter_alter_count (d d' : date) (k : Z) (idx : nat) (ts : list StudyTask.t)
    (tk0 : StudyTask.t) :
  ts !! idx = Some tk0 -> StudyTask.status tk0 = PENDING ->
  length (List.filter (scheduled_on d')
            (alter (fun tk => StudyTask.mark_scheduled tk d k) idx ts))
  = (length (List.filter (scheduled_on d') ts) + if (d =? d')%Z then 1 else 0)%nat.
Proof.
  set (f := fun tk => StudyTask.mark_scheduled tk d k).
  revert idx. induction ts as [|x ts IH]; intros [|idx] H Hp; try discriminate.
  - injection H as <-.
    assert (E : @alter nat StudyTask.t (list StudyTask.t) _ f 0%nat (x :: ts) = f x :: ts) by reflexivity. rewrite E.
    cbn [List.filter length]. rewrite (scheduled_on_pending d' x Hp).
    change (scheduled_on d' (f x)) with (d =? d').
    destruct (d =? d'); simpl; lia.
  - assert (E : @alter nat StudyTask.t (list StudyTask.t) _ f (S idx) (x :: ts) = x :: alter f idx ts) by reflexivity. rewrite E.
    cbn [List.filter length]. simpl in H. pose proof (IH idx H Hp) as IH'.
    destruct (scheduled_on d' x); cbn [length]; rewrite IH'; lia.
Qed.

Lemma task_slot_ok_extend (sched sched' : gmap Z DaySchedule.t) (tk : StudyTask.t) :
  (forall d ds, sched !! d = Some ds ->
     exists ds' l, sched' !! d = Some ds' /\ DaySchedule.slots ds' = DaySchedule.slots ds ++ l) ->
  task_slot_ok sched tk -> task_slot_ok sched' tk.
Proof.
  intros Hext [Hp | [Hs [d [k [ds [sl [Hd [Hk [Hk0 [Hl [Hn Hid]]]]]]]]]]]; [left; exact Hp|].
  right. split; [exact Hs|]. destruct (Hext d ds Hl) as [ds' [l [Hl' Happ]]].
  exists d, k, ds', sl. repeat split; try assumption.
  rewrite Happ, nth_error_app1; [exact Hn|]. apply nth_error_Some. congruence.
Qed.

Lemma add_match_core (sched : gmap Z DaySchedule.t) (ts : list StudyTask.t) (d : Z)
    (ds ds' : DaySchedule.t) (sl : TimeSlot.t) (idx : nat) (task : StudyTask.t) :
  slots_match sched ts -> ts !! idx = Some task -> StudyTask.status task = PENDING ->
  sched !! d = Some ds -> TimeSlot.task_id sl = StudyTask.task_id task ->
  DaySchedule.slots ds' = DaySchedule.slots ds ++ [sl] ->
  DaySchedule.get_session_count ds' = S (DaySchedule.get_session_count ds) ->
  slots_match (<[d := ds']> sched)
    (alter (fun tk => StudyTask.mark_scheduled tk d
                        (Z.of_nat (length (DaySchedule.slots ds ++ [sl])) - 1)) idx ts).
Proof.
  intros [HA HB] Hidx Hp Hd Hid Hsl Hcnt.
  set (k := Z.of_nat (length (DaySchedule.slots ds ++ [sl])) - 1).
  split.
  - apply Forall_lookup. intros i x Hx. rewrite list_lookup_alter in Hx.
    destruct (decide (idx = i)) as [<-|Hne].
    + rewrite Hidx in Hx. simpl in Hx. injection Hx as <-. right. split; [reflexivity|].
      exists d, k, ds', sl. split; [reflexivity|]. split; [reflexivity|].
      split; [unfold k; rewrite length_app; simpl; lia|].
      split; [apply lookup_insert_eq|]. split; [|exact Hid].
      replace (Z.to_nat k) with (length (DaySchedule.slots ds))
        by (unfold k; rewrite length_app; simpl; lia).
      rewrite Hsl, nth_error_app2, Nat.sub_diag by lia. reflexivity.
    + apply (task_slot_ok_extend sched).
      * intros d0 ds0 H0. destruct (decide (d = d0)) as [<-|Hne'].
        -- exists ds', [sl]. split; [apply lookup_insert_eq|]. congruence.
        -- exists ds0, []. rewrite lookup_insert_ne by exact Hne'. rewrite app_nil_r.
           split; [exact H0 | reflexivity].
      * exact (proj1 (Forall_lookup _ _) HA i x Hx).
  - intros d0 ds0 H0. rewrite (filter_alter_count d d0 k idx ts task Hidx Hp).
    apply lookup_insert_Some in H0 as [[<- <-] | [Hne H0]].
    + rewrite Hcnt, (HB d ds Hd), Z.eqb_refl. lia.
    + rewrite (HB d0 ds0 H0). rewrite (proj2 (Z.eqb_neq d d0) Hne). lia.
Qed.

Lemma add_task_match (self : TimetableScheduler.t) (idx : nat) (task : StudyTask.t)
    (cap : DayCapacity.t) (d : date) (s s' : State) (u : unit) :
  slots_match (schedule s) (tasks s) -> tasks s !! idx = Some task ->
  StudyTask.status task = PENDING ->
  _add_task_to_schedule self idx task cap d s = Ok (u, s') ->
  slots_match (schedule s') (tasks s') /\ (forall j, j <> idx -> tasks s' !! j = tasks s !! j).
Proof.
  intros HM Hidx Hp H. unfold _add_task_to_schedule in H.
  destruct (schedule s !! d) as [ds|] eqn:Eds; [|discriminate].
  injection H as _ <-. cbn [tasks schedule]. split.
  - match goal with |- context [DaySchedule.add_slot ds ?sl] =>
      destruct (0 <? _); (apply (add_match_core _ _ d ds _ sl idx task);
        [exact HM | exact Hidx | exact Hp | exact Eds | reflexivity
        | rewrite ?add_slot_slots; reflexivity | apply session_count_add_slot; reflexivity])
    end.
  - intros j Hj. apply list_lookup_alter_ne. congruence.
Qed.

Lemma try_dates_false (self : TimetableScheduler.t) (idx : nat) (task : StudyTask.t)
    (dates : list date) (s s' : State) :
  _try_dates self idx task dates s = Ok (false, s') -> s' = s.
Proof.
  induction dates as [|d rest IH]; intros H.
  - unfold _try_dates, ret in H. injection H as <-. reflexivity.
  - cbn [_try_dates] in H. destruct (capacity_map s !! d) as [cap|]; [|exact (IH H)].
    destruct (can_fit self cap task); [|exact (IH H)].
    unfold bind in H. destruct (_add_task_to_schedule self idx task cap d s) as [[u s1]|e];
      [|discriminate].
    unfold ret in H. discriminate H.
Qed.

Lemma try_dates_match (self : TimetableScheduler.t) (idx : nat) (task : StudyTask.t)
    (dates : list date) (s s' : State) (a : bool) :
  slots_match (schedule s) (tasks s) -> tasks s !! idx = Some task ->
  StudyTask.status task = PENDING ->
  _try_dates self idx task dates s = Ok (a, s') ->
  slots_match (schedule s') (tasks s') /\ (forall j, j <> idx -> tasks s' !! j = tasks s !! j).
Proof.
  intros HM Hidx Hp. induction dates as [|d rest IH]; intros H.
  - unfold _try_dates, ret in H. injection H as _ <-. split; [exact HM | reflexivity].
  - cbn [_try_dates] in H. destruct (capacity_map s !! d) as [cap|]; [|exact (IH H)].
    destruct (can_fit self cap task); [|exact (IH H)].
    unfold bind in H.
    destruct (_add_task_to_schedule self idx task cap d s) as [[u s1]|e] eqn:Ea; [|discriminate].
    unfold ret in H. injection H as _ <-. exact (add_task_match self idx task cap d s s1 u HM Hidx Hp Ea).
Qed.

Lemma try_fallback_match (self : TimetableScheduler.t) (idx : nat) (task : StudyTask.t)
    (offsets : list Z) (s s' : State) (a : bool) :
  slots_match (schedule s) (tasks s) -> tasks s !! idx = Some task ->
  StudyTask.status task = PENDING ->
  _try_fallback self idx task offsets s = Ok (a, s') ->
  slots_match (schedule s') (tasks s') /\ (forall j, j <> idx -> tasks s' !! j = tasks s !! j).
Proof.
  intros HM Hidx Hp. induction offsets as [|o rest IH]; intros H.
  - unfold _try_fallback, ret in H. injection H as _ <-. split; [exact HM | reflexivity].
  - cbn [_try_fallback] in H. unfold bind at 1, lift at 1 in H.
    destruct (add_days (StudyTask.deadline task) o) as [fd|e]; [|discriminate].
    cbv beta in H.
    destruct (capacity_map s !! fd) as [cap|]; [|exact (IH H)].
    destruct (can_fit self cap task); [|exact (IH H)].
    unfold bind in H.
    destruct (_add_task_to_schedule self idx task cap fd s) as [[u s1]|e] eqn:Ea; [|discriminate].
    injection H as _ <-. exact (add_task_match self idx task cap fd s s1 u HM Hidx Hp Ea).
Qed.

Lemma allocate_task_match (self : TimetableScheduler.t) (idx : nat) (task : StudyTask.t)
    (s s' : State) (a : bool) :
  slots_match (schedule s) (tasks s) -> tasks s !! idx = Some task ->
  StudyTask.status task = PENDING ->
  _allocate_task self idx task s = Ok (a, s') ->
  slots_match (schedule s') (tasks s') /\ (forall j, j <> idx -> tasks s' !! j = tasks s !! j).
Proof.
  intros HM Hidx Hp H. unfold _allocate_task in H. unfold bind at 1, lift at 1 in H.
  destruct (date_range (current_date self) (StudyTask.deadline task)) as [dates|e]; [|discriminate].
  unfold bind at 1 in H.
  destruct (_try_dates self idx task dates s) as [[placed s1]|e] eqn:E1; [|discriminate].
  destruct placed.
  - unfold ret in H. injection H as _ <-. exact (try_dates_match self idx task dates s s1 true HM Hidx Hp E1).
  - apply try_dates_false in E1. subst s1.
    destruct (StudyTask.priority task <=? 5).
    + exact (try_fallback_match self idx task _ s s' a HM Hidx Hp H).
    + unfold ret in H. injection H as _ <-. split; [exact HM | reflexivity].
Qed.

Lemma allocate_all_match (self : TimetableScheduler.t) (ranked : list (nat * StudyTask.t))
    (s s' : State) (a : unit) :
  slots_match (schedule s) (tasks s) ->
  List.Forall (fun e => tasks s !! fst e = Some (snd e) /\ StudyTask.status (snd e) = PENDING) ranked ->
  List.NoDup (map fst ranked) ->
  allocate_all self ranked s = Ok (a, s') -> slots_match (schedule s') (tasks s').
Proof.
  revert s. induction ranked as [|[idx task] rest IH]; intros s HM Hf Hnd H.
  - unfold allocate_all, ret in H. injection H as _ <-. exact HM.
  - cbn [allocate_all] in H. unfold bind in H.
    destruct (_allocate_task self idx task s) as [[b s1]|e] eqn:E1; [|discriminate].
    inversion Hf as [|? ? [Hidx Hp] Hf']; subst.
    inversion Hnd as [|? ? Hni Hnd']; subst.
    destruct (allocate_task_match self idx task s s1 b HM Hidx Hp E1) as [HM1 Hj].
    apply (IH s1 HM1); [|exact Hnd' | exact H].
    apply List.Forall_forall. intros [j tk] Hin.
    pose proof (proj1 (List.Forall_forall _ _) Hf' (j, tk) Hin) as [Hl Hs]. cbn [fst snd] in *.
    split; [|exact Hs]. rewrite Hj; [exact Hl|].
    intros ->. apply Hni. apply (in_map fst rest (idx, tk)). exact Hin.
Qed.

Lemma in_combine_seq {A : Type} (l : list A) (k i : nat) (x : A) :
  In (i, x) (combine (seq k (length l)) l) -> l !! (i - k)%nat = Some x /\ (k <= i)%nat.
Proof.
  revert k. induction l as [|y l IH]; intros k H; [destruct H|].
  simpl in H. destruct H as [H | H].
  - injection H as <- <-. rewrite Nat.sub_diag. split; [reflexivity | lia].
  - destruct (IH (S k) H) as [Hl Hk]. split; [|lia].
    replace (i - k)%nat with (S (i - S k)) by lia. exact Hl.
Qed.

Lemma map_fst_combine_seq {A : Type} (l : list A) (k : nat) :
  map fst (combine (seq k (length l)) l) = seq k (length l).
Proof. revert k. induction l as [|y l IH]; intros k; simpl; [reflexivity | f_equal; apply IH]. Qed.

Lemma NoDup_map_fst_filter {A B : Type} (f : A * B -> bool) (l : list (A * B)) :
  List.NoDup (map fst l) -> List.NoDup (map fst (filter f l)).
Proof.
  induction l as [|x l IH]; intros H; [rewrite filter_nil; constructor|].
  inversion H as [|? ? Hn H']; subst. rewrite filter_cons.
  case_decide; [|exact (IH H')].
  simpl. constructor; [|exact (IH H')].
  intros Hin. apply Hn. apply in_map_iff in Hin as [y [Hy Hin]].
  apply list_elem_of_In, list_elem_of_filter in Hin as [_ Hin]. apply list_elem_of_In in Hin.
  rewrite <- Hy. apply in_map. exact Hin.
Qed.

Lemma schedule_tasks_match (self : TimetableScheduler.t) (end_date : date) (s s' : State) (a : unit) :
  slots_match (schedule s) (tasks s) -> _schedule_tasks self end_date s = Ok (a, s') ->
  slots_match (schedule s') (tasks s').
Proof.
  intros HM H. unfold _schedule_tasks in H.
  match type of H with allocate_all _ (map _ (Scoring.rank_tasks_of _ _ ?p _ _)) _ = _ =>
    set (pending := p) in H end.
  match type of H with allocate_all _ ?r _ = _ =>
    assert (Hperm : Permutation r pending) end.
  { unfold Scoring.rank_tasks_of.
    etransitivity; [apply Permutation_map, stable_sort_perm|].
    rewrite map_map. rewrite (map_ext _ (fun x => x)) by reflexivity. rewrite map_id. reflexivity. }
  assert (Hpf : List.Forall (fun e => tasks s !! fst e = Some (snd e)
                                     /\ StudyTask.status (snd e) = PENDING) pending).
  { apply List.Forall_forall. intros [i tk] Hin. unfold pending in Hin.
    apply list_elem_of_In, list_elem_of_filter in Hin as [Hst Hin]. apply list_elem_of_In in Hin.
    unfold indexed in Hin. apply in_combine_seq in Hin as [Hl _]. rewrite Nat.sub_0_r in Hl.
    split; [exact Hl|]. cbn [snd] in Hst |- *.
    destruct (StudyTask.status tk); try reflexivity; exfalso; exact Hst. }
  assert (Hpn : List.NoDup (map fst pending)).
  { unfold pending. apply NoDup_map_fst_filter. unfold indexed. rewrite map_fst_combine_seq.
    apply seq_NoDup. }
  eapply allocate_all_match; [exact HM | | | exact H].
  - exact (Permutation_Forall (Permutation_sym Hperm) Hpf).
  - exact (Permutation_NoDup (Permutation_map fst (Permutation_sym Hperm)) Hpn).
Qed.

Lemma slots_match_append_pending (sched : gmap Z DaySchedule.t) (ts : list StudyTask.t)
    (tk : StudyTask.t) :
  slots_match sched ts -> StudyTask.status tk = PENDING -> slots_match sched (ts ++ [tk]).
Proof.
  intros [HA HB] Hp. split.
  - apply List.Forall_app. split; [exact HA | constructor; [left; exact Hp | constructor]].
  - intros d ds H. rewrite List.filter_app, length_app. cbn [List.filter].
    rewrite (scheduled_on_pending d tk Hp), (HB d ds H). cbn [length]. lia.
Qed.

Lemma try_revision_match (self : TimetableScheduler.t) (src : StudyTask.t) (d : date) (i : Z) :
  preserves (fun s => slots_match (schedule s) (tasks s)) (try_revision self src d i).
Proof.
  intros s a s' HM H. unfold try_revision in H.
  assert (Hp : StudyTask.status (fst (TaskDecomposer.create_revision_task (task_counter s) src d i))
               = PENDING) by reflexivity.
  destruct (TaskDecomposer.create_revision_task (task_counter s) src d i) as [rev c'].
  cbn [fst] in Hp.
  destruct (capacity_map (set_task_counter s c') !! d) as [cap|];
    [|injection H as _ <-; exact HM].
  destruct (can_fit self cap rev); [|injection H as _ <-; exact HM].
  refine (proj1 (add_task_match self _ rev cap d _ s' a _ _ Hp H)).
  - exact (slots_match_append_pending _ _ rev HM Hp).
  - apply list_lookup_middle. reflexivity.
Qed.

Lemma revise_dates_match (self : TimetableScheduler.t) (src : StudyTask.t) (dates : list date)
    (i : Z) :
  preserves (fun s => slots_match (schedule s) (tasks s)) (revise_dates self src dates i).
Proof.
  revert i. induction dates as [|d rest IH]; intros i; [apply preserves_ret|].
  cbn [revise_dates]. apply preserves_bind; [apply try_revision_match | intros _; apply IH].
Qed.

Lemma revise_all_match (self : TimetableScheduler.t) (end_date : date)
    (sources : list (string * StudyTask.t)) :
  preserves (fun s => slots_match (schedule s) (tasks s)) (revise_all self end_date sources).
Proof.
  induction sources as [|[tid src] rest IH]; [apply preserves_ret|].
  cbn [revise_all]. destruct (StudyTask.scheduled_date src) as [sd|]; [|exact IH].
  apply preserves_bind; [apply preserves_lift|]. intros dates.
  apply preserves_bind; [apply revise_dates_match | intros _; exact IH].
Qed.

Lemma add_spaced_repetition_match (self : TimetableScheduler.t) (end_date : date) :
  preserves (fun s => slots_match (schedule s) (tasks s)) (_add_spaced_repetition self end_date).
Proof. intros s a s' HM H. exact (revise_all_match self end_date _ s a s' HM H). Qed.

Lemma init_schedule_slots (dates : list date) (m : gmap Z DaySchedule.t) :
  (forall d ds, m !! d = Some ds -> DaySchedule.slots ds = []) ->
  forall d ds, fold_left (fun m d => <[d := DaySchedule.new d]> m) dates m !! d = Some ds ->
  DaySchedule.slots ds = [].
Proof.
  revert m. induction dates as [|x rest IH]; intros m Hm; [exact Hm|].
  cbn [fold_left]. apply IH. intros d ds H.
  apply lookup_insert_Some in H as [[_ <-] | [_ H]]; [reflexivity | exact (Hm d ds H)].
Qed.

Lemma slots_match_fresh (sched : gmap Z DaySchedule.t) (ts : list StudyTask.t) :
  List.Forall (fun tk => StudyTask.status tk = PENDING) ts ->
  (forall d ds, sched !! d = Some ds -> DaySchedule.slots ds = []) ->
  slots_match sched ts.
Proof.
  intros Hp Hs. split.
  - refine (List.Forall_impl _ _ Hp). intros tk H. left. exact H.
  - intros d ds H. unfold DaySchedule.get_session_count. rewrite (Hs d ds H).
    rewrite filter_all_false; [reflexivity|]. intros tk Hin.
    apply scheduled_on_pending. exact (proj1 (List.Forall_forall _ _) Hp tk Hin).
Qed.

(** In a successful [generate()] output, the schedule and the task list
    agree. Every [SCHEDULED] task has a [scheduled_date] for which
    [get_schedule_for_date] returns a day, and its [scheduled_slot] is a
    valid index into that day's slots, at a slot carrying the task's id.
    Every day's [get_session_count()] is the number of tasks scheduled on
    it. *)
Theorem generate_schedule_consistent (self : TimetableScheduler.t) (out : TimetableOutput.t)
    (Hgen : generate self = Ok out) :
  (forall tk, In tk (TimetableOutput.tasks out) -> StudyTask.status tk = SCHEDULED ->
     exists d k ds sl,
       StudyTask.scheduled_date tk = Some d /\ StudyTask.scheduled_slot tk = Some k /\ 0 <= k
       /\ TimetableOutput.get_schedule_for_date out d = Some ds
       /\ nth_error (DaySchedule.slots ds) (Z.to_nat k) = Some sl
       /\ TimeSlot.task_id sl = StudyTask.task_id tk)
  /\ (forall d ds, TimetableOutput.get_schedule_for_date out d = Some ds ->
       DaySchedule.get_session_count ds
       = length (List.filter (fun tk => TaskStatus_eqb (StudyTask.status tk) SCHEDULED
                                        && match StudyTask.scheduled_date tk with
                                           | Some d' => d' =? d
                                           | None => false
                                           end)
                             (TimetableOutput.tasks out))).
Proof.
  unfold generate in Hgen.
  destruct (_determine_horizon self) as [e|] eqn:Eh; [|discriminate]. cbn [bind_r] in Hgen.
  unfold bind at 1 in Hgen.
  destruct (_decompose_all self e initial_state) as [[u1 s1]|] eqn:E1; [|discriminate].
  unfold bind at 1, lift at 1 in Hgen.
  destruct (CapacityPlanner.build_capacity_map (availability self) (preferences self)
              (current_date self) e) as [cm|] eqn:Ecm; [|discriminate].
  unfold bind at 1 in Hgen. unfold bind at 1 in Hgen.
  destruct (_initialize_schedule (current_date self) e (set_capacity_map s1 cm))
    as [[u3 s3]|] eqn:E3; [|discriminate].
  unfold bind at 1 in Hgen.
  destruct (_schedule_tasks self e s3) as [[u4 s4]|] eqn:E4; [|discriminate].
  unfold bind at 1 in Hgen.
  destruct (_add_spaced_repetition self e s4) as [[u5 s5]|] eqn:E5; [|discriminate].
  unfold _check_completeness in Hgen. injection Hgen as <-.
  assert (Hp1 : List.Forall (fun tk => StudyTask.status tk = PENDING) (tasks s1)).
  { refine (decompose_all_pending_ok self _ e initial_state s1 u1 _ _ E1);
      [intros tk H; exact H | constructor]. }
  destruct (decompose_all_schedule self e initial_state s1 u1 E1) as [Hs1 _].
  assert (HM3 : slots_match (schedule s3) (tasks s3)).
  { unfold _initialize_schedule, bind, lift in E3.
    destruct (date_range (current_date self) e) as [dates|x]; [|discriminate].
    injection E3 as _ <-. apply slots_match_fresh; [exact Hp1|].
    apply init_schedule_slots. intros d ds H. cbn [schedule set_capacity_map] in H.
    rewrite Hs1 in H. cbn in H. rewrite lookup_empty in H. discriminate. }
  pose proof (schedule_tasks_match self e s3 s4 u4 HM3 E4) as HM4.
  pose proof (add_spaced_repetition_match self e s4 u5 s5 HM4 E5) as [HA HB].
  split.
  - intros tk Hin Hs. pose proof (proj1 (List.Forall_forall _ _) HA tk Hin) as [Hp | [_ Hx]];
      [congruence | exact Hx].
  - intros d ds H. exact (HB d ds H).
Qed.

Lemma generate_schedule_consistent_witness :
  exists out, generate one_topic_scheduler = Ok out
    /\ (forall tk, In tk (TimetableOutput.tasks out) -> StudyTask.status tk = SCHEDULED ->
       exists d k ds sl,
         StudyTask.scheduled_date tk = Some d /\ StudyTask.scheduled_slot tk = Some k /\ 0 <= k
         /\ TimetableOutput.get_schedule_for_date out d = Some ds
         /\ nth_error (DaySchedule.slots ds) (Z.to_nat k) = Some sl
         /\ TimeSlot.task_id sl = StudyTask.task_id tk)
    /\ (forall d ds, TimetableOutput.get_schedule_for_date out d = Some ds ->
         DaySchedule.get_session_count ds
         = length (List.filter (fun tk => TaskStatus_eqb (StudyTask.status tk) SCHEDULED
                                          && match StudyTask.scheduled_date tk with
                                             | Some d' => d' =? d
                                             | None => false
                                             end)
                               (TimetableOutput.tasks out))).
Proof.
  destruct (generate one_topic_scheduler) as [out|e] eqn:E; [|vm_compute in E; discriminate].
  exists out. split; [reflexivity|]. exact (generate_schedule_consistent one_topic_scheduler out E).
Defined.

(** ** [format_duration] *)

Lemma py_str_Z_abs_value (n : Z) :
  PyLib.digits_value (digits_fuel (S (Z.to_nat (Z.log2 (Z.abs n)))) (Z.abs n) EmptyString) 0
  = Some (Z.abs n).
Proof.
  rewrite digits_fuel_value; [f_equal; lia|]. split; [lia|].
  destruct (Z.eq_dec (Z.abs n) 0) as [E | E].
  - rewrite E. simpl. lia.
  - assert (Hs : 2 ^ Z.log2 (Z.abs n) <= Z.abs n < 2 ^ Z.succ (Z.log2 (Z.abs n)))
      by (apply Z.log2_spec; lia).
    assert (Hl : 0 <= Z.log2 (Z.abs n)) by apply Z.log2_nonneg.
    replace (Z.of_nat (S (Z.to_nat (Z.log2 (Z.abs n))))) with (Z.succ (Z.log2 (Z.abs n))) by lia.
    assert (Hp : 2 ^ Z.succ (Z.log2 (Z.abs n)) <= 10 ^ Z.succ (Z.log2 (Z.abs n)))
      by (apply Z.pow_le_mono_l; lia).
    lia.
Qed.

Lemma py_str_Z_cases (n : Z) :
  (0 <= n /\ PyLib.digits_value (py_str_Z n) 0 = Some n)
  \/ (n < 0 /\ exists D, py_str_Z n = String "-" D /\ PyLib.digits_value D 0 = Some (- n)).
Proof.
  pose proof (py_str_Z_abs_value n) as Hv. unfold py_str_Z.
  destruct (Z.ltb_spec n 0) as [Hn | Hn].
  - right. split; [exact Hn|]. eexists. split; [reflexivity|]. rewrite Hv. f_equal. lia.
  - left. split; [exact Hn|]. rewrite Hv. f_equal. lia.
Qed.

Lemma py_str_Z_inj (a b : Z) : py_str_Z a = py_str_Z b -> a = b.
Proof.
  intros H. destruct (py_str_Z_cases a) as [[Ha Va] | [Ha [Da [Ea Va]]]];
    destruct (py_str_Z_cases b) as [[Hb Vb] | [Hb [Db [Eb Vb]]]].
  - rewrite H in Va. congruence.
  - rewrite H, Eb in Va. cbv in Va. discriminate Va.
  - rewrite <- H, Ea in Vb. cbv in Vb. discriminate Vb.
  - rewrite Ea, Eb in H. injection H as <-. rewrite Va in Vb. injection Vb. lia.
Qed.

Lemma string_snoc_inj (s1 s2 : string) (c1 c2 : ascii) :
  append s1 (String c1 EmptyString) = append s2 (String c2 EmptyString) -> s1 = s2 /\ c1 = c2.
Proof.
  revert s2. induction s1 as [|x s1 IH]; intros [|y s2] H.
  - injection H as <-. split; reflexivity.
  - injection H as _ H. destruct s2; discriminate H.
  - injection H as _ H. destruct s1; discriminate H.
  - injection H as <- H. destruct (IH s2 H) as [<- <-]. split; reflexivity.
Qed.

Lemma digit_h : PyLib.digit "h"%char = None.
Proof. reflexivity. Qed.

Lemma split_at_h (s1 s2 t1 t2 : string) (a1 a2 : Z) :
  PyLib.digits_value s1 a1 <> None -> PyLib.digits_value s2 a2 <> None ->
  append s1 (String "h" t1) = append s2 (String "h" t2) -> s1 = s2 /\ t1 = t2.
Proof.
  revert s2 a1 a2. induction s1 as [|x s1 IH]; intros [|y s2] a1 a2 H1 H2 H.
  - injection H as <-. split; reflexivity.
  - injection H as <- _. exfalso. apply H2. cbn [PyLib.digits_value]. rewrite digit_h. reflexivity.
  - injection H as -> _. exfalso. apply H1. cbn [PyLib.digits_value]. rewrite digit_h. reflexivity.
  - injection H as <- H. cbn [PyLib.digits_value] in H1, H2.
    destruct (PyLib.digit x) as [v|]; [|exfalso; apply H1; reflexivity].
    destruct (IH s2 _ _ H1 H2 H) as [<- <-]. split; reflexivity.
Qed.

Lemma py_str_Z_no_h (n hb : Z) (t : string) :
  0 <= hb -> py_str_Z n <> append (py_str_Z hb) (String "h" t).
Proof.
  intros Hhb H. destruct (py_str_Z_cases hb) as [[_ Vb] | [Hneg _]]; [|lia].
  destruct (py_str_Z_cases n) as [[_ Vn] | [_ [D [E _]]]].
  - rewrite H, digits_value_append, Vb in Vn. cbn [PyLib.digits_value] in Vn.
    rewrite digit_h in Vn. discriminate Vn.
  - rewrite E in H. destruct (py_str_Z hb) as [|c r] eqn:Eh.
    + discriminate H.
    + injection H as <- _. cbv in Vb. discriminate Vb.
Qed.

(** [format_duration] loses nothing: two minute counts (any integers,
    negative ones included) that render to the same string are equal. The
    three shapes [Nm], [Nh] and [Nh Mm] are told apart by their last
    character and by the [h], which no [str(int)] contains. *)
Theorem format_duration_injective (a b : Z) : format_duration a = format_duration b -> a = b.
Proof.
  unfold format_duration.
  assert (Hrep : forall n, 60 <= n -> n = 60 * (n / 60) + n mod 60 /\ 1 <= n / 60
                           /\ 0 <= n mod 60 < 60).
  { intros n Hn. split; [apply Z.div_mod; lia|]. split.
    - apply Z.div_le_lower_bound; lia.
    - apply Z.mod_pos_bound; lia. }
  assert (Hm : forall h r, append (py_str_Z h) (append "h " (append (py_str_Z r) "m"))
                           = append (append (py_str_Z h) (String "h" (String " " (py_str_Z r))))
                                    (String "m" EmptyString)).
  { intros h r. rewrite string_append_assoc. reflexivity. }
  destruct (Z.ltb_spec a 60) as [Ha|Ha]; destruct (Z.ltb_spec b 60) as [Hb|Hb].
  - intros H. apply string_snoc_inj in H as [H _]. exact (py_str_Z_inj a b H).
  - destruct (Hrep b Hb) as [Rb [Hb1 Hb2]].
    destruct (b mod 60 =? 0); intros H.
    + apply string_snoc_inj in H as [_ H]. discriminate H.
    + rewrite Hm in H. apply string_snoc_inj in H as [H _].
      exfalso. exact (py_str_Z_no_h a (b / 60) _ ltac:(lia) H).
  - destruct (Hrep a Ha) as [Ra [Ha1 Ha2]].
    destruct (a mod 60 =? 0); intros H.
    + apply string_snoc_inj in H as [_ H]. discriminate H.
    + rewrite Hm in H. apply string_snoc_inj in H as [H _].
      exfalso. exact (py_str_Z_no_h b (a / 60) _ ltac:(lia) (eq_sym H)).
  - destruct (Hrep a Ha) as [Ra [Ha1 Ha2]]. destruct (Hrep b Hb) as [Rb [Hb1 Hb2]].
    destruct (py_str_Z_cases (a / 60)) as [[_ Va] | [? _]]; [|lia].
    destruct (py_str_Z_cases (b / 60)) as [[_ Vb] | [? _]]; [|lia].
    destruct (Z.eqb_spec (a mod 60) 0) as [Ea|Ea]; destruct (Z.eqb_spec (b mod 60) 0) as [Eb|Eb];
      intros H.
    + apply string_snoc_inj in H as [H _]. apply py_str_Z_inj in H. lia.
    + rewrite Hm in H. apply string_snoc_inj in H as [_ H]. discriminate H.
    + rewrite Hm in H. apply string_snoc_inj in H as [_ H]. discriminate H.
    + rewrite !Hm in H. apply string_snoc_inj in H as [H _].
      apply split_at_h with (a1 := 0) (a2 := 0) in H as [H1 H2];
        [| rewrite Va; discriminate | rewrite Vb; discriminate].
      injection H2 as H2. apply py_str_Z_inj in H1, H2. lia.
Qed.

Lemma format_duration_injective_witness : format_duration 90 = format_duration 90 /\ 90 = 90.
Proof. split; [reflexivity | apply (format_duration_injective 90 90); reflexivity]. Defined.

(** ** [filter_schedulable_tasks] *)

Lemma TaskStatus_eqb_true (a b : TaskStatus) : TaskStatus_eqb a b = true <-> a = b.
Proof. destruct a, b; split; intros H; try reflexivity; discriminate H. Qed.

Lemma filter_filter_weaker {A : Type} (f g : A -> bool) (l : list A) :
  (forall x, f x = true -> g x = true) -> List.filter f (List.filter g l) = List.filter f l.
Proof.
  intros Hfg. induction l as [|x l IH]; [reflexivity|]. cbn [List.filter].
  destruct (g x) eqn:Eg; [cbn [List.filter]; destruct (f x); [f_equal|]; exact IH|].
  destruct (f x) eqn:Ef; [rewrite (Hfg x Ef) in Eg; discriminate Eg | exact IH].
Qed.

(** [filter_schedulable_tasks] keeps, in their order, exactly the tasks
    that are not [COMPLETED] and whose deadline is at least the day before
    [current_date]. Filtering at a date and then at a later one is the
    same as filtering at the later date: a task dropped on some day is
    never schedulable again later. *)
Theorem filter_schedulable_tasks_spec (ts : list StudyTask.t) (d : date) :
  (forall t, In t (Scoring.filter_schedulable_tasks ts d)
             <-> In t ts /\ StudyTask.status t <> COMPLETED /\ d - 1 <= StudyTask.deadline t)
  /\ (forall d', d <= d' ->
        Scoring.filter_schedulable_tasks (Scoring.filter_schedulable_tasks ts d) d'
        = Scoring.filter_schedulable_tasks ts d').
Proof.
  unfold Scoring.filter_schedulable_tasks. split.
  - intros t. rewrite filter_In, andb_true_iff, !negb_true_iff, Z.ltb_ge.
    unfold days_between. split.
    + intros [Hin [Hs Hd]]. split; [exact Hin|]. split; [|lia].
      intros Hc. rewrite Hc in Hs. discriminate Hs.
    + intros [Hin [Hs Hd]]. split; [exact Hin|]. split; [|lia].
      destruct (TaskStatus_eqb (StudyTask.status t) COMPLETED) eqn:E; [|reflexivity].
      apply TaskStatus_eqb_true in E. contradiction.
  - intros d' Hdd. apply filter_filter_weaker. intros t.
    rewrite !andb_true_iff, !negb_true_iff, !Z.ltb_ge. unfold days_between.
    intros [Hs Hd]. split; [exact Hs | lia].
Qed.
